(** * cointop10-websocket: the candle bridge, embedded and verified

    The repository holds several generations of one Express/ws server that
    relays exchange kline streams to per-user subscribers.  Two of them are
    embedded first:

    - the aggregating server (second program of [src/unnamed/part_000]),
      which buffers 1-minute candles per user and folds them into coarser
      timeframes ([timeframeToMinutes], [convertToTargetTimeframe],
      [processCandle]);
    - the subscription and connection registries with their HTTP handlers
      and socket callbacks ([connectExchange], [/connect], [/disconnect],
      the ['open'] and ['close'] handlers and the reconnect timer), as in
      [src/index.js] and, with the key suffix [-1m] and the buffer
      clean-up, in the aggregating server.

    They are followed by the message handlers of both, by [/health] and
    [/status], and by the three earlier generations: the Binance-only
    server (first program of [src/unnamed/part_000]), the per-timeframe
    server ([src/unnamed/part_002]) and the first bridge, which has one
    registry and no users ([src/unnamed/part_001]).

    JavaScript numbers that carry prices and volumes are IEEE-754 doubles
    and are embedded as Rocq's primitive binary64 floats; counts and array
    indices are integers, with [None] standing for NaN where a coercion can
    produce it.  [Map] and [Set] become [gmap] and [gset]; where a handler
    iterates over them, it is given the entries as the list that the
    iteration yields.  The fields of a request body are
    strings or missing.  A [WebSocket] is a record in a list of all sockets
    constructed so far, and its callbacks and the reconnect timer are events
    that the environment fires one at a time, as the single-threaded event
    loop does; so is the moment a socket starts closing on its own, which
    changes its [readyState] before any callback of the program runs. *)

From Stdlib Require Import ZArith PrimFloat.
From stdpp Require Import gmap strings list fin_maps.

Local Open Scope string_scope.
Local Open Scope list_scope.
Local Open Scope Z_scope.
Local Open Scope stdpp_scope.

(** ** Built-ins of the language used by the program *)

Module Js.

(** A number that came out of a coercion: [None] is NaN. *)
Abbreviation number := (option Z).

Definition lt (a b : number) : bool :=
  match a, b with Some x, Some y => x <? y | _, _ => false end.

Definition gt (a b : number) : bool := lt b a.

Definition ge (a b : number) : bool :=
  match a, b with Some x, Some y => y <=? x | _, _ => false end.

Definition neg (a : number) : number := Z.opp <$> a.

Definition mul (a b : number) : number :=
  match a, b with Some x, Some y => Some (x * y) | _, _ => None end.

Definition len {A} (l : list A) : number := Some (Z.of_nat (length l)).

(** [Array.prototype.slice(start)]: NaN counts as 0, a negative start is
    taken from the end, and the start is clamped to the array. *)
Definition slice {A} (start : number) (l : list A) : list A :=
  let n := Z.of_nat (length l) in
  let relativeStart := default 0 start in
  let k := if relativeStart <? 0 then Z.max (n + relativeStart) 0
           else Z.min relativeStart n in
  drop (Z.to_nat k) l.

(** [Math.max(...values)]: starts from -Infinity, NaN is absorbing, and +0
    is above -0. *)
Fixpoint Math_max_from (highest : float) (values : list float) : float :=
  match values with
  | [] => highest
  | x :: rest =>
      if PrimFloat.is_nan x then PrimFloat.nan
      else match PrimFloat.classify x, PrimFloat.classify highest with
           | FloatClass.PZero, FloatClass.NZero => Math_max_from x rest
           | _, _ => if PrimFloat.ltb highest x then Math_max_from x rest
                     else Math_max_from highest rest
           end
  end.

Definition Math_max (values : list float) : float :=
  Math_max_from PrimFloat.neg_infinity values.

(** [Math.min(...values)], the mirror image. *)
Fixpoint Math_min_from (lowest : float) (values : list float) : float :=
  match values with
  | [] => lowest
  | x :: rest =>
      if PrimFloat.is_nan x then PrimFloat.nan
      else match PrimFloat.classify x, PrimFloat.classify lowest with
           | FloatClass.NZero, FloatClass.PZero => Math_min_from x rest
           | _, _ => if PrimFloat.ltb x lowest then Math_min_from x rest
                     else Math_min_from lowest rest
           end
  end.

Definition Math_min (values : list float) : float :=
  Math_min_from PrimFloat.infinity values.

(** [String.prototype.startsWith]. *)
Definition startsWith (s searchString : string) : bool :=
  String.prefix searchString s.

(** [String.prototype.includes]. *)
Definition includes (s searchString : string) : bool :=
  bool_decide (is_Some (String.index 0 searchString s)).

(** [String.prototype.toLowerCase] on the ASCII letters.  No other
    character lower-cases to a letter of the exchange names the program
    compares with. *)
Definition lower (c : Ascii.ascii) : Ascii.ascii :=
  let n := Ascii.nat_of_ascii c in
  if bool_decide (65 ≤ n ≤ 90)%nat then Ascii.ascii_of_nat (n + 32) else c.

Fixpoint toLowerCase (s : string) : string :=
  match s with
  | EmptyString => EmptyString
  | String c rest => String (lower c) (toLowerCase rest)
  end.

(** The names every object literal inherits from [Object.prototype]; all
    of them are bound to functions or objects, hence truthy and, coerced to
    a number, NaN. *)
Definition Object_prototype : list string :=
  [ "constructor"; "__defineGetter__"; "__defineSetter__"; "hasOwnProperty";
    "__lookupGetter__"; "__lookupSetter__"; "isPrototypeOf";
    "propertyIsEnumerable"; "toString"; "valueOf"; "__proto__";
    "toLocaleString" ].

(** The value of a property read on an object literal whose own properties
    are numbers. *)
Inductive value :=
  | Num (z : Z)
  | Inherited (name : string)
  | Undefined.

Definition get (own : gmap string Z) (name : string) : value :=
  match own !! name with
  | Some z => Num z
  | None => if bool_decide (name ∈ Object_prototype) then Inherited name
            else Undefined
  end.

Definition truthy (v : value) : bool :=
  match v with
  | Num z => negb (z =? 0)
  | Inherited _ => true
  | Undefined => false
  end.

Definition ToNumber (v : value) : number :=
  match v with Num z => Some z | _ => None end.

End Js.

(** ** The aggregating server: 1-minute candles folded into a timeframe *)

Module Aggregator.

Record candle := Candle {
  exchange : string;
  symbol : string;
  timeframe : string;
  timestamp : Z;
  open : float;
  high : float;
  low : float;
  close : float;
  volume : float
}.

(** [const map = { '1m': 1, ... }] *)
Definition map : gmap string Z :=
  list_to_map [("1m", 1); ("5m", 5); ("15m", 15); ("30m", 30); ("1h", 60); ("4h", 240)].

(** [return map[timeframe] || 1] *)
Definition timeframeToMinutes (timeframe : string) : Js.value :=
  let found := Js.get map timeframe in
  if Js.truthy found then found else Js.Num 1.

(** What a call of [convertToTargetTimeframe] ends in: [null], the derived
    candle, or the TypeError of reading a field of [chunk[0]] when the chunk
    is empty. *)
Inductive converted :=
  | Null
  | Derived (c : candle)
  | TypeError.

(** The object literal returned by [convertToTargetTimeframe], as a
    function of [chunk]. *)
Definition fold_chunk (chunk : list candle) (targetTimeframe : string) : converted :=
  match head chunk, last chunk with
  | Some first, Some final =>
      Derived {|
        exchange := exchange first;
        symbol := symbol first;
        timeframe := targetTimeframe;
        timestamp := timestamp first;
        open := open first;
        high := Js.Math_max (high <$> chunk);
        low := Js.Math_min (low <$> chunk);
        close := close final;
        volume := fold_left (λ sum c, PrimFloat.add sum (volume c)) chunk PrimFloat.zero
      |}
  | _, _ => TypeError
  end.

Definition convertToTargetTimeframe (candles : list candle) (targetTimeframe : string)
  : converted :=
  let minutes := timeframeToMinutes targetTimeframe in
  if Js.lt (Js.len candles) (Js.ToNumber minutes) then Null
  else
    let chunk := Js.slice (Js.neg (Js.ToNumber minutes)) candles in
    fold_chunk chunk targetTimeframe.

(** A value of [candleBuffers]. *)
Record buffer := Buffer {
  candles : list candle;
  targetTimeframe : string
}.

(** [`${userId}-${candle1m.exchange}-${candle1m.symbol}`] *)
Definition bufferKey (userId : string) (candle1m : candle) : string :=
  userId +:+ "-" +:+ exchange candle1m +:+ "-" +:+ symbol candle1m.

(** The buffer after [push] and the size limit, before any conversion. *)
Definition pushed (candleBuffers : gmap string buffer)
    (candle1m : candle) (userId target : string) : buffer :=
  let buffer :=
    default {| candles := []; targetTimeframe := target |}
            (candleBuffers !! bufferKey userId candle1m) in
  let candles1 := candles buffer ++ [candle1m] in
  let requiredCandles := Js.ToNumber (timeframeToMinutes target) in
  let candles2 :=
    if Js.gt (Js.len candles1) (Js.mul requiredCandles (Some 2))
    then Js.slice (Js.mul (Js.neg requiredCandles) (Some 2)) candles1
    else candles1 in
  {| candles := candles2; targetTimeframe := targetTimeframe buffer |}.

(** [processCandle]: the new [candleBuffers] and what went to
    [sendToWorker], as (candle, userId) pairs.  The call is taken as one
    step: nothing else runs while it awaits [sendToWorker]. *)
Definition processCandle (candleBuffers : gmap string buffer)
    (candle1m : candle) (userId target : string)
  : gmap string buffer * list (candle * string) :=
  let key := bufferKey userId candle1m in
  let buffer := pushed candleBuffers candle1m userId target in
  let requiredCandles := Js.ToNumber (timeframeToMinutes target) in
  if Js.ge (Js.len (candles buffer)) requiredCandles then
    match convertToTargetTimeframe (candles buffer) target with
    | Derived convertedCandle =>
        (<[key := {| candles := Js.slice requiredCandles (candles buffer);
                     targetTimeframe := targetTimeframe buffer |}]> candleBuffers,
         [(convertedCandle, userId)])
    | _ => (<[key := buffer]> candleBuffers, [])
    end
  else (<[key := buffer]> candleBuffers, []).

(** A run of [processCandle] over the calls of one message handler
    after another: each call is (candle, userId, target timeframe). *)
Fixpoint processAll (candleBuffers : gmap string buffer)
    (calls : list (candle * string * string))
  : gmap string buffer * list (candle * string) :=
  match calls with
  | [] => (candleBuffers, [])
  | (candle1m, userId, target) :: rest =>
      let '(next, sent) := processCandle candleBuffers candle1m userId target in
      let '(final, sent') := processAll next rest in
      (final, sent ++ sent')
  end.

End Aggregator.

(** ** The registries, the HTTP handlers and the socket callbacks *)

Module Bridge.

(** The two programs that share this code.  [PassThrough] is
    [src/index.js]: a connection is registered under
    [`${exchange}-${symbol}`] and there are no buffers.  [Aggregate] is the
    aggregating server: the connection key ends in [-1m] and [/disconnect]
    also deletes the user's buffer. *)
Inductive program := PassThrough | Aggregate.

Inductive readyState := CONNECTING | OPEN | CLOSING | CLOSED.

(** A [WebSocket] object together with the variables its callbacks close
    over; [sent] lists the (op, args) messages handed to [ws.send]. *)
Record WebSocket := Socket {
  url : string;
  exchange : string;
  symbol : string;
  state : readyState;
  sent : list (string * list string)
}.

(** A pending [setTimeout] callback of a ['close'] handler. *)
Record timeout := Timeout {
  delay : Z;
  timeout_exchange : string;
  timeout_symbol : string
}.

(** The module-level state.  [sockets] holds every [WebSocket] constructed
    so far; [activeConnections] refers to them by position. *)
Record server := Server {
  userSubscriptions : gmap string (gset string);
  activeConnections : gmap string nat;
  candleBuffers : gmap string Aggregator.buffer;
  sockets : list WebSocket;
  timers : list timeout
}.

Definition init : server :=
  {| userSubscriptions := ∅; activeConnections := ∅; candleBuffers := ∅;
     sockets := []; timers := [] |}.

(** [`${exchange}-${symbol}`] in [src/index.js], [`${exchange}-${symbol}-1m`]
    in the aggregating server. *)
Definition connectionKey (p : program) (exchange symbol : string) : string :=
  match p with
  | PassThrough => exchange +:+ "-" +:+ symbol
  | Aggregate => exchange +:+ "-" +:+ symbol +:+ "-1m"
  end.

(** [`${exchange}-${symbol}-${timeframe}`] *)
Definition subscriptionKey (exchange symbol timeframe : string) : string :=
  exchange +:+ "-" +:+ symbol +:+ "-" +:+ timeframe.

(** [`${exchange}-${symbol}-`], the argument of [startsWith]. *)
Definition subscriptionPrefix (exchange symbol : string) : string :=
  exchange +:+ "-" +:+ symbol +:+ "-".

(** The [switch] of [connectExchange]; [None] is the [default] case. *)
Definition wsUrl (exchange symbol : string) : option string :=
  let name := Js.toLowerCase exchange in
  if bool_decide (name = "binance") then
    Some ("wss://fstream.binance.com/ws/" +:+ Js.toLowerCase symbol +:+ "@kline_1m")
  else if bool_decide (name = "binance-testnet") then
    Some ("wss://stream.binancefuture.com/ws/" +:+ Js.toLowerCase symbol +:+ "@kline_1m")
  else if bool_decide (name = "bybit") then
    Some "wss://stream.bybit.com/v5/public/linear"
  else if bool_decide (name = "bybit-testnet") then
    Some "wss://stream-demo.bybit.com/v5/public/linear"
  else None.

(** [connectExchange]: returns at once when the key is registered or the
    exchange is not supported, otherwise constructs a socket.  Nothing is
    registered here: that is left to the ['open'] callback. *)
Definition connectExchange (p : program) (exchange symbol : string) (s : server) : server :=
  let key := connectionKey p exchange symbol in
  if bool_decide (is_Some (activeConnections s !! key)) then s
  else
    match wsUrl exchange symbol with
    | None => s
    | Some wsUrl =>
        {| userSubscriptions := userSubscriptions s;
           activeConnections := activeConnections s;
           candleBuffers := candleBuffers s;
           sockets := sockets s ++
             [ {| url := wsUrl; exchange := exchange; symbol := symbol;
                  state := CONNECTING; sent := [] |} ];
           timers := timers s |}
    end.

(** [ws.on('open', ...)] for the socket at position [ws]. *)
Definition on_open (p : program) (ws : nat) (s : server) : server :=
  match sockets s !! ws with
  | Some socket =>
      match state socket with
      | CONNECTING =>
          let key := connectionKey p (exchange socket) (symbol socket) in
          let subscribe :=
            if Js.includes (Js.toLowerCase (exchange socket)) "bybit"
            then [("subscribe", ["kline.1." +:+ symbol socket])] else [] in
          {| userSubscriptions := userSubscriptions s;
             activeConnections := <[key := ws]> (activeConnections s);
             candleBuffers := candleBuffers s;
             sockets := <[ws := {| url := url socket; exchange := exchange socket;
                                   symbol := symbol socket; state := OPEN;
                                   sent := sent socket ++ subscribe |}]> (sockets s);
             timers := timers s |}
      | _ => s
      end
  | None => s
  end.

(** [ws.on('close', ...)]: the key is deleted and the reconnect callback is
    queued with its 5000 ms delay. *)
Definition on_close (p : program) (ws : nat) (s : server) : server :=
  match sockets s !! ws with
  | Some socket =>
      match state socket with
      | CLOSED => s
      | _ =>
          let key := connectionKey p (exchange socket) (symbol socket) in
          {| userSubscriptions := userSubscriptions s;
             activeConnections := delete key (activeConnections s);
             candleBuffers := candleBuffers s;
             sockets := <[ws := {| url := url socket; exchange := exchange socket;
                                   symbol := symbol socket; state := CLOSED;
                                   sent := sent socket |}]> (sockets s);
             timers := timers s ++
               [ {| delay := 5000; timeout_exchange := exchange socket;
                    timeout_symbol := symbol socket |} ] |}
      end
  | None => s
  end.

(** The loop of the reconnect callback: is there an entry whose key starts
    with the prefix and whose set is not empty? *)
Definition hasSubscribers (exchange symbol : string)
    (subscriptions : gmap string (gset string)) : bool :=
  existsb (λ '(subKey, users),
             Js.startsWith subKey (subscriptionPrefix exchange symbol)
             && bool_decide (0 < size users)%nat)
          (map_to_list subscriptions).

(** The callback handed to [setTimeout], run when the timer at position
    [i] fires. *)
Definition on_timeout (p : program) (i : nat) (s : server) : server :=
  match timers s !! i with
  | Some t =>
      let s' := {| userSubscriptions := userSubscriptions s;
                   activeConnections := activeConnections s;
                   candleBuffers := candleBuffers s;
                   sockets := sockets s;
                   timers := delete i (timers s) |} in
      if hasSubscribers (timeout_exchange t) (timeout_symbol t) (userSubscriptions s)
      then connectExchange p (timeout_exchange t) (timeout_symbol t) s'
      else s'
  | None => s
  end.

(** [req.body] after destructuring: a field is [None] when it is missing
    or [null]. *)
Record body := Body {
  body_exchange : option string;
  body_symbol : option string;
  body_timeframe : option string;
  body_userId : option string
}.

(** [!field] *)
Definition falsy (field : option string) : bool :=
  match field with
  | None => true
  | Some v => bool_decide (v = "")
  end.

Inductive response :=
  | BadRequest (error : string)
  | Connected (message : string) (subscribers : nat)
  | Disconnected (message : string).

Definition connectedNote (p : program) : string :=
  match p with
  | PassThrough => " (receiving 1m candles)"
  | Aggregate => " (via 1m candles)"
  end.

(** [app.post('/connect', ...)] *)
Definition connect (p : program) (b : body) (s : server) : server * response :=
  if falsy (body_exchange b) || falsy (body_symbol b)
     || falsy (body_timeframe b) || falsy (body_userId b)
  then (s, BadRequest "Missing required fields: exchange, symbol, timeframe, userId")
  else
    let exchange := default "" (body_exchange b) in
    let symbol := default "" (body_symbol b) in
    let timeframe := default "" (body_timeframe b) in
    let userId := default "" (body_userId b) in
    let key := subscriptionKey exchange symbol timeframe in
    let created :=
      if bool_decide (is_Some (userSubscriptions s !! key)) then userSubscriptions s
      else <[key := ∅]> (userSubscriptions s) in
    let added := alter (λ users, users ∪ {[userId]}) key created in
    let s1 := {| userSubscriptions := added;
                 activeConnections := activeConnections s;
                 candleBuffers := candleBuffers s;
                 sockets := sockets s;
                 timers := timers s |} in
    let baseKey := connectionKey p exchange symbol in
    let s2 :=
      if bool_decide (is_Some (activeConnections s1 !! baseKey)) then s1
      else connectExchange p exchange symbol s1 in
    (s2, Connected ("Connected to " +:+ key +:+ connectedNote p)
                   (size (default ∅ (added !! key)))).

(** [ws.close()] on the socket at position [ws]. *)
Definition close (ws : nat) (sockets : list WebSocket) : list WebSocket :=
  match sockets !! ws with
  | Some socket =>
      <[ws := {| url := url socket; exchange := exchange socket;
                 symbol := symbol socket;
                 state := match state socket with CLOSED => CLOSED | _ => CLOSING end;
                 sent := sent socket |}]> sockets
  | None => sockets
  end.

(** The [hasOtherSubs] loop of [/disconnect]. *)
Definition hasOtherSubs (exchange symbol : string)
    (subscriptions : gmap string (gset string)) : bool :=
  existsb (λ '(subKey, _), Js.startsWith subKey (subscriptionPrefix exchange symbol))
          (map_to_list subscriptions).

(** [app.post('/disconnect', ...)] *)
Definition disconnect (p : program) (b : body) (s : server) : server * response :=
  if falsy (body_exchange b) || falsy (body_symbol b)
     || falsy (body_timeframe b) || falsy (body_userId b)
  then (s, BadRequest "Missing required fields")
  else
    let exchange := default "" (body_exchange b) in
    let symbol := default "" (body_symbol b) in
    let timeframe := default "" (body_timeframe b) in
    let userId := default "" (body_userId b) in
    let key := subscriptionKey exchange symbol timeframe in
    let '(subscriptions, connections, sockets') :=
      if bool_decide (is_Some (userSubscriptions s !! key)) then
        let removed := alter (λ users, users ∖ {[userId]}) key (userSubscriptions s) in
        if bool_decide (size (default ∅ (removed !! key)) = 0%nat) then
          let deleted := delete key removed in
          if hasOtherSubs exchange symbol deleted then
            (deleted, activeConnections s, sockets s)
          else
            let baseKey := connectionKey p exchange symbol in
            match activeConnections s !! baseKey with
            | Some ws => (deleted, delete baseKey (activeConnections s), close ws (sockets s))
            | None => (deleted, activeConnections s, sockets s)
            end
        else (removed, activeConnections s, sockets s)
      else (userSubscriptions s, activeConnections s, sockets s) in
    let buffers :=
      match p with
      | PassThrough => candleBuffers s
      | Aggregate => delete (userId +:+ "-" +:+ exchange +:+ "-" +:+ symbol) (candleBuffers s)
      end in
    ({| userSubscriptions := subscriptions;
        activeConnections := connections;
        candleBuffers := buffers;
        sockets := sockets';
        timers := timers s |},
     Disconnected ("Disconnected from " +:+ key)).

(** The socket at position [ws] starts closing without the program having
    called [ws.close()]: the peer's close frame has arrived, or the
    handshake or the connection has failed.  Its [readyState] becomes
    CLOSING as it does in [ws.close()]; the only callback that may run is
    ['error'], which logs.  The registries are as they were until the
    ['close'] callback runs. *)
Definition on_closing (ws : nat) (s : server) : server :=
  {| userSubscriptions := userSubscriptions s;
     activeConnections := activeConnections s;
     candleBuffers := candleBuffers s;
     sockets := close ws (sockets s);
     timers := timers s |}.

(** What can happen to the server, one callback or socket transition at a
    time. *)
Inductive event :=
  | PostConnect (b : body)
  | PostDisconnect (b : body)
  | WsOpen (ws : nat)
  | WsClose (ws : nat)
  | TimerFires (i : nat)
  | WsClosing (ws : nat).

Definition step (p : program) (s : server) (e : event) : server :=
  match e with
  | PostConnect b => fst (connect p b s)
  | PostDisconnect b => fst (disconnect p b s)
  | WsOpen ws => on_open p ws s
  | WsClose ws => on_close p ws s
  | TimerFires i => on_timeout p i s
  | WsClosing ws => on_closing ws s
  end.

Definition run (p : program) (s : server) (events : list event) : server :=
  fold_left (step p) events s.

(** A complete request body. *)
Definition request (exchange symbol timeframe userId : string) : body :=
  {| body_exchange := Some exchange; body_symbol := Some symbol;
     body_timeframe := Some timeframe; body_userId := Some userId |}.

End Bridge.

(** ** Sample data used in the examples below *)

Module AggregatorSamples.
Import Aggregator.

(** Five 1-minute candles of one symbol, closes 100, 101, 99, 102, 103 and
    volume 1 each. *)
Definition minute (openTime : Z) (o h l c : float) : candle :=
  {| exchange := "binance"; symbol := "BTCUSDT"; timeframe := "1m";
     timestamp := openTime; open := o; high := h; low := l; close := c;
     volume := 1%float |}.




Definition c1 : candle := minute 60000 100 100.5 99.5 100.
Definition c2 : candle := minute 120000 100 101.5 99 101.
Definition c3 : candle := minute 180000 101 101 98 99.
Definition c4 : candle := minute 240000 99 103 99 102.
Definition c5 : candle := minute 300000 102 104 101 103.
Definition c6 : candle := minute 360000 103 105 102.5 104.

End AggregatorSamples.

Module BridgeSamples.
Import Bridge.

(** Two users ask for the same pair, one right after the other. *)
Definition two_requests : list event :=
  [ PostConnect (request "binance" "BTCUSDT" "1m" "u1");
    PostConnect (request "binance" "BTCUSDT" "5m" "u2") ].

(** One user on symbol BTC, another on symbol BTC-USD, both connected. *)
Definition shared_prefix : list event :=
  [ PostConnect (request "binance" "BTC" "1m" "u1"); WsOpen 0;
    PostConnect (request "binance" "BTC-USD" "1m" "u2"); WsOpen 1 ].

(** One user, connected. *)
Definition one_subscriber : list event :=
  [ PostConnect (request "binance" "BTCUSDT" "5m" "u1"); WsOpen 0 ].

End BridgeSamples.

(** ** Messages of the upstream sockets *)

Module Feed.
Import Stdlib.Strings.Ascii.

(** [s.split('-')] *)
Fixpoint split (s : string) : list string :=
  match s with
  | EmptyString => [""]
  | String c rest =>
      if Ascii.eqb c "-"%char then "" :: split rest
      else match split rest with
           | segment :: segments => String c segment :: segments
           | [] => [String c ""]
           end
  end.

(** [subKey.split('-')[2]].  A key with fewer than three segments has no
    such element; [/connect] builds no such key, and the name under which
    [timeframeToMinutes] then looks it up is kept. *)
Definition targetTimeframe (subKey : string) : string :=
  default "undefined" (split subKey !! 2%nat).

(** [message.k] of a Binance kline event: open time, close time, the
    prices and the volume as the strings they are on the wire, and the
    closed flag. *)
Record kline := Kline {
  k_t : Z;
  k_T : Z;
  k_o : string;
  k_h : string;
  k_l : string;
  k_c : string;
  k_v : string;
  k_x : bool
}.

(** An element of [message.data] of a Bybit kline topic. *)
Record bybit_kline := BybitKline {
  kline_start : Z;
  kline_open : string;
  kline_high : string;
  kline_low : string;
  kline_close : string;
  kline_volume : string;
  kline_confirm : bool
}.

(** The fields of a parsed message that the handlers read; [None] is a
    field that is not there. *)
Record message := Message {
  message_e : option string;
  message_k : option kline;
  message_topic : option string;
  message_data : option (list bybit_kline)
}.

Section Handlers.

(** [parseFloat], a built-in, is taken as given. *)
Variable parseFloat : string → float.

Definition binanceCandle (exchange symbol : string) (k : kline) : Aggregator.candle :=
  {| Aggregator.exchange := exchange;
     Aggregator.symbol := symbol;
     Aggregator.timeframe := "1m";
     Aggregator.timestamp := k_t k;
     Aggregator.open := parseFloat (k_o k);
     Aggregator.high := parseFloat (k_h k);
     Aggregator.low := parseFloat (k_l k);
     Aggregator.close := parseFloat (k_c k);
     Aggregator.volume := parseFloat (k_v k) |}.

Definition bybitCandle (exchange symbol : string) (kline : bybit_kline)
  : Aggregator.candle :=
  {| Aggregator.exchange := exchange;
     Aggregator.symbol := symbol;
     Aggregator.timeframe := "1m";
     Aggregator.timestamp := kline_start kline;
     Aggregator.open := parseFloat (kline_open kline);
     Aggregator.high := parseFloat (kline_high kline);
     Aggregator.low := parseFloat (kline_low kline);
     Aggregator.close := parseFloat (kline_close kline);
     Aggregator.volume := parseFloat (kline_volume kline) |}.

(** The candles one message gives rise to, in the order the handler builds
    them: the Binance kline if it is closed, then the confirmed entries of a
    Bybit kline topic.  [None] is a text that [JSON.parse] rejects: the
    handler catches the exception and does nothing. *)
Definition candlesOf (exchange symbol : string) (data : option message)
  : list Aggregator.candle :=
  match data with
  | None => []
  | Some message =>
      (match message_e message, message_k message with
       | Some e, Some k =>
           if bool_decide (e = "kline") && k_x k
           then [binanceCandle exchange symbol k] else []
       | _, _ => []
       end)
      ++
      (match message_topic message, message_data message with
       | Some topic, Some klines =>
           if Js.startsWith topic "kline"
           then bybitCandle exchange symbol <$> filter (λ kline, kline_confirm kline = true) klines
           else []
       | _, _ => []
       end)
  end.

End Handlers.

(** The two nested loops of the handlers, over the entries of
    [userSubscriptions] whose key starts with the prefix and over the users
    of each: what is done for each (subKey, userId), in order.  The entries
    and the users come as the lists that iterating the [Map] and the [Set]
    gives. *)
Definition forEachSubscriber {A} (exchange symbol : string)
    (entries : list (string * list string)) (body : string → string → A) : list A :=
  entries ≫= λ '(subKey, users),
    if Js.startsWith subKey (Bridge.subscriptionPrefix exchange symbol)
    then body subKey <$> users else [].

(** The message handler of [src/index.js]: the (candle, userId) pairs
    handed to [sendToWorker]. *)
Definition on_message (parseFloat : string → float) (exchange symbol : string)
    (entries : list (string * list string)) (data : option message)
  : list (Aggregator.candle * string) :=
  candlesOf parseFloat exchange symbol data ≫= λ candle,
    forEachSubscriber exchange symbol entries (λ _ userId, (candle, userId)).

(** The calls of [processCandle] that the message handler of the
    aggregating server makes. *)
Definition processCalls (parseFloat : string → float) (exchange symbol : string)
    (entries : list (string * list string)) (data : option message)
  : list (Aggregator.candle * string * string) :=
  candlesOf parseFloat exchange symbol data ≫= λ candle,
    forEachSubscriber exchange symbol entries
      (λ subKey userId, (candle, userId, targetTimeframe subKey)).

(** The message handler of the aggregating server. *)
Definition on_message_aggregate (parseFloat : string → float) (exchange symbol : string)
    (entries : list (string * list string)) (data : option message)
    (candleBuffers : gmap string Aggregator.buffer)
  : gmap string Aggregator.buffer * list (Aggregator.candle * string) :=
  Aggregator.processAll candleBuffers (processCalls parseFloat exchange symbol entries data).

End Feed.

(** ** [/health] and [/status] *)

Module Monitor.
Import Bridge.

(** [Array.from(userSubscriptions.values()).reduce((sum, set) => sum + set.size, 0)] *)
Definition totalSubscribers (s : server) : nat :=
  fold_left (λ sum users, (sum + size users)%nat)
            ((map_to_list (userSubscriptions s)).*2) 0%nat.

(** The body of [/health] without [uptime], which is the clock's; [buffers]
    is reported by the aggregating server only. *)
Record health := Health {
  connections : nat;
  subscribers : nat;
  buffers : option nat
}.

Definition getHealth (p : program) (s : server) : health :=
  {| connections := size (activeConnections s);
     subscribers := totalSubscribers s;
     buffers := match p with
                | PassThrough => None
                | Aggregate => Some (size (candleBuffers s))
                end |}.

(** [status.userSubscriptions] of [/status]: the size of each set. *)
Definition statusSubscriptions (s : server) : gmap string nat :=
  size <$> userSubscriptions s.

End Monitor.

(** ** The Binance-only server (first program of [src/unnamed/part_000]) *)

Module BinanceBridge.

(** [s.replace(pattern, replacement)] for a string pattern and a
    replacement without [$]: the first occurrence is replaced. *)
Fixpoint replace (s pattern replacement : string) : string :=
  if String.prefix pattern s
  then replacement +:+ String.substring (String.length pattern) (String.length s) s
  else match s with
       | EmptyString => EmptyString
       | String c rest => String c (replace rest pattern replacement)
       end.

(** A [WebSocket] with the variables its callbacks close over. *)
Record WebSocket := Socket {
  url : string;
  exchange : string;
  symbol : string;
  timeframe : string;
  isTestnet : bool;
  state : Bridge.readyState
}.

(** A pending reconnect callback. *)
Record timeout := Timeout {
  delay : Z;
  timeout_exchange : string;
  timeout_symbol : string;
  timeout_timeframe : string;
  timeout_isTestnet : bool
}.

Record server := Server {
  userSubscriptions : gmap string (gset string);
  activeConnections : gmap string nat;
  sockets : list WebSocket;
  timers : list timeout
}.

(** [connectBinanceWS] *)
Definition connectBinanceWS (exchange symbol timeframe : string) (isTestnet : bool)
    (s : server) : server :=
  let key := Bridge.subscriptionKey exchange symbol timeframe in
  if bool_decide (is_Some (activeConnections s !! key)) then s
  else
    let baseUrl := if isTestnet then "wss://stream.binancefuture.com"
                   else "wss://fstream.binance.com" in
    let stream := Js.toLowerCase symbol +:+ "@kline_" +:+ timeframe in
    let wsUrl := baseUrl +:+ "/ws/" +:+ stream in
    {| userSubscriptions := userSubscriptions s;
       activeConnections := activeConnections s;
       sockets := sockets s ++
         [ {| url := wsUrl; exchange := exchange; symbol := symbol;
              timeframe := timeframe; isTestnet := isTestnet;
              state := Bridge.CONNECTING |} ];
       timers := timers s |}.

(** [ws.on('open', ...)] *)
Definition on_open (ws : nat) (s : server) : server :=
  match sockets s !! ws with
  | Some socket =>
      match state socket with
      | Bridge.CONNECTING =>
          let key := Bridge.subscriptionKey (exchange socket) (symbol socket)
                                            (timeframe socket) in
          {| userSubscriptions := userSubscriptions s;
             activeConnections := <[key := ws]> (activeConnections s);
             sockets := <[ws := {| url := url socket; exchange := exchange socket;
                                   symbol := symbol socket;
                                   timeframe := timeframe socket;
                                   isTestnet := isTestnet socket;
                                   state := Bridge.OPEN |}]> (sockets s);
             timers := timers s |}
      | _ => s
      end
  | None => s
  end.

(** [ws.on('close', ...)] *)
Definition on_close (ws : nat) (s : server) : server :=
  match sockets s !! ws with
  | Some socket =>
      match state socket with
      | Bridge.CLOSED => s
      | _ =>
          let key := Bridge.subscriptionKey (exchange socket) (symbol socket)
                                            (timeframe socket) in
          {| userSubscriptions := userSubscriptions s;
             activeConnections := delete key (activeConnections s);
             sockets := <[ws := {| url := url socket; exchange := exchange socket;
                                   symbol := symbol socket;
                                   timeframe := timeframe socket;
                                   isTestnet := isTestnet socket;
                                   state := Bridge.CLOSED |}]> (sockets s);
             timers := timers s ++
               [ {| delay := 5000; timeout_exchange := exchange socket;
                    timeout_symbol := symbol socket;
                    timeout_timeframe := timeframe socket;
                    timeout_isTestnet := isTestnet socket |} ] |}
      end
  | None => s
  end.

(** The callback handed to [setTimeout]: it looks the key itself up. *)
Definition on_timeout (i : nat) (s : server) : server :=
  match timers s !! i with
  | Some t =>
      let s' := {| userSubscriptions := userSubscriptions s;
                   activeConnections := activeConnections s;
                   sockets := sockets s;
                   timers := delete i (timers s) |} in
      let key := Bridge.subscriptionKey (timeout_exchange t) (timeout_symbol t)
                                        (timeout_timeframe t) in
      match userSubscriptions s !! key with
      | Some users =>
          if bool_decide (0 < size users)%nat
          then connectBinanceWS (timeout_exchange t) (timeout_symbol t)
                                (timeout_timeframe t) (timeout_isTestnet t) s'
          else s'
      | None => s'
      end
  | None => s
  end.

Inductive response :=
  | BadRequest (error : string)
  | Success (message : string).

(** [app.post('/connect', ...)] *)
Definition connect (b : Bridge.body) (s : server) : server * response :=
  if Bridge.falsy (Bridge.body_exchange b) || Bridge.falsy (Bridge.body_symbol b)
     || Bridge.falsy (Bridge.body_timeframe b) || Bridge.falsy (Bridge.body_userId b)
  then (s, BadRequest "Missing required fields: exchange, symbol, timeframe, userId")
  else
    let exchange := default "" (Bridge.body_exchange b) in
    let symbol := default "" (Bridge.body_symbol b) in
    let timeframe := default "" (Bridge.body_timeframe b) in
    let userId := default "" (Bridge.body_userId b) in
    let key := Bridge.subscriptionKey exchange symbol timeframe in
    let created :=
      if bool_decide (is_Some (userSubscriptions s !! key)) then userSubscriptions s
      else <[key := ∅]> (userSubscriptions s) in
    let added := alter (λ users, users ∪ {[userId]}) key created in
    let s1 := {| userSubscriptions := added;
                 activeConnections := activeConnections s;
                 sockets := sockets s;
                 timers := timers s |} in
    if bool_decide (is_Some (activeConnections s1 !! key))
    then (s1, Success ("Connected to " +:+ key))
    else
      let isTestnet := Js.includes exchange "testnet" in
      let baseExchange := replace exchange "-testnet" "" in
      if bool_decide (baseExchange = "binance")
      then (connectBinanceWS exchange symbol timeframe isTestnet s1,
            Success ("Connected to " +:+ key))
      else (s1, BadRequest ("Exchange " +:+ baseExchange +:+ " not supported yet")).

(** [ws.close()] *)
Definition close (ws : nat) (sockets : list WebSocket) : list WebSocket :=
  match sockets !! ws with
  | Some socket =>
      <[ws := {| url := url socket; exchange := exchange socket;
                 symbol := symbol socket; timeframe := timeframe socket;
                 isTestnet := isTestnet socket;
                 state := match state socket with
                          | Bridge.CLOSED => Bridge.CLOSED
                          | _ => Bridge.CLOSING
                          end |}]> sockets
  | None => sockets
  end.

(** [app.post('/disconnect', ...)] *)
Definition disconnect (b : Bridge.body) (s : server) : server * response :=
  if Bridge.falsy (Bridge.body_exchange b) || Bridge.falsy (Bridge.body_symbol b)
     || Bridge.falsy (Bridge.body_timeframe b) || Bridge.falsy (Bridge.body_userId b)
  then (s, BadRequest "Missing required fields")
  else
    let exchange := default "" (Bridge.body_exchange b) in
    let symbol := default "" (Bridge.body_symbol b) in
    let timeframe := default "" (Bridge.body_timeframe b) in
    let userId := default "" (Bridge.body_userId b) in
    let key := Bridge.subscriptionKey exchange symbol timeframe in
    let '(subscriptions, connections, sockets') :=
      if bool_decide (is_Some (userSubscriptions s !! key)) then
        let removed := alter (λ users, users ∖ {[userId]}) key (userSubscriptions s) in
        if bool_decide (size (default ∅ (removed !! key)) = 0%nat) then
          let deleted := delete key removed in
          match activeConnections s !! key with
          | Some ws => (deleted, delete key (activeConnections s), close ws (sockets s))
          | None => (deleted, activeConnections s, sockets s)
          end
        else (removed, activeConnections s, sockets s)
      else (userSubscriptions s, activeConnections s, sockets s) in
    ({| userSubscriptions := subscriptions;
        activeConnections := connections;
        sockets := sockets';
        timers := timers s |},
     Success ("Disconnected from " +:+ key)).

(** [ws.on('message', ...)] of a socket constructed for [exchange],
    [symbol] and [timeframe]: the (candle, userId) pairs handed to
    [sendCandleToWorker], which is not awaited.  [data] is [None] for a text
    that [JSON.parse] rejects; reading [parsed.k.x] of a kline event without
    [k] throws as well, and both exceptions are caught.  [users] is
    [userSubscriptions.get(key)] in the order the [Set] iterates. *)
Definition on_message (parseFloat : string → float) (exchange symbol timeframe : string)
    (users : option (list string)) (data : option Feed.message)
  : list (Aggregator.candle * string) :=
  match data with
  | None => []
  | Some parsed =>
      if bool_decide (Feed.message_e parsed = Some "kline") then
        match Feed.message_k parsed with
        | None => []
        | Some k =>
            if Feed.k_x k then
              let candle :=
                {| Aggregator.exchange := exchange;
                   Aggregator.symbol := symbol;
                   Aggregator.timeframe := timeframe;
                   Aggregator.timestamp := Feed.k_T k;
                   Aggregator.open := parseFloat (Feed.k_o k);
                   Aggregator.high := parseFloat (Feed.k_h k);
                   Aggregator.low := parseFloat (Feed.k_l k);
                   Aggregator.close := parseFloat (Feed.k_c k);
                   Aggregator.volume := parseFloat (Feed.k_v k) |} in
              match users with
              | Some users => (λ userId, (candle, userId)) <$> users
              | None => []
              end
            else []
        end
      else []
  end.

(** The socket starts closing without [ws.close()] having been called by
    the program (the peer's close frame, a failed handshake or connection);
    no callback but the logging ['error'] runs. *)
Definition on_closing (ws : nat) (s : server) : server :=
  {| userSubscriptions := userSubscriptions s;
     activeConnections := activeConnections s;
     sockets := close ws (sockets s);
     timers := timers s |}.

(** What can happen to the server, one callback or socket transition at a
    time. *)
Definition step (s : server) (e : Bridge.event) : server :=
  match e with
  | Bridge.PostConnect b => fst (connect b s)
  | Bridge.PostDisconnect b => fst (disconnect b s)
  | Bridge.WsOpen ws => on_open ws s
  | Bridge.WsClose ws => on_close ws s
  | Bridge.TimerFires i => on_timeout i s
  | Bridge.WsClosing ws => on_closing ws s
  end.

Definition run (s : server) (events : list Bridge.event) : server :=
  fold_left step events s.

Definition init : server :=
  {| userSubscriptions := ∅; activeConnections := ∅; sockets := []; timers := [] |}.

End BinanceBridge.

(** ** The per-timeframe server ([src/unnamed/part_002]) *)

Module Timeframes.

(** A [WebSocket] with the variables its callbacks close over; [sent] lists
    the (op, args) messages handed to [ws.send]. *)
Record WebSocket := Socket {
  url : string;
  exchange : string;
  symbol : string;
  timeframe : string;
  state : Bridge.readyState;
  sent : list (string * list string)
}.

Record timeout := Timeout {
  delay : Z;
  timeout_exchange : string;
  timeout_symbol : string;
  timeout_timeframe : string
}.

Record server := Server {
  userSubscriptions : gmap string (gset string);
  activeConnections : gmap string nat;
  sockets : list WebSocket;
  timers : list timeout
}.

Definition init : server :=
  {| userSubscriptions := ∅; activeConnections := ∅; sockets := []; timers := [] |}.

(** The [switch] of [connectExchange]; [None] is the [default] case. *)
Definition wsUrl (exchange symbol timeframe : string) : option string :=
  let name := Js.toLowerCase exchange in
  if bool_decide (name = "binance") then
    Some ("wss://fstream.binance.com/ws/" +:+ Js.toLowerCase symbol
          +:+ "@kline_" +:+ timeframe)
  else if bool_decide (name = "binance-testnet") then
    Some ("wss://stream.binancefuture.com/ws/" +:+ Js.toLowerCase symbol
          +:+ "@kline_" +:+ timeframe)
  else if bool_decide (name = "bybit") then
    Some "wss://stream.bybit.com/v5/public/linear"
  else if bool_decide (name = "bybit-testnet") then
    Some "wss://stream-demo.bybit.com/v5/public/linear"
  else None.

(** [connectExchange] *)
Definition connectExchange (exchange symbol timeframe : string) (s : server) : server :=
  let key := Bridge.subscriptionKey exchange symbol timeframe in
  if bool_decide (is_Some (activeConnections s !! key)) then s
  else
    match wsUrl exchange symbol timeframe with
    | None => s
    | Some wsUrl =>
        {| userSubscriptions := userSubscriptions s;
           activeConnections := activeConnections s;
           sockets := sockets s ++
             [ {| url := wsUrl; exchange := exchange; symbol := symbol;
                  timeframe := timeframe; state := Bridge.CONNECTING; sent := [] |} ];
           timers := timers s |}
    end.

(** [ws.on('open', ...)] *)
Definition on_open (ws : nat) (s : server) : server :=
  match sockets s !! ws with
  | Some socket =>
      match state socket with
      | Bridge.CONNECTING =>
          let key := Bridge.subscriptionKey (exchange socket) (symbol socket)
                                            (timeframe socket) in
          let subscribe :=
            if Js.includes (Js.toLowerCase (exchange socket)) "bybit"
            then [("subscribe",
                   ["kline." +:+ timeframe socket +:+ "." +:+ symbol socket])]
            else [] in
          {| userSubscriptions := userSubscriptions s;
             activeConnections := <[key := ws]> (activeConnections s);
             sockets := <[ws := {| url := url socket; exchange := exchange socket;
                                   symbol := symbol socket;
                                   timeframe := timeframe socket;
                                   state := Bridge.OPEN;
                                   sent := sent socket ++ subscribe |}]> (sockets s);
             timers := timers s |}
      | _ => s
      end
  | None => s
  end.

(** [ws.on('close', ...)] *)
Definition on_close (ws : nat) (s : server) : server :=
  match sockets s !! ws with
  | Some socket =>
      match state socket with
      | Bridge.CLOSED => s
      | _ =>
          let key := Bridge.subscriptionKey (exchange socket) (symbol socket)
                                            (timeframe socket) in
          {| userSubscriptions := userSubscriptions s;
             activeConnections := delete key (activeConnections s);
             sockets := <[ws := {| url := url socket; exchange := exchange socket;
                                   symbol := symbol socket;
                                   timeframe := timeframe socket;
                                   state := Bridge.CLOSED;
                                   sent := sent socket |}]> (sockets s);
             timers := timers s ++
               [ {| delay := 5000; timeout_exchange := exchange socket;
                    timeout_symbol := symbol socket;
                    timeout_timeframe := timeframe socket |} ] |}
      end
  | None => s
  end.

(** The callback handed to [setTimeout]: it reads the set of its own key. *)
Definition on_timeout (i : nat) (s : server) : server :=
  match timers s !! i with
  | Some t =>
      let s' := {| userSubscriptions := userSubscriptions s;
                   activeConnections := activeConnections s;
                   sockets := sockets s;
                   timers := delete i (timers s) |} in
      let key := Bridge.subscriptionKey (timeout_exchange t) (timeout_symbol t)
                                        (timeout_timeframe t) in
      match userSubscriptions s !! key with
      | Some users =>
          if bool_decide (0 < size users)%nat
          then connectExchange (timeout_exchange t) (timeout_symbol t)
                               (timeout_timeframe t) s'
          else s'
      | None => s'
      end
  | None => s
  end.

(** [app.post('/connect', ...)] *)
Definition connect (b : Bridge.body) (s : server) : server * Bridge.response :=
  if Bridge.falsy (Bridge.body_exchange b) || Bridge.falsy (Bridge.body_symbol b)
     || Bridge.falsy (Bridge.body_timeframe b) || Bridge.falsy (Bridge.body_userId b)
  then (s, Bridge.BadRequest
             "Missing required fields: exchange, symbol, timeframe, userId")
  else
    let exchange := default "" (Bridge.body_exchange b) in
    let symbol := default "" (Bridge.body_symbol b) in
    let timeframe := default "" (Bridge.body_timeframe b) in
    let userId := default "" (Bridge.body_userId b) in
    let key := Bridge.subscriptionKey exchange symbol timeframe in
    let created :=
      if bool_decide (is_Some (userSubscriptions s !! key)) then userSubscriptions s
      else <[key := ∅]> (userSubscriptions s) in
    let added := alter (λ users, users ∪ {[userId]}) key created in
    let s1 := {| userSubscriptions := added;
                 activeConnections := activeConnections s;
                 sockets := sockets s;
                 timers := timers s |} in
    let s2 :=
      if bool_decide (is_Some (activeConnections s1 !! key)) then s1
      else connectExchange exchange symbol timeframe s1 in
    (s2, Bridge.Connected ("Connected to " +:+ key)
                          (size (default ∅ (added !! key)))).

(** [ws.close()] *)
Definition close (ws : nat) (sockets : list WebSocket) : list WebSocket :=
  match sockets !! ws with
  | Some socket =>
      <[ws := {| url := url socket; exchange := exchange socket;
                 symbol := symbol socket; timeframe := timeframe socket;
                 state := match state socket with
                          | Bridge.CLOSED => Bridge.CLOSED
                          | _ => Bridge.CLOSING
                          end;
                 sent := sent socket |}]> sockets
  | None => sockets
  end.

(** [app.post('/disconnect', ...)] *)
Definition disconnect (b : Bridge.body) (s : server) : server * Bridge.response :=
  if Bridge.falsy (Bridge.body_exchange b) || Bridge.falsy (Bridge.body_symbol b)
     || Bridge.falsy (Bridge.body_timeframe b) || Bridge.falsy (Bridge.body_userId b)
  then (s, Bridge.BadRequest "Missing required fields")
  else
    let exchange := default "" (Bridge.body_exchange b) in
    let symbol := default "" (Bridge.body_symbol b) in
    let timeframe := default "" (Bridge.body_timeframe b) in
    let userId := default "" (Bridge.body_userId b) in
    let key := Bridge.subscriptionKey exchange symbol timeframe in
    let '(subscriptions, connections, sockets') :=
      if bool_decide (is_Some (userSubscriptions s !! key)) then
        let removed := alter (λ users, users ∖ {[userId]}) key (userSubscriptions s) in
        if bool_decide (size (default ∅ (removed !! key)) = 0%nat) then
          let deleted := delete key removed in
          match activeConnections s !! key with
          | Some ws => (deleted, delete key (activeConnections s), close ws (sockets s))
          | None => (deleted, activeConnections s, sockets s)
          end
        else (removed, activeConnections s, sockets s)
      else (userSubscriptions s, activeConnections s, sockets s) in
    ({| userSubscriptions := subscriptions;
        activeConnections := connections;
        sockets := sockets';
        timers := timers s |},
     Bridge.Disconnected ("Disconnected from " +:+ key)).

(** The socket starts closing without [ws.close()] having been called by
    the program (the peer's close frame, a failed handshake or connection);
    no callback but the logging ['error'] runs. *)
Definition on_closing (ws : nat) (s : server) : server :=
  {| userSubscriptions := userSubscriptions s;
     activeConnections := activeConnections s;
     sockets := close ws (sockets s);
     timers := timers s |}.

(** What can happen to the server, one callback or socket transition at a
    time. *)
Definition step (s : server) (e : Bridge.event) : server :=
  match e with
  | Bridge.PostConnect b => fst (connect b s)
  | Bridge.PostDisconnect b => fst (disconnect b s)
  | Bridge.WsOpen ws => on_open ws s
  | Bridge.WsClose ws => on_close ws s
  | Bridge.TimerFires i => on_timeout i s
  | Bridge.WsClosing ws => on_closing ws s
  end.

Definition run (s : server) (events : list Bridge.event) : server :=
  fold_left step events s.

Section Handlers.

Variable parseFloat : string → float.

(** The candles one message gives rise to, in the order the handler builds
    them; [None] is a text that [JSON.parse] rejects. *)
Definition candlesOf (exchange symbol timeframe : string) (data : option Feed.message)
  : list Aggregator.candle :=
  match data with
  | None => []
  | Some message =>
      (match Feed.message_e message, Feed.message_k message with
       | Some e, Some k =>
           if bool_decide (e = "kline") && Feed.k_x k
           then [ {| Aggregator.exchange := exchange;
                     Aggregator.symbol := symbol;
                     Aggregator.timeframe := timeframe;
                     Aggregator.timestamp := Feed.k_t k;
                     Aggregator.open := parseFloat (Feed.k_o k);
                     Aggregator.high := parseFloat (Feed.k_h k);
                     Aggregator.low := parseFloat (Feed.k_l k);
                     Aggregator.close := parseFloat (Feed.k_c k);
                     Aggregator.volume := parseFloat (Feed.k_v k) |} ]
           else []
       | _, _ => []
       end)
      ++
      (match Feed.message_topic message, Feed.message_data message with
       | Some topic, Some klines =>
           if Js.startsWith topic "kline"
           then (λ kline,
                   {| Aggregator.exchange := exchange;
                      Aggregator.symbol := symbol;
                      Aggregator.timeframe := timeframe;
                      Aggregator.timestamp := Feed.kline_start kline;
                      Aggregator.open := parseFloat (Feed.kline_open kline);
                      Aggregator.high := parseFloat (Feed.kline_high kline);
                      Aggregator.low := parseFloat (Feed.kline_low kline);
                      Aggregator.close := parseFloat (Feed.kline_close kline);
                      Aggregator.volume := parseFloat (Feed.kline_volume kline) |})
                <$> filter (λ kline, Feed.kline_confirm kline = true) klines
           else []
       | _, _ => []
       end)
  end.

(** [ws.on('message', ...)]: the (candle, userId) pairs handed to
    [sendToWorker], candle by candle.  [users] is
    [userSubscriptions.get(key)] in the order the [Set] iterates; the
    handler is taken as one step. *)
Definition on_message (exchange symbol timeframe : string)
    (users : option (list string)) (data : option Feed.message)
  : list (Aggregator.candle * string) :=
  candlesOf exchange symbol timeframe data ≫= λ candle,
    match users with
    | Some users => (λ userId, (candle, userId)) <$> users
    | None => []
    end.

End Handlers.

End Timeframes.

(** ** The first bridge ([src/unnamed/part_001]): one registry, no users *)

Module Relay.

Record WebSocket := Socket {
  url : string;
  exchange : string;
  symbol : string;
  timeframe : string;
  state : Bridge.readyState;
  sent : list (string * list string)
}.

Record timeout := Timeout {
  delay : Z;
  timeout_exchange : string;
  timeout_symbol : string;
  timeout_timeframe : string
}.

(** [connections] refers to the sockets by their position in [sockets]. *)
Record server := Server {
  connections : gmap string nat;
  sockets : list WebSocket;
  timers : list timeout
}.

Definition init : server :=
  {| connections := ∅; sockets := []; timers := [] |}.

(** [connectExchange]: the socket is registered as soon as it is
    constructed. *)
Definition connectExchange (exchange symbol timeframe : string) (s : server) : server :=
  let key := Bridge.subscriptionKey exchange symbol timeframe in
  if bool_decide (is_Some (connections s !! key)) then s
  else
    (* the [switch] is the one of [src/unnamed/part_002] *)
    match Timeframes.wsUrl exchange symbol timeframe with
    | None => s
    | Some wsUrl =>
        {| connections := <[key := length (sockets s)]> (connections s);
           sockets := sockets s ++
             [ {| url := wsUrl; exchange := exchange; symbol := symbol;
                  timeframe := timeframe; state := Bridge.CONNECTING; sent := [] |} ];
           timers := timers s |}
    end.

(** [ws.on('open', ...)] *)
Definition on_open (ws : nat) (s : server) : server :=
  match sockets s !! ws with
  | Some socket =>
      match state socket with
      | Bridge.CONNECTING =>
          let subscribe :=
            if Js.includes (Js.toLowerCase (exchange socket)) "bybit"
            then [("subscribe",
                   ["kline." +:+ timeframe socket +:+ "." +:+ symbol socket])]
            else [] in
          {| connections := connections s;
             sockets := <[ws := {| url := url socket; exchange := exchange socket;
                                   symbol := symbol socket;
                                   timeframe := timeframe socket;
                                   state := Bridge.OPEN;
                                   sent := sent socket ++ subscribe |}]> (sockets s);
             timers := timers s |}
      | _ => s
      end
  | None => s
  end.

(** [ws.on('close', ...)] *)
Definition on_close (ws : nat) (s : server) : server :=
  match sockets s !! ws with
  | Some socket =>
      match state socket with
      | Bridge.CLOSED => s
      | _ =>
          let key := Bridge.subscriptionKey (exchange socket) (symbol socket)
                                            (timeframe socket) in
          {| connections := delete key (connections s);
             sockets := <[ws := {| url := url socket; exchange := exchange socket;
                                   symbol := symbol socket;
                                   timeframe := timeframe socket;
                                   state := Bridge.CLOSED;
                                   sent := sent socket |}]> (sockets s);
             timers := timers s ++
               [ {| delay := 5000; timeout_exchange := exchange socket;
                    timeout_symbol := symbol socket;
                    timeout_timeframe := timeframe socket |} ] |}
      end
  | None => s
  end.

(** The callback handed to [setTimeout]: it reconnects, whatever happened
    in between. *)
Definition on_timeout (i : nat) (s : server) : server :=
  match timers s !! i with
  | Some t =>
      connectExchange (timeout_exchange t) (timeout_symbol t) (timeout_timeframe t)
        {| connections := connections s;
           sockets := sockets s;
           timers := delete i (timers s) |}
  | None => s
  end.

(** The three fields of [req.body] that the handlers read: a field is a
    string or is not there. *)
Record body := Body {
  body_exchange : option string;
  body_symbol : option string;
  body_timeframe : option string
}.

Inductive response :=
  | BadRequest (error : string)
  | Connected (message : string) (totalConnections : nat)
  | Disconnected (message : string)
  | NotFound (error : string).

(** [app.post('/connect', ...)] *)
Definition connect (b : body) (s : server) : server * response :=
  if Bridge.falsy (body_exchange b) || Bridge.falsy (body_symbol b)
     || Bridge.falsy (body_timeframe b)
  then (s, BadRequest "Missing required fields: exchange, symbol, timeframe")
  else
    let exchange := default "" (body_exchange b) in
    let symbol := default "" (body_symbol b) in
    let timeframe := default "" (body_timeframe b) in
    let s' := connectExchange exchange symbol timeframe s in
    (s', Connected ("Connected to " +:+ exchange +:+ " " +:+ symbol +:+ " " +:+ timeframe)
                   (size (connections s'))).

(** [ws.close()] *)
Definition close (ws : nat) (sockets : list WebSocket) : list WebSocket :=
  match sockets !! ws with
  | Some socket =>
      <[ws := {| url := url socket; exchange := exchange socket;
                 symbol := symbol socket; timeframe := timeframe socket;
                 state := match state socket with
                          | Bridge.CLOSED => Bridge.CLOSED
                          | _ => Bridge.CLOSING
                          end;
                 sent := sent socket |}]> sockets
  | None => sockets
  end.

(** A field in a template literal: one that is not there prints as
    [undefined]. *)
Definition interpolated (field : option string) : string :=
  default "undefined" field.

(** [app.post('/disconnect', ...)]: the fields are not validated. *)
Definition disconnect (b : body) (s : server) : server * response :=
  let key := Bridge.subscriptionKey (interpolated (body_exchange b))
                                    (interpolated (body_symbol b))
                                    (interpolated (body_timeframe b)) in
  match connections s !! key with
  | Some ws =>
      ({| connections := delete key (connections s);
          sockets := close ws (sockets s);
          timers := timers s |},
       Disconnected ("Disconnected " +:+ key))
  | None => (s, NotFound ("Connection not found: " +:+ key))
  end.

(** The socket starts closing without [ws.close()] having been called by
    the program (the peer's close frame, a failed handshake or connection);
    no callback but the logging ['error'] runs, and the socket stays in
    [connections] until its ['close'] callback runs. *)
Definition on_closing (ws : nat) (s : server) : server :=
  {| connections := connections s;
     sockets := close ws (sockets s);
     timers := timers s |}.

(** What can happen to the server, one callback or socket transition at a
    time. *)
Inductive event :=
  | PostConnect (b : body)
  | PostDisconnect (b : body)
  | WsOpen (ws : nat)
  | WsClose (ws : nat)
  | TimerFires (i : nat)
  | WsClosing (ws : nat).

Definition step (s : server) (e : event) : server :=
  match e with
  | PostConnect b => fst (connect b s)
  | PostDisconnect b => fst (disconnect b s)
  | WsOpen ws => on_open ws s
  | WsClose ws => on_close ws s
  | TimerFires i => on_timeout i s
  | WsClosing ws => on_closing ws s
  end.

Definition run (s : server) (events : list event) : server :=
  fold_left step events s.

(** A complete request body. *)
Definition request (exchange symbol timeframe : string) : body :=
  {| body_exchange := Some exchange; body_symbol := Some symbol;
     body_timeframe := Some timeframe |}.

(** [ws.on('message', ...)]: the candles handed to [sendToWorker], in
    order; they are built as in [src/unnamed/part_002]. *)
Definition on_message (parseFloat : string → float) (exchange symbol timeframe : string)
    (data : option Feed.message) : list Aggregator.candle :=
  Timeframes.candlesOf parseFloat exchange symbol timeframe data.

End Relay.

(** * Properties of the aggregating server *)

Module AggregatorSpec.
Import Aggregator AggregatorSamples.

(** ** [Math.max] and [Math.min] *)

(** The result is NaN, the starting value, or one of the values. *)
Lemma Math_max_from_cases highest values :
  Js.Math_max_from highest values = PrimFloat.nan
  ∨ Js.Math_max_from highest values = highest
  ∨ Js.Math_max_from highest values ∈ values.
Proof.
  revert highest. induction values as [|x rest IH]; intros highest; [by right; left |].
  cbn [Js.Math_max_from].
  destruct (PrimFloat.is_nan x); [by left |].
  assert (Js.Math_max_from x rest = PrimFloat.nan
          ∨ Js.Math_max_from x rest ∈ x :: rest) as Hx.
  { destruct (IH x) as [? | [-> | ?]]; [by left | right; left | right; by right]. }
  assert (Js.Math_max_from highest rest = PrimFloat.nan
          ∨ Js.Math_max_from highest rest = highest
          ∨ Js.Math_max_from highest rest ∈ x :: rest) as Hh.
  { destruct (IH highest) as [? | [? | ?]]; [by left | by right; left |].
    right; right; by right. }
  destruct (PrimFloat.classify x), (PrimFloat.classify highest),
    (PrimFloat.ltb highest x); tauto.
Qed.

Lemma Math_min_from_cases lowest values :
  Js.Math_min_from lowest values = PrimFloat.nan
  ∨ Js.Math_min_from lowest values = lowest
  ∨ Js.Math_min_from lowest values ∈ values.
Proof.
  revert lowest. induction values as [|x rest IH]; intros lowest; [by right; left |].
  cbn [Js.Math_min_from].
  destruct (PrimFloat.is_nan x); [by left |].
  assert (Js.Math_min_from x rest = PrimFloat.nan
          ∨ Js.Math_min_from x rest ∈ x :: rest) as Hx.
  { destruct (IH x) as [? | [-> | ?]]; [by left | right; left | right; by right]. }
  assert (Js.Math_min_from lowest rest = PrimFloat.nan
          ∨ Js.Math_min_from lowest rest = lowest
          ∨ Js.Math_min_from lowest rest ∈ x :: rest) as Hl.
  { destruct (IH lowest) as [? | [? | ?]]; [by left | by right; left |].
    right; right; by right. }
  destruct (PrimFloat.classify x), (PrimFloat.classify lowest),
    (PrimFloat.ltb x lowest); tauto.
Qed.

(** ** [timeframeToMinutes] *)

Lemma map_lookup_Some tf z :
  map !! tf = Some z → z ∈ [1; 5; 15; 30; 60; 240].
Proof.
  intros H. apply elem_of_list_to_map_2 in H.
  repeat (apply elem_of_cons in H as [H | H];
          [ inversion H; subst; set_solver | ]).
  by apply elem_of_nil in H.
Qed.

Lemma timeframeToMinutes_positive tf n :
  timeframeToMinutes tf = Js.Num n → 1 ≤ n.
Proof.
  unfold timeframeToMinutes, Js.get.
  destruct (map !! tf) as [z|] eqn:Hz.
  - apply map_lookup_Some in Hz. simpl.
    destruct (z =? 0) eqn:Hz0; simpl; intros [= <-]; [lia|].
    set_unfold. lia.
  - case_bool_decide; simpl; [discriminate | intros [= <-]; lia].
Qed.

(** ** [slice] *)

Lemma slice_from_end {A} (n : Z) (l : list A) :
  1 ≤ n → Js.slice (Some (- n)) l = drop (length l - Z.to_nat n) l.
Proof.
  intros Hn. unfold Js.slice. simpl.
  destruct (- n <? 0) eqn:Hlt; [| lia].
  f_equal. lia.
Qed.

Lemma slice_from_start {A} (n : Z) (l : list A) :
  0 ≤ n → Js.slice (Some n) l = drop (Z.to_nat n) l.
Proof.
  intros Hn. unfold Js.slice. simpl.
  destruct (n <? 0) eqn:Hlt; [lia |].
  destruct (decide (n ≤ Z.of_nat (length l))) as [Hle | Hgt].
  - by rewrite Z.min_l.
  - rewrite Z.min_r by lia. rewrite Nat2Z.id.
    rewrite !drop_ge; [done | lia | lia].
Qed.

(** ** [convertToTargetTimeframe] *)

Lemma fold_chunk_cons first rest tf :
  fold_chunk (first :: rest) tf =
  Derived {|
    exchange := exchange first;
    symbol := symbol first;
    timeframe := tf;
    timestamp := timestamp first;
    open := open first;
    high := Js.Math_max (high <$> first :: rest);
    low := Js.Math_min (low <$> first :: rest);
    close := close (default first (last rest));
    volume := fold_left (λ sum c, PrimFloat.add sum (volume c)) (first :: rest)
                        PrimFloat.zero
  |}.
Proof.
  unfold fold_chunk. rewrite last_cons. simpl head.
  by destruct (last rest).
Qed.

Lemma convert_enough candles tf n :
  timeframeToMinutes tf = Js.Num n →
  n ≤ Z.of_nat (length candles) →
  convertToTargetTimeframe candles tf =
  fold_chunk (drop (length candles - Z.to_nat n) candles) tf.
Proof.
  intros Hn Hlen. pose proof (timeframeToMinutes_positive _ _ Hn).
  unfold convertToTargetTimeframe. rewrite Hn. simpl.
  destruct (Z.of_nat (length candles) <? n) eqn:Hlt; [lia |].
  by rewrite slice_from_end.
Qed.

(** C1: a buffer of exactly n candles, folded for a timeframe that needs n
    of them, gives the candle that opens with the first candle (open and
    open time), closes with the last, has the maximum of the highs, the
    minimum of the lows and the sum of the volumes, and carries the target
    timeframe. *)
Theorem derived_candle_of_exact_buffer tf n first rest :
  timeframeToMinutes tf = Js.Num n →
  Z.of_nat (length (first :: rest)) = n →
  convertToTargetTimeframe (first :: rest) tf =
  Derived {|
    exchange := exchange first;
    symbol := symbol first;
    timeframe := tf;
    timestamp := timestamp first;
    open := open first;
    high := Js.Math_max (high <$> first :: rest);
    low := Js.Math_min (low <$> first :: rest);
    close := close (default first (last rest));
    volume := fold_left (λ sum c, PrimFloat.add sum (volume c)) (first :: rest)
                        PrimFloat.zero
  |}.
Proof.
  intros Hn Hlen.
  rewrite (convert_enough _ _ n) by (done || lia).
  replace (length (first :: rest) - Z.to_nat n)%nat with 0%nat by lia.
  apply fold_chunk_cons.
Qed.

Lemma derived_candle_of_exact_buffer_witness :
  convertToTargetTimeframe (c1 :: [c2; c3; c4; c5]) "5m" =
  Derived {|
    exchange := "binance"; symbol := "BTCUSDT"; timeframe := "5m";
    timestamp := 60000; open := 100;
    high := Js.Math_max (high <$> c1 :: [c2; c3; c4; c5]);
    low := Js.Math_min (low <$> c1 :: [c2; c3; c4; c5]);
    close := 103;
    volume := fold_left (λ sum c, PrimFloat.add sum (volume c))
                        (c1 :: [c2; c3; c4; c5]) PrimFloat.zero
  |}.
Proof.
  exact (derived_candle_of_exact_buffer "5m" 5 c1 [c2; c3; c4; c5] eq_refl eq_refl).
Defined.

(** The example of the specification, run: five candles for a 5m
    subscriber give one candle, with volume 5 and close 103. *)
Example five_minutes_of_candles :
  (processAll ∅ ((λ c, (c, "u1", "5m")) <$> [c1; c2; c3; c4; c5])).2 =
  [ ({| exchange := "binance"; symbol := "BTCUSDT"; timeframe := "5m";
        timestamp := 60000; open := 100; high := 104; low := 98;
        close := 103; volume := 5 |}, "u1") ].
Proof. vm_compute. reflexivity. Qed.

(** ** [processCandle] *)

Lemma pushed_candles bufs c u tf n :
  timeframeToMinutes tf = Js.Num n →
  candles (pushed bufs c u tf) =
  let received :=
    candles (default {| candles := []; targetTimeframe := tf |}
                     (bufs !! bufferKey u c)) ++ [c] in
  if n * 2 <? Z.of_nat (length received)
  then drop (length received - Z.to_nat (n * 2)) received
  else received.
Proof.
  intros Hn. pose proof (timeframeToMinutes_positive _ _ Hn).
  unfold pushed. rewrite Hn. simpl.
  destruct (n * 2 <? _) eqn:Hcap; [| done].
  rewrite Z.mul_opp_l. apply slice_from_end. lia.
Qed.

Lemma pushed_length bufs c u tf n :
  timeframeToMinutes tf = Js.Num n →
  1 ≤ Z.of_nat (length (candles (pushed bufs c u tf))) ≤ 2 * n.
Proof.
  intros Hn. pose proof (timeframeToMinutes_positive _ _ Hn).
  rewrite (pushed_candles _ _ _ _ n) by done. simpl.
  set (received := _ ++ [c]).
  assert (1 ≤ Z.of_nat (length received)).
  { unfold received. rewrite length_app. simpl. lia. }
  destruct (n * 2 <? _) eqn:Hcap; [rewrite length_drop |]; lia.
Qed.

Lemma pushed_last bufs c u tf n :
  timeframeToMinutes tf = Js.Num n →
  last (candles (pushed bufs c u tf)) = Some c.
Proof.
  intros Hn. pose proof (timeframeToMinutes_positive _ _ Hn).
  rewrite (pushed_candles _ _ _ _ n) by done. simpl.
  set (received := _ ++ [c]).
  assert (last received = Some c) as Hlast by apply last_snoc.
  assert (1 ≤ Z.of_nat (length received)).
  { unfold received. rewrite length_app. simpl. lia. }
  destruct (n * 2 <? _) eqn:Hcap; [| done].
  rewrite last_lookup in Hlast. rewrite last_lookup, length_drop, lookup_drop.
  rewrite <- Hlast. f_equal. lia.
Qed.

Lemma fold_chunk_nonempty chunk tf :
  chunk ≠ [] → ∃ d, fold_chunk chunk tf = Derived d.
Proof.
  destruct chunk as [|first rest]; [done |].
  intros _. rewrite fold_chunk_cons. eauto.
Qed.

(** What one call does when the timeframe has a number of minutes: the
    last n candles are folded and sent, the first n are dropped. *)
Lemma processCandle_enough bufs c u tf n :
  timeframeToMinutes tf = Js.Num n →
  let pending := candles (pushed bufs c u tf) in
  n ≤ Z.of_nat (length pending) →
  ∃ d, fold_chunk (drop (length pending - Z.to_nat n) pending) tf = Derived d
       ∧ processCandle bufs c u tf =
         (<[bufferKey u c :=
              {| candles := drop (Z.to_nat n) pending;
                 targetTimeframe := targetTimeframe (pushed bufs c u tf) |}]> bufs,
          [(d, u)]).
Proof.
  intros Hn pending Hlen. pose proof (timeframeToMinutes_positive _ _ Hn).
  destruct (fold_chunk_nonempty (drop (length pending - Z.to_nat n) pending) tf)
    as [d Hd].
  { intros Hnil. apply (f_equal length) in Hnil.
    rewrite length_drop in Hnil. simpl in Hnil. lia. }
  exists d. split; [done |].
  unfold processCandle. fold pending. rewrite Hn.
  cbn [Js.ToNumber Js.ge Js.len].
  destruct (n <=? Z.of_nat (length pending)) eqn:Hge; [| lia].
  rewrite (convert_enough _ _ n), Hd by done.
  by rewrite slice_from_start by lia.
Qed.

Lemma processCandle_waiting bufs c u tf n :
  timeframeToMinutes tf = Js.Num n →
  Z.of_nat (length (candles (pushed bufs c u tf))) < n →
  processCandle bufs c u tf = (<[bufferKey u c := pushed bufs c u tf]> bufs, []).
Proof.
  intros Hn Hlen. unfold processCandle. rewrite Hn.
  cbn [Js.ToNumber Js.ge Js.len].
  destruct (n <=? _) eqn:Hge; [lia | done].
Qed.

Lemma processAll_snoc bufs calls c u tf :
  processAll bufs (calls ++ [(c, u, tf)]) =
  let '(reached, sent) := processAll bufs calls in
  let '(next, sent') := processCandle reached c u tf in
  (next, sent ++ sent').
Proof.
  revert bufs. induction calls as [|[[c0 u0] tf0] calls IH]; intros bufs; simpl.
  - destruct (processCandle bufs c u tf) as [next sent']. by rewrite app_nil_r.
  - destruct (processCandle bufs c0 u0 tf0) as [b1 s1]. rewrite IH.
    destruct (processAll b1 calls) as [reached sent].
    destruct (processCandle reached c u tf) as [next sent'].
    by rewrite app_assoc.
Qed.

Lemma processCandle_bound bufs c u tf n b :
  timeframeToMinutes tf = Js.Num n →
  (processCandle bufs c u tf).1 !! bufferKey u c = Some b →
  Z.of_nat (length (candles b)) ≤ n.
Proof.
  intros Hn. pose proof (timeframeToMinutes_positive _ _ Hn).
  pose proof (pushed_length bufs c u tf n Hn) as Hpushed.
  destruct (decide (n ≤ Z.of_nat (length (candles (pushed bufs c u tf)))))
    as [Hge | Hlt].
  - destruct (processCandle_enough bufs c u tf n Hn Hge) as (d & _ & ->).
    set (pending := candles (pushed bufs c u tf)) in *.
    cbn [fst]. rewrite lookup_insert_eq. intros [= <-]. cbn [candles].
    rewrite length_drop. lia.
  - rewrite (processCandle_waiting _ _ _ _ n) by (done || lia).
    cbn [fst]. rewrite lookup_insert_eq. intros [= <-]. lia.
Qed.

(** What the size limit does achieve: right after a call for a timeframe
    that needs n base candles, the buffer of the call holds at most 2n
    candles.  This bounds the buffer against the n of the last call only,
    and says nothing of a timeframe without a number of minutes. *)
Theorem buffer_never_exceeds_twice_n bufs calls c u tf n b :
  timeframeToMinutes tf = Js.Num n →
  (processAll bufs (calls ++ [(c, u, tf)])).1 !! bufferKey u c = Some b →
  Z.of_nat (length (candles b)) ≤ 2 * n.
Proof.
  intros Hn. pose proof (timeframeToMinutes_positive _ _ Hn).
  rewrite processAll_snoc.
  destruct (processAll bufs calls) as [reached sent].
  destruct (processCandle reached c u tf) as [next sent'] eqn:Hstep.
  cbn [fst]. intros Hb.
  pose proof (processCandle_bound reached c u tf n b Hn) as Hbound.
  rewrite Hstep in Hbound. specialize (Hbound Hb). lia.
Qed.

Lemma buffer_never_exceeds_twice_n_witness :
  Z.of_nat (length (candles {| candles := [c6]; targetTimeframe := "5m" |})) ≤ 2 * 5.
Proof.
  apply (buffer_never_exceeds_twice_n ∅
           ((λ c, (c, "u1", "5m")) <$> [c1; c2; c3; c4; c5]) c6 "u1" "5m" 5).
  - reflexivity.
  - vm_compute. reflexivity.
Defined.

(** C5, at a user who holds three timeframes of one pair: the buffer is
    keyed by user, exchange and symbol, so the three subscriptions share
    it, and the message handler pushes every candle once for each.  The
    buffer was created for 1m, which needs one candle; after the second
    message it holds three, more than twice one. *)
Theorem shared_buffer_exceeds_twice_n :
  let parseFloat := λ _ : string, 1%float in
  let entries := [ ("binance-BTCUSDT-1m", ["u1"]); ("binance-BTCUSDT-1h", ["u1"]);
                   ("binance-BTCUSDT-4h", ["u1"]) ] in
  let closed t :=
    Some {| Feed.message_e := Some "kline";
            Feed.message_k :=
              Some {| Feed.k_t := t; Feed.k_T := t + 59999; Feed.k_o := "100";
                      Feed.k_h := "101"; Feed.k_l := "99"; Feed.k_c := "100.5";
                      Feed.k_v := "3"; Feed.k_x := true |};
            Feed.message_topic := None; Feed.message_data := None |} in
  let first :=
    (Feed.on_message_aggregate parseFloat "binance" "BTCUSDT" entries (closed 0) ∅).1 in
  let second :=
    (Feed.on_message_aggregate parseFloat "binance" "BTCUSDT" entries (closed 60000)
       first).1 in
  timeframeToMinutes "1m" = Js.Num 1
  ∧ targetTimeframe <$> second !! "u1-binance-BTCUSDT" = Some "1m"
  ∧ length <$> (candles <$> second !! "u1-binance-BTCUSDT") = Some 3%nat
  ∧ (2 * 1 < 3)%nat.
Proof. split; [reflexivity |]. split; [vm_compute; reflexivity |]. split; [vm_compute; reflexivity | lia]. Qed.




(** ** Timeframes outside the table *)

Lemma processCandle_inherited bufs c u tf name :
  timeframeToMinutes tf = Js.Inherited name →
  processCandle bufs c u tf =
  (<[bufferKey u c :=
       {| candles := candles (default {| candles := []; targetTimeframe := tf |}
                                      (bufs !! bufferKey u c)) ++ [c];
          targetTimeframe :=
            targetTimeframe (default {| candles := []; targetTimeframe := tf |}
                                     (bufs !! bufferKey u c)) |}]> bufs,
   []).
Proof.
  intros Hname. unfold processCandle, pushed. by rewrite Hname.
Qed.

(** A name that is neither in the table nor inherited counts as one
    minute: each candle is folded on its own and sent at once under the
    requested name. *)
Lemma unsupported_timeframe_is_one_minute tf :
  map !! tf = None → tf ∉ Js.Object_prototype →
  timeframeToMinutes tf = Js.Num 1
  ∧ ∀ bufs c u,
      (processCandle bufs c u tf).2 =
      [ ({| exchange := exchange c; symbol := symbol c; timeframe := tf;
            timestamp := timestamp c; open := open c;
            high := Js.Math_max [high c]; low := Js.Math_min [low c];
            close := close c;
            volume := PrimFloat.add PrimFloat.zero (volume c) |}, u) ].
Proof.
  intros Hmap Hproto.
  assert (timeframeToMinutes tf = Js.Num 1) as Hone.
  { unfold timeframeToMinutes, Js.get. rewrite Hmap.
    by rewrite bool_decide_eq_false_2. }
  split; [done |]. intros bufs c u.
  pose proof (pushed_length bufs c u tf 1 Hone) as Hlen.
  pose proof (pushed_last bufs c u tf 1 Hone) as Hlast.
  destruct (processCandle_enough bufs c u tf 1 Hone) as (d & Hd & ->); [lia |].
  simpl. f_equal. f_equal.
  set (pending := candles (pushed bufs c u tf)) in *.
  assert (drop (length pending - Z.to_nat 1) pending = [c]) as Hchunk.
  { rewrite last_lookup in Hlast.
    replace (length pending - Z.to_nat 1)%nat with (pred (length pending)) by lia.
    apply list_eq. intros [|i].
    - rewrite lookup_drop, Nat.add_0_r. done.
    - rewrite lookup_drop. simpl. apply lookup_ge_None. lia. }
  rewrite Hchunk, fold_chunk_cons in Hd. by injection Hd as <-.
Qed.

(** C9, at a name found on [Object.prototype]: the lookup returns the
    inherited function, not a number, so every comparison with the buffer
    length fails; three candles later nothing has been sent and all three
    are still buffered. *)
Theorem inherited_name_is_not_one_minute :
  timeframeToMinutes "constructor" = Js.Inherited "constructor"
  ∧ processAll ∅ [(c1, "u1", "constructor"); (c2, "u1", "constructor");
                  (c3, "u1", "constructor")] =
    (<["u1-binance-BTCUSDT" :=
         {| candles := [c1; c2; c3]; targetTimeframe := "constructor" |}]> ∅,
     []).
Proof. split; vm_compute; reflexivity. Qed.

End AggregatorSpec.

(** * Properties of the registries *)

Module BridgeSpec.
Import Bridge BridgeSamples.

(** ** Keys and prefixes *)

Lemma append_cons x (a b : string) : String x a +:+ b = String x (a +:+ b).
Proof. reflexivity. Qed.

Lemma append_assoc (a b c : string) : (a +:+ b) +:+ c = a +:+ (b +:+ c).
Proof.
  induction a as [|x a IH]; [done |]. by rewrite !append_cons, IH.
Qed.

Lemma startsWith_append (p t : string) : Js.startsWith (p +:+ t) p = true.
Proof.
  unfold Js.startsWith. induction p as [|x p IH].
  - by destruct t.
  - rewrite append_cons. cbn.
    destruct (Ascii.ascii_dec x x); [apply IH | done].
Qed.

Lemma startsWith_inv (s p : string) :
  Js.startsWith s p = true → ∃ t, s = p +:+ t.
Proof.
  unfold Js.startsWith. revert s. induction p as [|x p IH]; intros s.
  - intros _. by exists s.
  - destruct s as [|y s]; [done |]. cbn.
    destruct (Ascii.ascii_dec x y) as [-> |]; [| done].
    intros [t ->]%IH. exists t. by rewrite append_cons.
Qed.

Lemma subscriptionKey_prefix e sy tf :
  subscriptionKey e sy tf = subscriptionPrefix e sy +:+ tf.
Proof.
  unfold subscriptionKey, subscriptionPrefix. by rewrite !append_assoc.
Qed.

Lemma subscriptionKey_inj e sy tf tf' :
  subscriptionKey e sy tf = subscriptionKey e sy tf' → tf = tf'.
Proof. rewrite !subscriptionKey_prefix. apply (inj _). Qed.

(** A key starts with the prefix of a pair exactly when it is the key of
    that pair for some timeframe string. *)
Lemma startsWith_prefix_iff k e sy :
  Js.startsWith k (subscriptionPrefix e sy) = true
  ↔ ∃ tf, k = subscriptionKey e sy tf.
Proof.
  split.
  - intros [tf ->]%startsWith_inv. exists tf. by rewrite subscriptionKey_prefix.
  - intros [tf ->]. rewrite subscriptionKey_prefix. apply startsWith_append.
Qed.

Lemma startsWith_cancel (e x y : string) :
  Js.startsWith (e +:+ x) (e +:+ y) = Js.startsWith x y.
Proof.
  unfold Js.startsWith. induction e as [|c e IH]; [done |].
  rewrite !append_cons. cbn. by destruct (Ascii.ascii_dec c c).
Qed.

Lemma append_nil_l (a : string) : "" +:+ a = a.
Proof. reflexivity. Qed.

Lemma plain_symbol_prefix (sy sy' rest : string) :
  (∀ a b, sy ≠ a +:+ "-" +:+ b) →
  (∀ a b, sy' ≠ a +:+ "-" +:+ b) →
  Js.startsWith (sy' +:+ "-" +:+ rest) (sy +:+ "-") = true →
  sy' = sy.
Proof.
  unfold Js.startsWith. revert sy'.
  induction sy as [|c sy IH]; intros sy' Hsy Hsy'.
  - destruct sy' as [|c' sy']; [done |].
    rewrite append_nil_l, append_cons. cbn [String.prefix].
    destruct (Ascii.ascii_dec _ c') as [<- |]; [| done].
    by destruct (Hsy' "" sy').
  - destruct sy' as [|c' sy'].
    + rewrite append_nil_l, !append_cons. cbn [String.prefix].
      destruct (Ascii.ascii_dec c _) as [-> |]; [| done].
      by destruct (Hsy "" sy).
    + rewrite !append_cons. cbn [String.prefix].
      destruct (Ascii.ascii_dec c c') as [<- |]; [| done].
      intros Hpre. f_equal. apply IH; [| | done].
      * intros a b ->. by destruct (Hsy (String c a) b).
      * intros a b ->. by destruct (Hsy' (String c a) b).
Qed.

(** On one exchange, symbols without a hyphen are never taken for one
    another: BTC does not claim the keys of BTCUSDT. *)
Lemma plain_symbols_not_confused e sy sy' tf' :
  (∀ a b, sy ≠ a +:+ "-" +:+ b) →
  (∀ a b, sy' ≠ a +:+ "-" +:+ b) →
  Js.startsWith (subscriptionKey e sy' tf') (subscriptionPrefix e sy) = true →
  sy' = sy.
Proof.
  intros Hsy Hsy'. unfold subscriptionKey, subscriptionPrefix.
  rewrite (startsWith_cancel e), (startsWith_cancel "-").
  by apply plain_symbol_prefix.
Qed.

Example BTC_does_not_claim_BTCUSDT :
  hasOtherSubs "binance" "BTC" (<["binance-BTCUSDT-5m" := {["u2"]}]> ∅) = false.
Proof. vm_compute. reflexivity. Qed.

(** ** The two loops over [userSubscriptions] *)

Lemma hasOtherSubs_true e sy (m : gmap string (gset string)) :
  hasOtherSubs e sy m = true
  ↔ ∃ k, is_Some (m !! k) ∧ Js.startsWith k (subscriptionPrefix e sy) = true.
Proof.
  unfold hasOtherSubs. rewrite existsb_exists. split.
  - intros [[k users] [Hin Hk]]. exists k. split; [| done].
    apply list_elem_of_In, elem_of_map_to_list in Hin. eauto.
  - intros [k [[users Hk] Hpre]]. exists (k, users). split; [| done].
    by apply list_elem_of_In, elem_of_map_to_list.
Qed.

Lemma hasSubscribers_true e sy (m : gmap string (gset string)) :
  hasSubscribers e sy m = true
  ↔ ∃ tf users, m !! subscriptionKey e sy tf = Some users ∧ users ≠ ∅.
Proof.
  unfold hasSubscribers. rewrite existsb_exists. split.
  - intros [[k users] [Hin [Hpre Hsize]%andb_true_iff]].
    apply list_elem_of_In, elem_of_map_to_list in Hin.
    apply startsWith_prefix_iff in Hpre as [tf ->].
    apply bool_decide_eq_true in Hsize.
    exists tf, users. split; [done |]. intros ->. rewrite size_empty in Hsize. lia.
  - intros (tf & users & Hk & Hne). exists (subscriptionKey e sy tf, users).
    split; [by apply list_elem_of_In, elem_of_map_to_list |].
    apply andb_true_iff. split.
    + apply startsWith_prefix_iff. eauto.
    + apply bool_decide_eq_true. apply set_choose_L in Hne as [x Hx].
      destruct (decide (size users = 0%nat)) as [Hzero |]; [| lia].
      apply size_empty_iff in Hzero. set_solver.
Qed.

(** ** What the handlers do to the subscription registry *)

Lemma falsy_false field :
  falsy field = false ↔ ∃ v, field = Some v ∧ v ≠ "".
Proof.
  destruct field as [v|]; simpl.
  - rewrite bool_decide_eq_false. split.
    + intros Hv. by exists v.
    + by intros (? & [= <-] & Hv).
  - split; [done | by intros (? & ? & _)].
Qed.

Lemma request_complete e sy tf u :
  e ≠ "" → sy ≠ "" → tf ≠ "" → u ≠ "" →
  falsy (body_exchange (request e sy tf u)) || falsy (body_symbol (request e sy tf u))
  || falsy (body_timeframe (request e sy tf u)) || falsy (body_userId (request e sy tf u))
  = false.
Proof.
  intros. simpl. by rewrite !bool_decide_eq_false_2.
Qed.

Lemma connectExchange_subscriptions p e sy s :
  userSubscriptions (connectExchange p e sy s) = userSubscriptions s.
Proof.
  unfold connectExchange. case_bool_decide; [done |]. by destruct (wsUrl e sy).
Qed.

(** Creating the set when it is missing and adding to it, as one
    insertion. *)
Lemma subscribe_as_insert (m : gmap string (gset string)) key u :
  alter (λ users, users ∪ {[u]}) key
        (if bool_decide (is_Some (m !! key)) then m else <[key := ∅]> m)
  = <[key := default ∅ (m !! key) ∪ {[u]}]> m.
Proof.
  apply map_eq. intros k. destruct (decide (k = key)) as [-> | Hne].
  - rewrite lookup_alter_eq, lookup_insert_eq.
    case_bool_decide as Hsome.
    + destruct Hsome as [users ->]. done.
    + rewrite lookup_insert_eq. apply eq_None_not_Some in Hsome. by rewrite Hsome.
  - rewrite lookup_alter_ne, lookup_insert_ne by done.
    case_bool_decide; [done | by rewrite lookup_insert_ne].
Qed.

Lemma connect_complete p e sy tf u s :
  e ≠ "" → sy ≠ "" → tf ≠ "" → u ≠ "" →
  let key := subscriptionKey e sy tf in
  let users := default ∅ (userSubscriptions s !! key) ∪ {[u]} in
  userSubscriptions (connect p (request e sy tf u) s).1
    = <[key := users]> (userSubscriptions s)
  ∧ (connect p (request e sy tf u) s).2
    = Connected ("Connected to " +:+ key +:+ connectedNote p) (size users).
Proof.
  intros He Hsy Htf Hu key users. unfold connect.
  rewrite request_complete by done. cbn [request body_exchange body_symbol
    body_timeframe body_userId default fst snd].
  fold key. rewrite subscribe_as_insert. fold users. split.
  - case_bool_decide; [done |]. by rewrite connectExchange_subscriptions.
  - by rewrite lookup_insert_eq.
Qed.

Lemma connect_subscriptions_nonempty p b s :
  map_Forall (λ _ users, users ≠ (∅ : gset string)) (userSubscriptions s) →
  map_Forall (λ _ users, users ≠ (∅ : gset string))
             (userSubscriptions (connect p b s).1).
Proof.
  intros Hinv. unfold connect.
  destruct (falsy _ || _ || _ || _); [done |]. cbn [fst].
  rewrite subscribe_as_insert.
  assert (map_Forall (λ _ users, users ≠ (∅ : gset string))
            (<[subscriptionKey (default "" (body_exchange b))
                 (default "" (body_symbol b)) (default "" (body_timeframe b))
               := default ∅ (userSubscriptions s !! subscriptionKey
                    (default "" (body_exchange b)) (default "" (body_symbol b))
                    (default "" (body_timeframe b)))
                  ∪ {[default "" (body_userId b)]}]> (userSubscriptions s))).
  { apply map_Forall_insert_2; [set_solver | done]. }
  case_bool_decide; [done |]. by rewrite connectExchange_subscriptions.
Qed.

(** What [/disconnect] leaves in the subscription registry. *)
Lemma disconnect_subscriptions p b s :
  falsy (body_exchange b) || falsy (body_symbol b)
  || falsy (body_timeframe b) || falsy (body_userId b) = false →
  let key := subscriptionKey (default "" (body_exchange b))
               (default "" (body_symbol b)) (default "" (body_timeframe b)) in
  userSubscriptions (disconnect p b s).1 =
  match userSubscriptions s !! key with
  | Some users =>
      if bool_decide (users ∖ {[default "" (body_userId b)]} = ∅)
      then delete key (userSubscriptions s)
      else <[key := users ∖ {[default "" (body_userId b)]}]> (userSubscriptions s)
  | None => userSubscriptions s
  end.
Proof.
  intros Hok key. unfold disconnect. rewrite Hok. fold key.
  destruct (userSubscriptions s !! key) as [users|] eqn:Hkey.
  - rewrite bool_decide_eq_true_2 by eauto.
    rewrite lookup_alter_eq, Hkey. cbn [fmap option_fmap option_map default].
    destruct (decide (users ∖ {[default "" (body_userId b)]} = ∅)) as [Hempty | Hne].
    + rewrite (bool_decide_eq_true_2 (size _ = 0%nat))
        by (rewrite Hempty; apply size_empty).
      rewrite bool_decide_eq_true_2 by done.
      assert (delete key (alter (λ users0, users0 ∖ {[default "" (body_userId b)]})
                                key (userSubscriptions s))
              = delete key (userSubscriptions s)) as ->.
      { apply map_eq. intros k. destruct (decide (k = key)) as [-> |].
        - by rewrite !lookup_delete_eq.
        - by rewrite !lookup_delete_ne, lookup_alter_ne by done. }
      destruct (hasOtherSubs _ _ _); [done |].
      by destruct (activeConnections s !! _).
    + rewrite (bool_decide_eq_false_2 (size _ = 0%nat)).
      2:{ intros Hzero. apply size_empty_iff in Hzero. apply Hne.
          by apply leibniz_equiv. }
      rewrite bool_decide_eq_false_2 by done. cbn [fst userSubscriptions].
      apply map_eq. intros k. destruct (decide (k = key)) as [-> |].
      * by rewrite lookup_alter_eq, lookup_insert_eq, Hkey.
      * by rewrite lookup_alter_ne, lookup_insert_ne.
  - rewrite bool_decide_eq_false_2; [done |].
    intros [? ?]. congruence.
Qed.

Lemma disconnect_subscriptions_nonempty p b s :
  map_Forall (λ _ users, users ≠ (∅ : gset string)) (userSubscriptions s) →
  map_Forall (λ _ users, users ≠ (∅ : gset string))
             (userSubscriptions (disconnect p b s).1).
Proof.
  intros Hinv.
  destruct (falsy (body_exchange b) || falsy (body_symbol b)
            || falsy (body_timeframe b) || falsy (body_userId b)) eqn:Hok.
  { unfold disconnect. by rewrite Hok. }
  rewrite disconnect_subscriptions by done.
  destruct (userSubscriptions s !! _) as [users|]; [| done].
  case_bool_decide.
  - by apply map_Forall_delete.
  - by apply map_Forall_insert_2.
Qed.

Lemma step_subscriptions_nonempty p s e :
  map_Forall (λ _ users, users ≠ (∅ : gset string)) (userSubscriptions s) →
  map_Forall (λ _ users, users ≠ (∅ : gset string)) (userSubscriptions (step p s e)).
Proof.
  intros Hinv. destruct e as [b | b | ws | ws | i | ws]; simpl.
  - by apply connect_subscriptions_nonempty.
  - by apply disconnect_subscriptions_nonempty.
  - unfold on_open. destruct (sockets s !! ws) as [socket|]; [| done].
    by destruct (state socket).
  - unfold on_close. destruct (sockets s !! ws) as [socket|]; [| done].
    by destruct (state socket).
  - unfold on_timeout. destruct (timers s !! i) as [t|]; [| done].
    destruct (hasSubscribers _ _ _); [| done].
    by rewrite connectExchange_subscriptions.
  - done.
Qed.

(** C6: whatever requests and socket events the server has handled since
    it started, no key of the subscription registry holds an empty set. *)
Theorem no_empty_subscriber_set p events :
  map_Forall (λ _ users, users ≠ (∅ : gset string))
             (userSubscriptions (run p init events)).
Proof.
  unfold run.
  assert (map_Forall (λ _ users, users ≠ (∅ : gset string)) (userSubscriptions init))
    as Hinit by apply map_Forall_empty.
  revert Hinit. generalize init.
  induction events as [|e events IH]; intros s Hs; [done |].
  simpl. apply IH. by apply step_subscriptions_nonempty.
Qed.

Lemma connect_present p e sy tf u s users :
  e ≠ "" → sy ≠ "" → tf ≠ "" → u ≠ "" →
  userSubscriptions s !! subscriptionKey e sy tf = Some users →
  u ∈ users →
  userSubscriptions (connect p (request e sy tf u) s).1 = userSubscriptions s
  ∧ (connect p (request e sy tf u) s).2
    = Connected ("Connected to " +:+ subscriptionKey e sy tf +:+ connectedNote p)
                (size users).
Proof.
  intros He Hsy Htf Hu Hkey Hin.
  destruct (connect_complete p e sy tf u s) as [Hsubs Hresp]; [done.. |].
  rewrite Hkey in Hsubs, Hresp. cbn [default from_option] in Hsubs, Hresp.
  unfold id in Hsubs, Hresp.
  assert (users ∪ {[u]} = users) as Hsame.
  { apply set_eq. intros x. rewrite elem_of_union, elem_of_singleton.
    split; [by intros [? | ->] | by left]. }
  rewrite Hsame in Hsubs, Hresp. split; [| done].
  by rewrite Hsubs, insert_id.
Qed.

(** C10: a [/connect] for a user who is already in the set of the key
    leaves the subscription registry as it is and answers with the size of
    that set; so a second [/connect] with the same body changes nothing in
    the registry and answers with the same subscriber count as the
    first. *)
Theorem connect_twice p b s :
  (let first := connect p b s in
   let second := connect p b first.1 in
   userSubscriptions second.1 = userSubscriptions first.1
   ∧ second.2 = first.2)
  ∧ (∀ e sy tf u users,
       b = request e sy tf u →
       e ≠ "" → sy ≠ "" → tf ≠ "" → u ≠ "" →
       userSubscriptions s !! subscriptionKey e sy tf = Some users →
       u ∈ users →
       userSubscriptions (connect p b s).1 = userSubscriptions s
       ∧ (connect p b s).2
         = Connected ("Connected to " +:+ subscriptionKey e sy tf +:+ connectedNote p)
                     (size users)).
Proof.
  split; [| intros e sy tf u users ->; apply connect_present].
  destruct (falsy (body_exchange b) || falsy (body_symbol b)
            || falsy (body_timeframe b) || falsy (body_userId b)) eqn:Hok.
  { cbn zeta. unfold connect. by rewrite Hok. }
  apply orb_false_iff in Hok as [Hok Hu].
  apply orb_false_iff in Hok as [Hok Htf].
  apply orb_false_iff in Hok as [He Hsy].
  apply falsy_false in He as (e & He & ?), Hsy as (sy & Hsy & ?),
    Htf as (tf & Htf & ?), Hu as (u & Hu & ?).
  assert (b = request e sy tf u) as ->.
  { destruct b. simpl in *. by subst. }
  cbn zeta.
  destruct (connect_complete p e sy tf u s) as [Hsubs1 Hresp1]; [done.. |].
  destruct (connect_present p e sy tf u (connect p (request e sy tf u) s).1
              (default ∅ (userSubscriptions s !! subscriptionKey e sy tf) ∪ {[u]}))
    as [Hsubs2 Hresp2]; [done.. | | |].
  - rewrite Hsubs1. apply lookup_insert_eq.
  - apply elem_of_union_r. by apply elem_of_singleton.
  - split; [done |]. by rewrite Hresp2, Hresp1.
Qed.

(** ** What [/disconnect] does to the connections *)

Lemma disconnect_connections p e sy tf u s users :
  e ≠ "" → sy ≠ "" → tf ≠ "" → u ≠ "" →
  userSubscriptions s !! subscriptionKey e sy tf = Some users →
  let s' := (disconnect p (request e sy tf u) s).1 in
  (activeConnections s', sockets s') =
  if bool_decide (users ∖ {[u]} = ∅)
     && negb (hasOtherSubs e sy (delete (subscriptionKey e sy tf) (userSubscriptions s)))
  then match activeConnections s !! connectionKey p e sy with
       | Some ws => (delete (connectionKey p e sy) (activeConnections s),
                     close ws (sockets s))
       | None => (activeConnections s, sockets s)
       end
  else (activeConnections s, sockets s).
Proof.
  intros He Hsy Htf Hu Hkey. cbn zeta. unfold disconnect.
  rewrite request_complete by done.
  cbn [request body_exchange body_symbol body_timeframe body_userId default
       from_option id].
  rewrite bool_decide_eq_true_2 by eauto.
  rewrite lookup_alter_eq, Hkey. cbn [fmap option_fmap option_map default from_option id].
  destruct (decide (users ∖ {[u]} = ∅)) as [Hempty | Hne].
  - rewrite (bool_decide_eq_true_2 (size _ = 0%nat))
      by (rewrite Hempty; apply size_empty).
    rewrite (bool_decide_eq_true_2 (_ = ∅)) by done.
    assert (delete (subscriptionKey e sy tf)
              (alter (λ users0, users0 ∖ {[u]}) (subscriptionKey e sy tf)
                     (userSubscriptions s))
            = delete (subscriptionKey e sy tf) (userSubscriptions s)) as ->.
    { apply map_eq. intros k.
      destruct (decide (k = subscriptionKey e sy tf)) as [-> |].
      - by rewrite !lookup_delete_eq.
      - by rewrite !lookup_delete_ne, lookup_alter_ne by done. }
    destruct (hasOtherSubs _ _ _); [done |].
    by destruct (activeConnections s !! _).
  - rewrite (bool_decide_eq_false_2 (size _ = 0%nat)).
    2:{ intros Hzero. apply size_empty_iff in Hzero. apply Hne.
        by apply leibniz_equiv. }
    by rewrite (bool_decide_eq_false_2 (_ = ∅)) by done.
Qed.

(** What [/disconnect] does, read off the code: the interest that keeps a
    connection is taken from the keys
    by the string prefix [exchange-symbol-].  When the unsubscribed key
    still has subscribers, or another key starting with the prefix is left
    in the registry, which is so for every key of another timeframe of the
    same pair, connections and sockets stay as they are.  When the key is
    emptied and no key starting with the prefix is left, the connection
    registered for the pair is deleted and its socket closed. *)
Theorem disconnect_releases_by_prefix p s e sy tf u users :
  e ≠ "" → sy ≠ "" → tf ≠ "" → u ≠ "" →
  userSubscriptions s !! subscriptionKey e sy tf = Some users →
  let s' := (disconnect p (request e sy tf u) s).1 in
  let remaining := delete (subscriptionKey e sy tf) (userSubscriptions s) in
  (users ∖ {[u]} ≠ ∅ →
   activeConnections s' = activeConnections s ∧ sockets s' = sockets s)
  ∧ ((∃ k, is_Some (remaining !! k)
           ∧ Js.startsWith k (subscriptionPrefix e sy) = true) →
     activeConnections s' = activeConnections s ∧ sockets s' = sockets s)
  ∧ (∀ tf', tf' ≠ tf → is_Some (userSubscriptions s !! subscriptionKey e sy tf') →
     activeConnections s' = activeConnections s ∧ sockets s' = sockets s)
  ∧ (users ∖ {[u]} = ∅ →
     (∀ k, is_Some (remaining !! k) →
           Js.startsWith k (subscriptionPrefix e sy) = false) →
     userSubscriptions s' = remaining
     ∧ activeConnections s' !! connectionKey p e sy = None
     ∧ ∀ ws, activeConnections s !! connectionKey p e sy = Some ws →
             activeConnections s' = delete (connectionKey p e sy) (activeConnections s)
             ∧ sockets s' = close ws (sockets s)).
Proof.
  intros He Hsy Htf Hu Hkey s' remaining.
  pose proof (disconnect_connections p e sy tf u s users He Hsy Htf Hu Hkey) as Hc.
  cbn zeta in Hc. fold s' remaining in Hc.
  assert ((∃ k, is_Some (remaining !! k)
                ∧ Js.startsWith k (subscriptionPrefix e sy) = true) →
          activeConnections s' = activeConnections s ∧ sockets s' = sockets s)
    as Hothers.
  { intros Hk. apply hasOtherSubs_true in Hk. rewrite Hk in Hc.
    rewrite andb_false_r in Hc. by injection Hc. }
  split; [| split; [done | split]].
  - intros Hne. rewrite (bool_decide_eq_false_2 (_ = ∅)) in Hc by done.
    by injection Hc.
  - intros tf' Hneq Hsome. apply Hothers. exists (subscriptionKey e sy tf').
    split.
    + unfold remaining. rewrite lookup_delete_ne; [done |].
      intros Heq. apply Hneq. symmetry. by apply subscriptionKey_inj in Heq.
    + apply startsWith_prefix_iff. eauto.
  - intros Hempty Hnone.
    assert (hasOtherSubs e sy remaining = false) as Hscan.
    { destruct (hasOtherSubs e sy remaining) eqn:Hscan; [| done].
      apply hasOtherSubs_true in Hscan as (k & Hsome & Hpre).
      rewrite (Hnone k Hsome) in Hpre. done. }
    rewrite Hscan, (bool_decide_eq_true_2 (_ = ∅)) in Hc by done.
    cbn [andb negb] in Hc.
    split.
    + unfold s', remaining.
      pose proof (disconnect_subscriptions p (request e sy tf u) s
                    (request_complete e sy tf u He Hsy Htf Hu)) as Hs.
      cbn [request body_exchange body_symbol body_timeframe body_userId default
           from_option id] in Hs.
      rewrite Hs, Hkey. by rewrite bool_decide_eq_true_2.
    + destruct (activeConnections s !! connectionKey p e sy) as [ws|] eqn:Hws.
      * injection Hc as -> ->. split; [apply lookup_delete_eq |].
        by intros ? [= <-].
      * injection Hc as -> ->. by split.
Qed.

Lemma disconnect_releases_by_prefix_witness :
  let s := run PassThrough init one_subscriber in
  let s' := (disconnect PassThrough (request "binance" "BTCUSDT" "5m" "u1") s).1 in
  let remaining := delete (subscriptionKey "binance" "BTCUSDT" "5m")
                          (userSubscriptions s) in
  (({["u1"]} : gset string) ∖ {["u1"]} ≠ ∅ →
   activeConnections s' = activeConnections s ∧ sockets s' = sockets s)
  ∧ ((∃ k, is_Some (remaining !! k)
           ∧ Js.startsWith k (subscriptionPrefix "binance" "BTCUSDT") = true) →
     activeConnections s' = activeConnections s ∧ sockets s' = sockets s)
  ∧ (∀ tf', tf' ≠ "5m" →
     is_Some (userSubscriptions s !! subscriptionKey "binance" "BTCUSDT" tf') →
     activeConnections s' = activeConnections s ∧ sockets s' = sockets s)
  ∧ (({["u1"]} : gset string) ∖ {["u1"]} = ∅ →
     (∀ k, is_Some (remaining !! k) →
           Js.startsWith k (subscriptionPrefix "binance" "BTCUSDT") = false) →
     userSubscriptions s' = remaining
     ∧ activeConnections s' !! connectionKey PassThrough "binance" "BTCUSDT" = None
     ∧ ∀ ws, activeConnections s !! connectionKey PassThrough "binance" "BTCUSDT" = Some ws →
             activeConnections s'
             = delete (connectionKey PassThrough "binance" "BTCUSDT") (activeConnections s)
             ∧ sockets s' = close ws (sockets s)).
Proof.
  apply (disconnect_releases_by_prefix PassThrough (run PassThrough init one_subscriber)
           "binance" "BTCUSDT" "5m" "u1" {["u1"]}); try discriminate.
  vm_compute. reflexivity.
Defined.

(** C4, at two pairs of which one extends the names of the other: u1 is
    the only subscriber of (binance, BTC) and u2 the only one of (binance,
    BTC-USD).  When u1 leaves, nobody is left on (binance, BTC) and its
    connection should be closed and removed; but the key of u2 starts with
    [binance-BTC-], the scan takes it for a subscription of the same pair,
    and the connection of (binance, BTC) stays registered and its socket
    stays open. *)
Lemma other_pair_keeps_connection :
  let s := run PassThrough init shared_prefix in
  let s' := (disconnect PassThrough (request "binance" "BTC" "1m" "u1") s).1 in
  userSubscriptions s
    = <["binance-BTC-1m" := {["u1"]}]> (<["binance-BTC-USD-1m" := {["u2"]}]> ∅)
  ∧ activeConnections s !! "binance-BTC" = Some 0%nat
  ∧ userSubscriptions s' = <["binance-BTC-USD-1m" := {["u2"]}]> ∅
  ∧ hasOtherSubs "binance" "BTC" (userSubscriptions s') = true
  ∧ activeConnections s' !! "binance-BTC" = Some 0%nat
  ∧ state <$> sockets s' !! 0%nat = Some OPEN.
Proof. vm_compute. repeat split; reflexivity. Qed.

(** ** Connections *)

Lemma connectExchange_registered p e sy s :
  is_Some (activeConnections s !! connectionKey p e sy) →
  connectExchange p e sy s = s.
Proof. intros Hreg. unfold connectExchange. by rewrite bool_decide_eq_true_2. Qed.

Lemma connectExchange_unsupported p e sy s :
  wsUrl e sy = None → connectExchange p e sy s = s.
Proof.
  intros Hurl. unfold connectExchange. rewrite Hurl. by case_bool_decide.
Qed.

(** Once the key of a pair is registered, a request for the pair
    constructs nothing. *)
Lemma connect_registered p e sy tf u s :
  e ≠ "" → sy ≠ "" → tf ≠ "" → u ≠ "" →
  is_Some (activeConnections s !! connectionKey p e sy) →
  sockets (connect p (request e sy tf u) s).1 = sockets s
  ∧ activeConnections (connect p (request e sy tf u) s).1 = activeConnections s.
Proof.
  intros He Hsy Htf Hu Hreg. unfold connect.
  rewrite request_complete by done.
  cbn [request body_exchange body_symbol body_timeframe body_userId default
       from_option id activeConnections].
  by rewrite bool_decide_eq_true_2.
Qed.

(** C3, at two requests for one pair made before the first socket has
    opened: [connectExchange] finds no registered key either time and
    constructs two sockets; both open, and the second replaces the first in
    the registry while the first stays open. *)
Theorem second_request_opens_second_socket :
  let connecting := run PassThrough init two_requests in
  let opened := run PassThrough connecting [WsOpen 0; WsOpen 1] in
  activeConnections connecting = ∅
  ∧ sockets connecting =
    [ {| url := "wss://fstream.binance.com/ws/btcusdt@kline_1m";
         exchange := "binance"; symbol := "BTCUSDT"; state := CONNECTING; sent := [] |};
      {| url := "wss://fstream.binance.com/ws/btcusdt@kline_1m";
         exchange := "binance"; symbol := "BTCUSDT"; state := CONNECTING; sent := [] |} ]
  ∧ activeConnections opened = <["binance-BTCUSDT" := 1%nat]> ∅
  ∧ (state <$> sockets opened) = [OPEN; OPEN].
Proof. vm_compute. repeat split; reflexivity. Qed.

(** ** Validation *)

(** C7, as stated, fails: a complete request that names an exchange
    outside the [switch] is answered with success, and the subscriber is
    registered. *)
Lemma unsupported_exchange_is_accepted :
  ¬ (∀ p s e sy tf u,
       wsUrl e sy = None →
       ∃ error, connect p (request e sy tf u) s = (s, BadRequest error)).
Proof.
  intros Hclaim.
  destruct (Hclaim PassThrough init "kraken" "BTCUSD" "1m" "u1" eq_refl)
    as [error Heq].
  apply (f_equal snd) in Heq. vm_compute in Heq. discriminate.
Qed.

(** C7, amended: a request with a missing or empty field is answered with
    status 400 by [/connect] and by [/disconnect] and leaves the whole state
    as it was.  A complete [/connect] that names an unsupported exchange
    constructs no socket and leaves connections, buffers and timers as they
    were, while the subscriber is registered under the key. *)
Theorem missing_field_is_rejected p s :
  (∀ b field,
     field ∈ [body_exchange b; body_symbol b; body_timeframe b; body_userId b] →
     field = None ∨ field = Some "" →
     connect p b s
       = (s, BadRequest "Missing required fields: exchange, symbol, timeframe, userId")
     ∧ disconnect p b s = (s, BadRequest "Missing required fields"))
  ∧ (∀ e sy tf u,
       e ≠ "" → sy ≠ "" → tf ≠ "" → u ≠ "" → wsUrl e sy = None →
       let key := subscriptionKey e sy tf in
       let users := default ∅ (userSubscriptions s !! key) ∪ {[u]} in
       (connect p (request e sy tf u) s).1 =
       {| userSubscriptions := <[key := users]> (userSubscriptions s);
          activeConnections := activeConnections s;
          candleBuffers := candleBuffers s;
          sockets := sockets s;
          timers := timers s |}).
Proof.
  split.
  - intros b field Hin Hfield.
    assert (falsy field = true) as Hfalsy by (by destruct Hfield as [-> | ->]).
    assert (falsy (body_exchange b) || falsy (body_symbol b)
            || falsy (body_timeframe b) || falsy (body_userId b) = true) as Hbad.
    { repeat (apply elem_of_cons in Hin as [<- | Hin];
              [rewrite Hfalsy; by rewrite ?orb_true_r |]).
      by apply elem_of_nil in Hin. }
    unfold connect, disconnect. by rewrite Hbad.
  - intros e sy tf u He Hsy Htf Hu Hurl key users. unfold connect.
    rewrite request_complete by done.
    cbn [request body_exchange body_symbol body_timeframe body_userId default
         from_option id].
    fold key. rewrite subscribe_as_insert. fold users. cbn [fst].
    rewrite connectExchange_unsupported by done. by case_bool_decide.
Qed.

(** ** Reconnection *)

(** When a socket closes, its key is deleted and the reconnect callback
    is queued with a delay of 5000 ms; nothing is connected yet.  Whether
    to reconnect is decided from the registry as it is when the callback
    runs: [connectExchange] is called if some key that starts with the
    prefix of the pair has a subscriber at that moment, and otherwise the
    callback is dropped and the state is left alone. *)
Theorem reconnect_decided_when_timer_fires p s ws socket :
  sockets s !! ws = Some socket →
  state socket ≠ CLOSED →
  let t := {| delay := 5000; timeout_exchange := exchange socket;
              timeout_symbol := symbol socket |} in
  on_close p ws s =
    {| userSubscriptions := userSubscriptions s;
       activeConnections :=
         delete (connectionKey p (exchange socket) (symbol socket)) (activeConnections s);
       candleBuffers := candleBuffers s;
       sockets := <[ws := {| url := url socket; exchange := exchange socket;
                             symbol := symbol socket; state := CLOSED;
                             sent := sent socket |}]> (sockets s);
       timers := timers s ++ [t] |}
  ∧ ∀ later i,
      timers later !! i = Some t →
      let cleared := {| userSubscriptions := userSubscriptions later;
                        activeConnections := activeConnections later;
                        candleBuffers := candleBuffers later;
                        sockets := sockets later;
                        timers := delete i (timers later) |} in
      ((∃ tf users,
          userSubscriptions later !! subscriptionKey (exchange socket) (symbol socket) tf
            = Some users ∧ users ≠ ∅) →
       on_timeout p i later = connectExchange p (exchange socket) (symbol socket) cleared)
      ∧ (¬ (∃ tf users,
              userSubscriptions later !! subscriptionKey (exchange socket) (symbol socket) tf
                = Some users ∧ users ≠ ∅) →
         on_timeout p i later = cleared).
Proof.
  intros Hws Hstate t. split.
  - unfold on_close. rewrite Hws. by destruct (state socket).
  - intros later i Ht cleared. unfold on_timeout. rewrite Ht.
    cbn [timeout_exchange timeout_symbol t]. fold cleared.
    destruct (hasSubscribers _ _ _) eqn:Hscan.
    + split; [done |]. intros Hnone. by apply hasSubscribers_true in Hscan.
    + split; [| done]. intros Hsome. apply hasSubscribers_true in Hsome.
      congruence.
Qed.

Lemma reconnect_decided_when_timer_fires_witness :
  let s := run PassThrough init one_subscriber in
  let socket := {| url := "wss://fstream.binance.com/ws/btcusdt@kline_1m";
                   exchange := "binance"; symbol := "BTCUSDT"; state := OPEN;
                   sent := [] |} in
  let t := {| delay := 5000; timeout_exchange := "binance";
              timeout_symbol := "BTCUSDT" |} in
  on_close PassThrough 0 s =
    {| userSubscriptions := userSubscriptions s;
       activeConnections := delete "binance-BTCUSDT" (activeConnections s);
       candleBuffers := candleBuffers s;
       sockets := <[0%nat := {| url := url socket; exchange := "binance";
                                symbol := "BTCUSDT"; state := CLOSED;
                                sent := [] |}]> (sockets s);
       timers := timers s ++ [t] |}
  ∧ ∀ later i,
      timers later !! i = Some t →
      let cleared := {| userSubscriptions := userSubscriptions later;
                        activeConnections := activeConnections later;
                        candleBuffers := candleBuffers later;
                        sockets := sockets later;
                        timers := delete i (timers later) |} in
      ((∃ tf users,
          userSubscriptions later !! subscriptionKey "binance" "BTCUSDT" tf
            = Some users ∧ users ≠ ∅) →
       on_timeout PassThrough i later = connectExchange PassThrough "binance" "BTCUSDT" cleared)
      ∧ (¬ (∃ tf users,
              userSubscriptions later !! subscriptionKey "binance" "BTCUSDT" tf
                = Some users ∧ users ≠ ∅) →
         on_timeout PassThrough i later = cleared).
Proof.
  apply (reconnect_decided_when_timer_fires PassThrough
           (run PassThrough init one_subscriber) 0
           {| url := "wss://fstream.binance.com/ws/btcusdt@kline_1m";
              exchange := "binance"; symbol := "BTCUSDT"; state := OPEN;
              sent := [] |}).
  - vm_compute. reflexivity.
  - discriminate.
Defined.

(** The scenario of the specification: subscribe, lose the upstream
    socket, unsubscribe, and let the timer fire.  No socket is constructed
    and nothing is left registered or pending. *)
Example unsubscribed_before_the_timer_fires :
  let r := request "binance" "BTCUSDT" "5m" "u1" in
  let s := run PassThrough init
             [PostConnect r; WsOpen 0; WsClose 0; PostDisconnect r; TimerFires 0] in
  (state <$> sockets s) = [CLOSED] ∧ timers s = []
  ∧ activeConnections s = ∅ ∧ userSubscriptions s = ∅.
Proof. vm_compute. repeat split; reflexivity. Qed.

(** The same without the unsubscribe: the timer constructs a second
    socket. *)
Example still_subscribed_when_the_timer_fires :
  let r := request "binance" "BTCUSDT" "5m" "u1" in
  let s := run PassThrough init [PostConnect r; WsOpen 0; WsClose 0; TimerFires 0] in
  (state <$> sockets s) = [CLOSED; CONNECTING] ∧ timers s = [].
Proof. vm_compute. repeat split; reflexivity. Qed.

(** C8, at two pairs of which one extends the names of the other: u1 is
    the only subscriber of (binance, BTC) and u2 of (binance, BTC-USD).
    The socket of (binance, BTC) closes, and u1 unsubscribes before the
    timer fires: when it fires, no subscriber holds any interest in
    (binance, BTC), and no new connection should be attempted.  The scan
    of the callback finds the key of u2, which starts with [binance-BTC-],
    and a third socket is constructed, for (binance, BTC). *)
Theorem reconnects_without_interest :
  let before :=
    run PassThrough init
        (shared_prefix ++ [WsClose 0; PostDisconnect (request "binance" "BTC" "1m" "u1")]) in
  let after := run PassThrough before [TimerFires 0] in
  userSubscriptions before = <["binance-BTC-USD-1m" := {["u2"]}]> ∅
  ∧ timers before = [ {| delay := 5000; timeout_exchange := "binance";
                         timeout_symbol := "BTC" |} ]
  ∧ length (sockets before) = 2%nat
  ∧ sockets after !! 2%nat
    = Some {| url := "wss://fstream.binance.com/ws/btc@kline_1m";
              exchange := "binance"; symbol := "BTC"; state := CONNECTING;
              sent := [] |}
  ∧ timers after = [].
Proof. vm_compute. repeat split; reflexivity. Qed.

End BridgeSpec.

(** * More about the aggregating server *)

Module AggregatorLaws.
Import Aggregator AggregatorSamples AggregatorSpec.

(** While fewer than n candles have been received, they are only
    collected. *)
Lemma collecting bufs u tf n K cs :
  timeframeToMinutes tf = Js.Num n →
  (∀ c, c ∈ cs → bufferKey u c = K) →
  Z.of_nat (length (candles (default {| candles := []; targetTimeframe := tf |}
                                     (bufs !! K))) + length cs) < n →
  (processAll bufs ((λ c, (c, u, tf)) <$> cs)).2 = []
  ∧ candles (default {| candles := []; targetTimeframe := tf |}
                     ((processAll bufs ((λ c, (c, u, tf)) <$> cs)).1 !! K))
    = candles (default {| candles := []; targetTimeframe := tf |} (bufs !! K)) ++ cs.
Proof.
  intros Hn. pose proof (timeframeToMinutes_positive _ _ Hn).
  revert bufs. induction cs as [|c cs IH]; intros bufs HK Hlen.
  - cbn [fmap list_fmap processAll fst snd]. by rewrite app_nil_r.
  - assert (bufferKey u c = K) as Hc by (apply HK; by left).
    assert (candles (pushed bufs c u tf)
            = candles (default {| candles := []; targetTimeframe := tf |} (bufs !! K))
              ++ [c]) as Hpushed.
    { rewrite (pushed_candles _ _ _ _ n) by done. rewrite Hc. cbn zeta.
      destruct (n * 2 <? _) eqn:Hcap; [exfalso | done].
      apply Z.ltb_lt in Hcap. rewrite length_app in Hcap. cbn [length] in *. lia. }
    assert (processCandle bufs c u tf = (<[K := pushed bufs c u tf]> bufs, []))
      as Hstep.
    { rewrite (processCandle_waiting _ _ _ _ n), ?Hc; [done.. |].
      rewrite Hpushed, length_app. cbn [length] in *. lia. }
    cbn [fmap list_fmap processAll]. rewrite Hstep.
    specialize (IH (<[K := pushed bufs c u tf]> bufs)).
    rewrite lookup_insert_eq in IH. cbn [default from_option id] in IH.
    rewrite Hpushed in IH.
    destruct IH as [Hsent Hfinal].
    { intros c' Hc'. apply HK. by right. }
    { rewrite length_app. cbn [length] in *. lia. }
    destruct (processAll _ _) as [final sent']. cbn [fst snd] in *.
    split; [by rewrite Hsent |]. by rewrite Hfinal, <- app_assoc.
Qed.

(** X1: n candles of one pair, processed one by one for a subscriber whose
    buffer is missing or empty, give exactly one derived candle: nothing is
    sent for the first n - 1, the last one sends the conversion of all n,
    and the buffer is empty again. *)
Theorem one_candle_out_of_n bufs u tf n K cs :
  timeframeToMinutes tf = Js.Num n →
  Z.of_nat (length cs) = n →
  (∀ c, c ∈ cs → bufferKey u c = K) →
  (∀ b, bufs !! K = Some b → candles b = []) →
  ∃ d, convertToTargetTimeframe cs tf = Derived d
       ∧ (processAll bufs ((λ c, (c, u, tf)) <$> cs)).2 = [(d, u)]
       ∧ candles <$> (processAll bufs ((λ c, (c, u, tf)) <$> cs)).1 !! K = Some []
       ∧ ∀ k, (k < length cs)%nat →
              (processAll bufs ((λ c, (c, u, tf)) <$> take k cs)).2 = [].
Proof.
  intros Hn Hlen HK Hempty. pose proof (timeframeToMinutes_positive _ _ Hn).
  assert (candles (default {| candles := []; targetTimeframe := tf |} (bufs !! K)) = [])
    as Hold.
  { destruct (bufs !! K) as [b|] eqn:Hb; [by apply Hempty | done]. }
  assert (∀ k, (k < length cs)%nat →
               (processAll bufs ((λ c, (c, u, tf)) <$> take k cs)).2 = []) as Hbefore.
  { intros k Hk. apply (collecting bufs u tf n K).
    - done.
    - intros c Hc. apply HK. by apply (subseteq_take k cs).
    - rewrite Hold, length_take. cbn [length]. lia. }
  destruct cs as [|c0 cs0] using rev_ind; [cbn [length] in Hlen; lia |].
  clear IHcs0. rewrite length_app in Hlen. cbn [length] in Hlen.
  destruct (collecting bufs u tf n K cs0) as [Hsent Hcollected]; [done | | |].
  { intros c Hc. apply HK. apply elem_of_app. by left. }
  { rewrite Hold. cbn [length]. lia. }
  rewrite Hold in Hcollected. cbn [app] in Hcollected.
  assert (bufferKey u c0 = K) as Hc0.
  { apply HK. apply elem_of_app. right. by left. }
  rewrite fmap_app. cbn [fmap list_fmap]. rewrite processAll_snoc.
  destruct (processAll bufs _) as [reached sent]. cbn [fst snd] in *. subst sent.
  assert (candles (pushed reached c0 u tf) = cs0 ++ [c0]) as Hpushed.
  { rewrite (pushed_candles _ _ _ _ n) by done. rewrite Hc0, Hcollected. cbn zeta.
    destruct (n * 2 <? _) eqn:Hcap; [exfalso | done].
    apply Z.ltb_lt in Hcap. rewrite length_app in Hcap. cbn [length] in Hcap. lia. }
  destruct (processCandle_enough reached c0 u tf n Hn) as (d & Hd & Hstep).
  { rewrite Hpushed, length_app. cbn [length]. lia. }
  rewrite Hpushed in Hd, Hstep. rewrite Hstep, Hc0. cbn [fst snd app].
  exists d. split; [| split; [done | split; [| done]]].
  - rewrite (convert_enough _ _ n); [done | done |].
    rewrite length_app. cbn [length]. lia.
  - rewrite lookup_insert_eq. cbn [fmap option_fmap option_map candles].
    rewrite drop_ge; [done |]. rewrite length_app. cbn [length]. lia.
Qed.

Lemma one_candle_out_of_n_witness :
  ∃ d, convertToTargetTimeframe [c1; c2; c3; c4; c5] "5m" = Derived d
       ∧ (processAll ∅ ((λ c, (c, "u1", "5m")) <$> [c1; c2; c3; c4; c5])).2 = [(d, "u1")]
       ∧ candles <$> (processAll ∅ ((λ c, (c, "u1", "5m")) <$> [c1; c2; c3; c4; c5])).1
                     !! "u1-binance-BTCUSDT" = Some []
       ∧ ∀ k, (k < length [c1; c2; c3; c4; c5])%nat →
              (processAll ∅ ((λ c, (c, "u1", "5m")) <$> take k [c1; c2; c3; c4; c5])).2 = [].
Proof.
  apply (one_candle_out_of_n ∅ "u1" "5m" 5 "u1-binance-BTCUSDT" [c1; c2; c3; c4; c5]).
  - reflexivity.
  - reflexivity.
  - intros c Hc. repeat (apply elem_of_cons in Hc as [-> | Hc]; [reflexivity |]).
    by apply elem_of_nil in Hc.
  - intros b Hb. by rewrite lookup_empty in Hb.
Defined.

(** X2: under a timeframe name that is neither in the table nor inherited
    from [Object.prototype], the aggregating server aggregates nothing:
    whatever the buffers hold, every 1-minute candle of a stream is sent on
    at once, one for one and in order, relabelled with the requested name. *)
Theorem unlisted_timeframe_forwards_every_candle tf bufs u cs :
  map !! tf = None → tf ∉ Js.Object_prototype →
  (processAll bufs ((λ c, (c, u, tf)) <$> cs)).2 =
  (λ c, ({| exchange := exchange c; symbol := symbol c; timeframe := tf;
            timestamp := timestamp c; open := open c;
            high := Js.Math_max [high c]; low := Js.Math_min [low c];
            close := close c;
            volume := PrimFloat.add PrimFloat.zero (volume c) |}, u)) <$> cs.
Proof.
  intros Hmap Hproto.
  destruct (unsupported_timeframe_is_one_minute tf Hmap Hproto) as [_ Hstep].
  revert bufs. induction cs as [|c cs IH]; intros bufs; [done |].
  cbn [fmap list_fmap processAll].
  specialize (Hstep bufs c u).
  destruct (processCandle bufs c u tf) as [next sent]. cbn [snd] in Hstep. subst sent.
  specialize (IH next). cbn [fmap] in IH.
  destruct (processAll next _) as [final sent']. cbn [snd] in *.
  by rewrite IH.
Qed.

Lemma unlisted_timeframe_forwards_every_candle_witness :
  (processAll ∅ ((λ c, (c, "u1", "2h")) <$> [c1; c2; c3])).2 =
  (λ c, ({| exchange := exchange c; symbol := symbol c; timeframe := "2h";
            timestamp := timestamp c; open := open c;
            high := Js.Math_max [high c]; low := Js.Math_min [low c];
            close := close c;
            volume := PrimFloat.add PrimFloat.zero (volume c) |}, "u1")) <$> [c1; c2; c3].
Proof.
  apply (unlisted_timeframe_forwards_every_candle "2h" ∅ "u1" [c1; c2; c3]).
  - vm_compute. reflexivity.
  - apply (bool_decide_eq_false_1 ("2h" ∈ Js.Object_prototype)). vm_compute. reflexivity.
Defined.
End AggregatorLaws.

(** * The message handlers *)

Module FeedSpec.
Import Stdlib.Strings.Ascii.
Import Bridge BridgeSpec Feed.

(** ** [split] *)

Lemma plain_tail c (s : string) :
  (∀ a b, String c s ≠ a +:+ "-" +:+ b) →
  Ascii.eqb c "-"%char = false ∧ ∀ a b, s ≠ a +:+ "-" +:+ b.
Proof.
  intros Hplain. split.
  - apply Ascii.eqb_neq. intros ->. by destruct (Hplain "" s).
  - intros a b ->. by destruct (Hplain (String c a) b).
Qed.

Lemma split_plain (s : string) :
  (∀ a b, s ≠ a +:+ "-" +:+ b) → split s = [s].
Proof.
  induction s as [|c s IH]; intros Hplain; [done |].
  apply plain_tail in Hplain as [Hc Hs].
  cbn [split]. by rewrite Hc, IH.
Qed.

Lemma split_segment (s rest : string) :
  (∀ a b, s ≠ a +:+ "-" +:+ b) →
  split (s +:+ "-" +:+ rest) = s :: split rest.
Proof.
  induction s as [|c s IH]; intros Hplain.
  - rewrite append_nil_l, append_cons, append_nil_l. cbn [split].
    by rewrite Ascii.eqb_refl.
  - apply plain_tail in Hplain as [Hc Hs].
    rewrite append_cons. cbn [split]. by rewrite Hc, IH.
Qed.

Lemma split_two_segments (a b : string) :
  (2 ≤ length (split (a +:+ "-" +:+ b)))%nat.
Proof.
  induction a as [|c a IH].
  - rewrite append_nil_l, append_cons, append_nil_l. cbn [split].
    rewrite Ascii.eqb_refl. destruct b; cbn [split length]; [lia |].
    destruct (Ascii.eqb _ _); [cbn [length]; lia |].
    destruct (split b); cbn [length]; lia.
  - rewrite append_cons. cbn [split].
    destruct (Ascii.eqb c "-"); [cbn [length]; lia |].
    destruct (split (a +:+ "-" +:+ b)) as [|? [|? ?]]; cbn [length] in *; lia.
Qed.

(** A string that [split] leaves in one piece has no hyphen. *)
Lemma plain_of_split (s : string) :
  length (split s) = 1%nat → ∀ a b, s ≠ a +:+ "-" +:+ b.
Proof.
  intros Hlen a b ->. pose proof (split_two_segments a b). lia.
Qed.

(** X3: when neither the exchange nor the symbol contains a hyphen, the
    third segment of the key is the timeframe up to its first hyphen, hence
    the timeframe itself when it has no hyphen. *)
Theorem timeframe_read_back e sy tf :
  (∀ a b, e ≠ a +:+ "-" +:+ b) →
  (∀ a b, sy ≠ a +:+ "-" +:+ b) →
  split (subscriptionKey e sy tf) !! 2%nat = head (split tf)
  ∧ ((∀ a b, tf ≠ a +:+ "-" +:+ b) →
     targetTimeframe (subscriptionKey e sy tf) = tf).
Proof.
  intros He Hsy.
  assert (split (subscriptionKey e sy tf) = e :: sy :: split tf) as Hsplit.
  { unfold subscriptionKey. by rewrite !split_segment. }
  split.
  - rewrite Hsplit. by destruct (split tf).
  - intros Htf. unfold targetTimeframe. by rewrite Hsplit, split_plain.
Qed.

Lemma timeframe_read_back_witness :
  split (subscriptionKey "binance" "BTCUSDT" "15m") !! 2%nat = head (split "15m")
  ∧ ((∀ a b, "15m" ≠ a +:+ "-" +:+ b) →
     targetTimeframe (subscriptionKey "binance" "BTCUSDT" "15m") = "15m").
Proof.
  apply (timeframe_read_back "binance" "BTCUSDT" "15m");
    apply plain_of_split; reflexivity.
Defined.

(** ** The loops *)

Lemma elem_of_forEachSubscriber {A} e sy entries (body : string → string → A) x :
  x ∈ forEachSubscriber e sy entries body ↔
  ∃ tf users u, (subscriptionKey e sy tf, users) ∈ entries ∧ u ∈ users
                ∧ x = body (subscriptionKey e sy tf) u.
Proof.
  unfold forEachSubscriber. rewrite list_elem_of_bind. split.
  - intros [[subKey users] [Hx Hentry]].
    destruct (Js.startsWith subKey _) eqn:Hpre; [| by apply elem_of_nil in Hx].
    apply startsWith_prefix_iff in Hpre as [tf ->].
    apply list_elem_of_fmap in Hx as (u & -> & Hu). by exists tf, users, u.
  - intros (tf & users & u & Hentry & Hu & ->).
    exists (subscriptionKey e sy tf, users). split; [| done].
    assert (Js.startsWith (subscriptionKey e sy tf) (subscriptionPrefix e sy) = true)
      as -> by (apply startsWith_prefix_iff; eauto).
    apply list_elem_of_fmap. eauto.
Qed.

Lemma elem_of_candlesOf parseFloat e sy data c :
  c ∈ candlesOf parseFloat e sy data ↔
  ∃ message, data = Some message
    ∧ ((message_e message = Some "kline"
        ∧ ∃ k, message_k message = Some k ∧ k_x k = true
               ∧ c = binanceCandle parseFloat e sy k)
       ∨ (∃ topic klines kline,
            message_topic message = Some topic ∧ Js.startsWith topic "kline" = true
            ∧ message_data message = Some klines
            ∧ kline ∈ klines ∧ kline_confirm kline = true
            ∧ c = bybitCandle parseFloat e sy kline)).
Proof.
  unfold candlesOf. destruct data as [message|].
  2:{ split; [by intros ?%elem_of_nil | by intros (? & [=] & _)]. }
  rewrite elem_of_app. split.
  - intros [Hbinance | Hbybit]; exists message; (split; [done |]).
    + left. destruct (message_e message) as [name|]; [| by apply elem_of_nil in Hbinance].
      destruct (message_k message) as [k|]; [| by apply elem_of_nil in Hbinance].
      destruct (bool_decide (name = "kline")) eqn:Hname;
        [| by apply elem_of_nil in Hbinance].
      destruct (k_x k) eqn:Hx; [| by apply elem_of_nil in Hbinance].
      apply bool_decide_eq_true in Hname as ->.
      apply list_elem_of_singleton in Hbinance as ->. eauto.
    + right. destruct (message_topic message) as [topic|];
        [| by apply elem_of_nil in Hbybit].
      destruct (message_data message) as [klines|]; [| by apply elem_of_nil in Hbybit].
      destruct (Js.startsWith topic "kline") eqn:Htopic;
        [| by apply elem_of_nil in Hbybit].
      apply list_elem_of_fmap in Hbybit as (kline & -> & Hkline).
      apply list_elem_of_filter in Hkline as [Hconfirm Hkline].
      by exists topic, klines, kline.
  - intros (? & [= <-] & [(-> & k & -> & Hx & ->) | Hbybit]).
    + left. rewrite Hx. cbn. by left.
    + right. destruct Hbybit as (topic & klines & kline & -> & -> & -> & Hin & Hc & ->).
      apply list_elem_of_fmap. exists kline. split; [done |].
      by apply list_elem_of_filter.
Qed.

(** X4: in one run over the entries of [userSubscriptions] as the [Map]
    iterates them, the handler of [src/index.js] hands a candle to
    [sendToWorker] for a user exactly when the candle was built from the closed Binance
    kline of the message or from a confirmed entry of its Bybit kline topic,
    and the user is in the set of some entry of [userSubscriptions] whose
    key starts with [`${exchange}-${symbol}-`].  Such a key need not be a
    key of the pair: [binance-BTC-USD-1m] starts with [binance-BTC-], so
    its users are sent the candles of (binance, BTC) too.  A message that
    does not parse, an open kline and unconfirmed entries send nothing. *)
Theorem forwarded_to_subscribers parseFloat e sy entries data c u :
  (c, u) ∈ on_message parseFloat e sy entries data ↔
  (∃ message, data = Some message
     ∧ ((message_e message = Some "kline"
         ∧ ∃ k, message_k message = Some k ∧ k_x k = true
                ∧ c = binanceCandle parseFloat e sy k)
        ∨ (∃ topic klines kline,
             message_topic message = Some topic ∧ Js.startsWith topic "kline" = true
             ∧ message_data message = Some klines
             ∧ kline ∈ klines ∧ kline_confirm kline = true
             ∧ c = bybitCandle parseFloat e sy kline)))
  ∧ (∃ subKey users, (subKey, users) ∈ entries
       ∧ Js.startsWith subKey (subscriptionPrefix e sy) = true ∧ u ∈ users).
Proof.
  unfold on_message. rewrite list_elem_of_bind. split.
  - intros (c' & Hsent & Hc').
    apply elem_of_forEachSubscriber in Hsent as (tf & users & u' & Hentry & Hu & [= -> ->]).
    split; [by apply elem_of_candlesOf |].
    exists (subscriptionKey e sy tf), users. split; [done |]. split; [| done].
    apply startsWith_prefix_iff. by exists tf.
  - intros [Hc (subKey & users & Hentry & [tf ->]%startsWith_prefix_iff & Hu)].
    exists c. split; [| by apply elem_of_candlesOf].
    apply elem_of_forEachSubscriber. by exists tf, users, u.
Qed.



End FeedSpec.

(** * More about the registries *)

Module BridgeLaws.
Import Bridge BridgeSamples BridgeSpec.

(** X6: a [/disconnect] for a key that is not registered, or for a user
    who is not in the set of the key, changes neither the registries nor
    the sockets; the aggregating server still deletes the buffer of the
    user for the pair. *)
Theorem disconnect_of_a_stranger p s e sy tf u :
  e ≠ "" → sy ≠ "" → tf ≠ "" → u ≠ "" →
  (userSubscriptions s !! subscriptionKey e sy tf = None
   ∨ ∃ users, userSubscriptions s !! subscriptionKey e sy tf = Some users
              ∧ (u ∉ users) ∧ users ≠ ∅) →
  (disconnect p (request e sy tf u) s).1 =
  {| userSubscriptions := userSubscriptions s;
     activeConnections := activeConnections s;
     candleBuffers := match p with
                      | PassThrough => candleBuffers s
                      | Aggregate =>
                          delete (u +:+ "-" +:+ e +:+ "-" +:+ sy) (candleBuffers s)
                      end;
     sockets := sockets s;
     timers := timers s |}.
Proof.
  intros He Hsy Htf Hu Hkey. unfold disconnect.
  rewrite request_complete by done.
  cbn [request body_exchange body_symbol body_timeframe body_userId default
       from_option id].
  destruct Hkey as [Hnone | (users & Hsome & Hout & Hne)].
  - rewrite bool_decide_eq_false_2; [done |]. rewrite Hnone. by intros [? ?].
  - rewrite bool_decide_eq_true_2 by eauto.
    rewrite lookup_alter_eq, Hsome.
    cbn [fmap option_fmap option_map default from_option id].
    assert (users ∖ {[u]} = users) as Hsame.
    { apply set_eq. intros x. rewrite elem_of_difference, elem_of_singleton.
      split; [by intros [? _] | intros Hx; split; [done | by intros ->]]. }
    rewrite Hsame.
    rewrite bool_decide_eq_false_2.
    2:{ intros Hzero. apply size_empty_iff in Hzero. apply Hne.
        by apply leibniz_equiv. }
    cbn [fst]. f_equal.
    apply map_eq. intros k. destruct (decide (k = subscriptionKey e sy tf)) as [-> |].
    + rewrite lookup_alter_eq, Hsome. cbn. by rewrite Hsame.
    + by rewrite lookup_alter_ne.
Qed.

Lemma disconnect_of_a_stranger_witness :
  (disconnect Aggregate (request "binance" "BTCUSDT" "15m" "u1")
              (run Aggregate init one_subscriber)).1 =
  {| userSubscriptions := userSubscriptions (run Aggregate init one_subscriber);
     activeConnections := activeConnections (run Aggregate init one_subscriber);
     candleBuffers :=
       delete ("u1" +:+ "-" +:+ "binance" +:+ "-" +:+ "BTCUSDT")
              (candleBuffers (run Aggregate init one_subscriber));
     sockets := sockets (run Aggregate init one_subscriber);
     timers := timers (run Aggregate init one_subscriber) |}.
Proof.
  apply (disconnect_of_a_stranger Aggregate (run Aggregate init one_subscriber)
           "binance" "BTCUSDT" "15m" "u1"); try discriminate.
  left. vm_compute. reflexivity.
Defined.

(** X7: for a user who is not yet in the set of the key, [/connect]
    followed by [/disconnect] with the same body gives back the
    subscription registry as it was. *)
Theorem connect_then_disconnect p s e sy tf u :
  e ≠ "" → sy ≠ "" → tf ≠ "" → u ≠ "" →
  u ∉ default ∅ (userSubscriptions s !! subscriptionKey e sy tf) →
  (∀ users, userSubscriptions s !! subscriptionKey e sy tf = Some users → users ≠ ∅) →
  userSubscriptions
    (disconnect p (request e sy tf u) (connect p (request e sy tf u) s).1).1
  = userSubscriptions s.
Proof.
  intros He Hsy Htf Hu Hnew Hne.
  destruct (connect_complete p e sy tf u s) as [Hsubs _]; [done.. |].
  pose proof (disconnect_subscriptions p (request e sy tf u)
                (connect p (request e sy tf u) s).1
                (request_complete e sy tf u He Hsy Htf Hu)) as Hd.
  cbn [request body_exchange body_symbol body_timeframe body_userId default
       from_option id] in Hd.
  rewrite Hd, Hsubs, lookup_insert_eq. clear Hd Hsubs.
  set (before := default ∅ (userSubscriptions s !! subscriptionKey e sy tf)) in *.
  assert ((before ∪ {[u]}) ∖ {[u]} = before) as Hback.
  { apply set_eq. intros x.
    rewrite elem_of_difference, elem_of_union, elem_of_singleton.
    split; [intros [[? | ?] ?]; done | intros Hx; split; [by left | by intros ->]]. }
  rewrite Hback.
  destruct (userSubscriptions s !! subscriptionKey e sy tf) as [users|] eqn:Hkey.
  - cbn [default from_option id] in before. subst before.
    rewrite bool_decide_eq_false_2 by eauto.
    rewrite insert_insert_eq. by apply insert_id.
  - cbn [default from_option] in before. subst before.
    rewrite bool_decide_eq_true_2 by done.
    rewrite delete_insert_eq. by apply delete_id.
Qed.

Lemma connect_then_disconnect_witness :
  userSubscriptions
    (disconnect PassThrough (request "binance" "BTCUSDT" "5m" "u2")
       (connect PassThrough (request "binance" "BTCUSDT" "5m" "u2")
                (run PassThrough init one_subscriber)).1).1
  = userSubscriptions (run PassThrough init one_subscriber).
Proof.
  apply (connect_then_disconnect PassThrough (run PassThrough init one_subscriber)
           "binance" "BTCUSDT" "5m" "u2"); try discriminate.
  intros users Hkey.
  assert (users = {["u1"]}) as ->.
  { apply (inj Some). rewrite <- Hkey. vm_compute. reflexivity. }
  apply (bool_decide_eq_false_1 (({["u1"]} : gset string) = ∅)).
  vm_compute. reflexivity.
Defined.

(** X8: in the aggregating server a [/disconnect] of any timeframe empties
    the buffer the user has for the pair: the next candle of the pair,
    for whatever timeframe the user still holds, starts a buffer of its
    own. *)
Theorem disconnect_restarts_aggregation s e sy tf u c target n :
  e ≠ "" → sy ≠ "" → tf ≠ "" → u ≠ "" →
  Aggregator.exchange c = e → Aggregator.symbol c = sy →
  Aggregator.timeframeToMinutes target = Js.Num n →
  Aggregator.pushed
    (candleBuffers (disconnect Aggregate (request e sy tf u) s).1) c u target
  = {| Aggregator.candles := [c]; Aggregator.targetTimeframe := target |}.
Proof.
  intros He Hsy Htf Hu Hce Hcs Hn.
  pose proof (AggregatorSpec.timeframeToMinutes_positive _ _ Hn).
  assert (candleBuffers (disconnect Aggregate (request e sy tf u) s).1
          = delete (Aggregator.bufferKey u c) (candleBuffers s)) as ->.
  { unfold disconnect. rewrite request_complete by done.
    cbn [request body_exchange body_symbol body_timeframe body_userId default
         from_option id].
    unfold Aggregator.bufferKey. rewrite Hce, Hcs.
    by destruct (if bool_decide (is_Some _) then _ else _) as [[? ?] ?]. }
  unfold Aggregator.pushed. rewrite lookup_delete_eq, Hn.
  cbn [default from_option Aggregator.candles Aggregator.targetTimeframe app
       Js.ToNumber Js.mul Js.gt Js.lt Js.len length].
  destruct (n * 2 <? _) eqn:Hcap; [| done].
  apply Z.ltb_lt in Hcap. lia.
Qed.

Lemma disconnect_restarts_aggregation_witness :
  Aggregator.pushed
    (candleBuffers
       (disconnect Aggregate (request "binance" "BTCUSDT" "15m" "u1")
          (run Aggregate init one_subscriber)).1)
    AggregatorSamples.c1 "u1" "5m"
  = {| Aggregator.candles := [AggregatorSamples.c1];
       Aggregator.targetTimeframe := "5m" |}.
Proof.
  apply (disconnect_restarts_aggregation (run Aggregate init one_subscriber)
           "binance" "BTCUSDT" "15m" "u1" AggregatorSamples.c1 "5m" 5).
  - discriminate.
  - discriminate.
  - discriminate.
  - discriminate.
  - reflexivity.
  - reflexivity.
  - reflexivity.
Defined.

(** ** Registered connections *)

Lemma disconnect_cases p b s :
  (activeConnections (disconnect p b s).1 = activeConnections s
   ∧ sockets (disconnect p b s).1 = sockets s)
  ∨ ∃ key ws,
      activeConnections s !! key = Some ws
      ∧ activeConnections (disconnect p b s).1 = delete key (activeConnections s)
      ∧ sockets (disconnect p b s).1 = close ws (sockets s).
Proof.
  unfold disconnect. destruct (falsy _ || _ || _ || _); [by left |].
  case_bool_decide; [| by left].
  case_bool_decide; [| by left].
  destruct (hasOtherSubs _ _ _); [by left |].
  destruct (activeConnections s !! _) as [ws|] eqn:Hws; [| by left].
  right. by eexists _, ws.
Qed.

Lemma close_other ws ws' (l : list WebSocket) :
  ws ≠ ws' → close ws l !! ws' = l !! ws'.
Proof.
  intros Hne. unfold close. destruct (l !! ws); [| done].
  by rewrite list_lookup_insert_ne.
Qed.

Lemma close_same ws (l : list WebSocket) socket :
  l !! ws = Some socket →
  ∃ closing, close ws l !! ws = Some closing
             ∧ exchange closing = exchange socket
             ∧ symbol closing = symbol socket
             ∧ state closing = match state socket with CLOSED => CLOSED | _ => CLOSING end.
Proof.
  intros Hws. unfold close. rewrite Hws. eexists.
  split; [apply list_lookup_insert_eq; by eapply lookup_lt_Some | done].
Qed.

Lemma step_keeps_registered_opened p s ev :
  (∀ key ws, activeConnections s !! key = Some ws →
     ∃ socket, sockets s !! ws = Some socket
               ∧ (state socket = OPEN ∨ state socket = CLOSING)
               ∧ key = connectionKey p (exchange socket) (symbol socket)) →
  ∀ key ws, activeConnections (step p s ev) !! key = Some ws →
    ∃ socket, sockets (step p s ev) !! ws = Some socket
              ∧ (state socket = OPEN ∨ state socket = CLOSING)
              ∧ key = connectionKey p (exchange socket) (symbol socket).
Proof.
  intros Hinv.
  assert (∀ e sy s0,
            activeConnections s0 = activeConnections s →
            sockets s0 = sockets s →
            ∀ key ws, activeConnections (connectExchange p e sy s0) !! key = Some ws →
              ∃ socket, sockets (connectExchange p e sy s0) !! ws = Some socket
                        ∧ (state socket = OPEN ∨ state socket = CLOSING)
                        ∧ key = connectionKey p (exchange socket) (symbol socket))
    as Hconnect.
  { intros e sy s0 Hc Hs key ws. unfold connectExchange.
    case_bool_decide; [rewrite Hc, Hs; apply Hinv |].
    destruct (wsUrl e sy); [| rewrite Hc, Hs; apply Hinv].
    cbn [activeConnections sockets]. rewrite Hc, Hs. intros Hkey.
    destruct (Hinv key ws Hkey) as (socket & Hws & Hopen & Hk).
    exists socket. split; [| done].
    rewrite lookup_app_l; [done | by eapply lookup_lt_Some]. }
  assert (∀ i key ws, activeConnections s !! key = Some ws →
            ∃ socket, close i (sockets s) !! ws = Some socket
                      ∧ (state socket = OPEN ∨ state socket = CLOSING)
                      ∧ key = connectionKey p (exchange socket) (symbol socket))
    as Hclosing.
  { intros i key ws Hkey.
    destruct (Hinv key ws Hkey) as (socket & Hws & Hopen & Hk).
    destruct (decide (i = ws)) as [-> | Hne].
    - destruct (close_same ws (sockets s) socket Hws)
        as (closing & Hclosing & He & Hsy & Hstate).
      exists closing. split; [done |]. split; [| congruence].
      rewrite Hstate. destruct Hopen as [-> | ->]; by right.
    - exists socket. split; [| done]. by rewrite close_other. }
  destruct ev as [b | b | i | i | i | i]; cbn [step].
  - unfold connect. destruct (falsy _ || _ || _ || _); [apply Hinv |].
    cbn [fst]. case_bool_decide; [apply Hinv | by apply Hconnect].
  - intros key ws Hkey.
    destruct (disconnect_cases p b s) as [[Hc Hs] | (key0 & ws0 & Hreg & Hc & Hs)].
    + rewrite Hc in Hkey. rewrite Hs. by apply Hinv.
    + rewrite Hc in Hkey. rewrite Hs.
      apply lookup_delete_Some in Hkey as [Hne Hkey].
      destruct (Hinv key ws Hkey) as (socket & Hws & Hopen & Hk).
      destruct (Hinv key0 ws0 Hreg) as (socket0 & Hws0 & _ & Hk0).
      exists socket. split; [| done].
      rewrite close_other; [done |]. intros ->. congruence.
  - unfold on_open. destruct (sockets s !! i) as [opening|] eqn:Hi; [| apply Hinv].
    destruct (state opening) eqn:Hstate; try apply Hinv.
    cbn [activeConnections sockets]. intros key ws Hkey.
    apply lookup_insert_Some in Hkey as [[<- <-] | [Hne Hkey]].
    + eexists. split; [apply list_lookup_insert_eq; by eapply lookup_lt_Some |].
      split; [by left | done].
    + destruct (Hinv key ws Hkey) as (socket & Hws & Hopen & Hk).
      exists socket. split; [| done].
      rewrite list_lookup_insert_ne; [done |]. intros ->. congruence.
  - unfold on_close. destruct (sockets s !! i) as [closing|] eqn:Hi; [| apply Hinv].
    assert (∀ key ws,
              delete (connectionKey p (exchange closing) (symbol closing))
                     (activeConnections s) !! key = Some ws →
              ∃ socket, <[i := {| url := url closing; exchange := exchange closing;
                                  symbol := symbol closing; state := CLOSED;
                                  sent := sent closing |}]> (sockets s) !! ws
                        = Some socket
                        ∧ (state socket = OPEN ∨ state socket = CLOSING)
                        ∧ key = connectionKey p (exchange socket) (symbol socket))
      as Hclosed.
    { intros key ws Hkey. apply lookup_delete_Some in Hkey as [Hne Hkey].
      destruct (Hinv key ws Hkey) as (socket & Hws & Hopen & Hk).
      exists socket. split; [| done].
      rewrite list_lookup_insert_ne; [done |]. intros ->. congruence. }
    destruct (state closing); try apply Hclosed. apply Hinv.
  - unfold on_timeout. destruct (timers s !! i) as [t|]; [| apply Hinv].
    destruct (hasSubscribers _ _ _); [by apply Hconnect | apply Hinv].
  - unfold on_closing. cbn [activeConnections sockets]. apply Hclosing.
Qed.

(** X9: whatever the server has handled since it started, requests,
    callbacks and sockets that start closing on their own, every entry of
    [activeConnections] refers to a socket that was constructed for the
    pair of that key, has opened and has not closed yet: it is open or
    closing, never connecting and never closed. *)
Theorem registered_sockets_have_opened p events key ws :
  activeConnections (run p init events) !! key = Some ws →
  ∃ socket, sockets (run p init events) !! ws = Some socket
            ∧ (state socket = OPEN ∨ state socket = CLOSING)
            ∧ key = connectionKey p (exchange socket) (symbol socket).
Proof.
  revert key ws. unfold run.
  assert (∀ key ws, activeConnections init !! key = Some ws →
            ∃ socket, sockets init !! ws = Some socket
                      ∧ (state socket = OPEN ∨ state socket = CLOSING)
                      ∧ key = connectionKey p (exchange socket) (symbol socket))
    as Hinit.
  { intros key ws Hkey. cbn in Hkey. by rewrite lookup_empty in Hkey. }
  revert Hinit. generalize init.
  induction events as [|ev events IH]; intros s Hs; [done |].
  cbn [fold_left]. apply IH. by apply step_keeps_registered_opened.
Qed.

Lemma registered_sockets_have_opened_witness :
  ∃ socket, sockets (run PassThrough init (one_subscriber ++ [WsClosing 0])) !! 0%nat
            = Some socket
            ∧ (state socket = OPEN ∨ state socket = CLOSING)
            ∧ "binance-BTCUSDT" = connectionKey PassThrough (exchange socket) (symbol socket).
Proof.
  apply (registered_sockets_have_opened PassThrough (one_subscriber ++ [WsClosing 0])
           "binance-BTCUSDT" 0).
  vm_compute. reflexivity.
Defined.

(** ** Reconnection and sharing *)

(** X10: a socket of a pair that still has a subscriber is replaced after
    it closes, whatever state it closes from (connecting, open or
    closing): the ['close'] callback, the timer and the ['open'] callback
    of the new socket leave the subscriptions and the pending timers as
    they were, mark the old socket closed, and register under the same key
    a new open socket for the same exchange and symbol. *)
Theorem reconnected_after_close p s ws socket address tf users :
  sockets s !! ws = Some socket →
  state socket ≠ CLOSED →
  wsUrl (exchange socket) (symbol socket) = Some address →
  userSubscriptions s !! subscriptionKey (exchange socket) (symbol socket) tf
    = Some users →
  users ≠ ∅ →
  run p s [WsClose ws; TimerFires (length (timers s)); WsOpen (length (sockets s))] =
  {| userSubscriptions := userSubscriptions s;
     activeConnections :=
       <[connectionKey p (exchange socket) (symbol socket) := length (sockets s)]>
         (activeConnections s);
     candleBuffers := candleBuffers s;
     sockets :=
       <[ws := {| url := url socket; exchange := exchange socket;
                  symbol := symbol socket; state := CLOSED; sent := sent socket |}]>
         (sockets s)
       ++ [ {| url := address; exchange := exchange socket; symbol := symbol socket;
               state := OPEN;
               sent := if Js.includes (Js.toLowerCase (exchange socket)) "bybit"
                       then [("subscribe", ["kline.1." +:+ symbol socket])] else [] |} ];
     timers := timers s |}.
Proof.
  intros Hws Hopen Hurl Hkey Hne.
  unfold run. cbn [fold_left step].
  assert (on_close p ws s =
          {| userSubscriptions := userSubscriptions s;
             activeConnections :=
               delete (connectionKey p (exchange socket) (symbol socket))
                      (activeConnections s);
             candleBuffers := candleBuffers s;
             sockets := <[ws := {| url := url socket; exchange := exchange socket;
                                   symbol := symbol socket; state := CLOSED;
                                   sent := sent socket |}]> (sockets s);
             timers := timers s ++
               [ {| delay := 5000; timeout_exchange := exchange socket;
                    timeout_symbol := symbol socket |} ] |}) as ->.
  { unfold on_close. rewrite Hws. by destruct (state socket). }
  unfold on_timeout. cbn [timers userSubscriptions].
  rewrite list_lookup_middle by done.
  cbn [timeout_exchange timeout_symbol].
  assert (hasSubscribers (exchange socket) (symbol socket) (userSubscriptions s) = true)
    as -> by (apply hasSubscribers_true; eauto).
  rewrite delete_middle, app_nil_r.
  unfold connectExchange. cbn [activeConnections].
  rewrite bool_decide_eq_false_2.
  2:{ rewrite lookup_delete_eq. by intros [? ?]. }
  rewrite Hurl. unfold on_open. cbn [sockets].
  rewrite list_lookup_middle by (by rewrite length_insert).
  cbn [state activeConnections userSubscriptions candleBuffers timers exchange
       symbol url sent app].
  rewrite insert_delete_eq. f_equal.
  rewrite <- (length_insert (sockets s) ws
                {| url := url socket; exchange := exchange socket;
                   symbol := symbol socket; state := CLOSED; sent := sent socket |})
    at 1.
  by rewrite insert_app_r_alt, Nat.sub_diag by done.
Qed.

Lemma reconnected_after_close_witness :
  let s := run PassThrough init one_subscriber in
  run PassThrough s [WsClose 0; TimerFires (length (timers s)); WsOpen (length (sockets s))] =
  {| userSubscriptions := userSubscriptions s;
     activeConnections :=
       <[connectionKey PassThrough "binance" "BTCUSDT" := length (sockets s)]>
         (activeConnections s);
     candleBuffers := candleBuffers s;
     sockets :=
       <[0%nat := {| url := "wss://fstream.binance.com/ws/btcusdt@kline_1m";
                     exchange := "binance"; symbol := "BTCUSDT"; state := CLOSED;
                     sent := [] |}]> (sockets s)
       ++ [ {| url := "wss://fstream.binance.com/ws/btcusdt@kline_1m";
               exchange := "binance"; symbol := "BTCUSDT"; state := OPEN;
               sent := if Js.includes (Js.toLowerCase "binance") "bybit"
                       then [("subscribe", ["kline.1." +:+ "BTCUSDT"])] else [] |} ];
     timers := timers s |}.
Proof.
  apply (reconnected_after_close PassThrough (run PassThrough init one_subscriber) 0
           {| url := "wss://fstream.binance.com/ws/btcusdt@kline_1m";
              exchange := "binance"; symbol := "BTCUSDT"; state := OPEN; sent := [] |}
           "wss://fstream.binance.com/ws/btcusdt@kline_1m" "5m" {["u1"]}).
  - vm_compute. reflexivity.
  - discriminate.
  - vm_compute. reflexivity.
  - vm_compute. reflexivity.
  - apply (bool_decide_eq_false_1 (({["u1"]} : gset string) = ∅)).
    vm_compute. reflexivity.
Defined.

(** X11: names without hyphens are never taken for one another: a key
    built from such an exchange and symbol starts with the prefix of a pair
    of such names only if it is a key of that pair. *)
Theorem plain_names_not_confused e sy e' sy' tf' :
  (∀ a b, e ≠ a +:+ "-" +:+ b) →
  (∀ a b, sy ≠ a +:+ "-" +:+ b) →
  (∀ a b, e' ≠ a +:+ "-" +:+ b) →
  (∀ a b, sy' ≠ a +:+ "-" +:+ b) →
  Js.startsWith (subscriptionKey e' sy' tf') (subscriptionPrefix e sy) = true →
  e' = e ∧ sy' = sy.
Proof.
  intros He Hsy He' Hsy' [tf Hkey]%startsWith_prefix_iff.
  apply (f_equal Feed.split) in Hkey. unfold subscriptionKey in Hkey.
  rewrite !FeedSpec.split_segment in Hkey by done.
  by injection Hkey as -> ->.
Qed.

Lemma plain_names_not_confused_witness : "binance" = "binance" ∧ "BTC" = "BTC".
Proof.
  apply (plain_names_not_confused "binance" "BTC" "binance" "BTC" "5m");
    try (apply FeedSpec.plain_of_split; reflexivity).
  vm_compute. reflexivity.
Defined.

(** X12: once the key of a pair is registered, no number of complete
    [/connect] requests for the pair, whatever their timeframes and users
    and whatever state the sockets are in, constructs a socket or changes
    the registry. *)
Theorem registered_pair_is_shared p e sy s (requests : list (string * string)) :
  e ≠ "" → sy ≠ "" →
  Forall (λ '(tf, u), tf ≠ "" ∧ u ≠ "") requests →
  is_Some (activeConnections s !! connectionKey p e sy) →
  let s' := run p s ((λ '(tf, u), PostConnect (request e sy tf u)) <$> requests) in
  sockets s' = sockets s ∧ activeConnections s' = activeConnections s.
Proof.
  intros He Hsy Hall. revert s.
  induction Hall as [|[tf u] requests [Htf Hu] _ IH]; intros s Hreg; [done |].
  cbn [fmap list_fmap run fold_left step].
  destruct (connect_registered p e sy tf u s) as [Hsock Hconn]; [done.. |].
  specialize (IH (connect p (request e sy tf u) s).1).
  unfold run in IH. cbn zeta in IH.
  rewrite Hsock, Hconn in IH. by apply IH.
Qed.

Lemma registered_pair_is_shared_witness :
  let s := run PassThrough init one_subscriber in
  let s' := run PassThrough s
              ((λ '(tf, u), PostConnect (request "binance" "BTCUSDT" tf u))
                 <$> [("5m", "u2"); ("1h", "u3")]) in
  sockets s' = sockets s ∧ activeConnections s' = activeConnections s.
Proof.
  apply (registered_pair_is_shared PassThrough "binance" "BTCUSDT"
           (run PassThrough init one_subscriber) [("5m", "u2"); ("1h", "u3")]);
    try discriminate.
  - repeat constructor; discriminate.
  - vm_compute. eauto.
Defined.
End BridgeLaws.

(** * [/health] and [/status] *)

Module MonitorSpec.
Import Bridge BridgeSamples BridgeSpec Monitor.

Lemma fold_sizes (l : list (gset string)) (a : nat) :
  fold_left (λ sum users, (sum + size users)%nat) l a = (a + sum_list_with size l)%nat.
Proof.
  revert a. induction l as [|x l IH]; intros a; cbn [fold_left sum_list_with].
  - lia.
  - rewrite IH. lia.
Qed.

Lemma totalSubscribers_sum s :
  totalSubscribers s
  = sum_list_with (λ entry, size entry.2) (map_to_list (userSubscriptions s)).
Proof.
  unfold totalSubscribers. rewrite fold_sizes. cbn [Nat.add].
  induction (map_to_list (userSubscriptions s)) as [|[k x] l IH]; [done |].
  cbn [fmap list_fmap sum_list_with snd]. cbn [fmap] in IH. by rewrite IH.
Qed.

Lemma sum_insert_fresh (m : gmap string (gset string)) k x :
  m !! k = None →
  sum_list_with (λ entry, size entry.2) (map_to_list (<[k := x]> m))
  = (size x + sum_list_with (λ entry, size entry.2) (map_to_list m))%nat.
Proof. intros Hk. by rewrite map_to_list_insert. Qed.

Lemma sum_delete (m : gmap string (gset string)) k y :
  m !! k = Some y →
  sum_list_with (λ entry, size entry.2) (map_to_list m)
  = (size y + sum_list_with (λ entry, size entry.2) (map_to_list (delete k m)))%nat.
Proof. intros Hk. by rewrite <- (map_to_list_delete m k y Hk). Qed.

Lemma sum_insert (m : gmap string (gset string)) k x y :
  m !! k = Some y →
  (sum_list_with (λ entry, size entry.2) (map_to_list (<[k := x]> m)) + size y
   = size x + sum_list_with (λ entry, size entry.2) (map_to_list m))%nat.
Proof.
  intros Hk. rewrite <- insert_delete_eq.
  rewrite sum_insert_fresh by apply lookup_delete_eq.
  rewrite (sum_delete m k y Hk). lia.
Qed.

(** X13: the subscriber total of [/health] goes up by one with a
    [/connect] that adds a user to a key and stays when the user is already
    there; it goes down by one with a [/disconnect] that removes a user and
    stays when there is none to remove. *)
Theorem health_counts_subscribers p s e sy tf u :
  e ≠ "" → sy ≠ "" → tf ≠ "" → u ≠ "" →
  let present :=
    bool_decide (u ∈ default ∅ (userSubscriptions s !! subscriptionKey e sy tf)) in
  subscribers (getHealth p (connect p (request e sy tf u) s).1)
  = (subscribers (getHealth p s) + if present then 0 else 1)%nat
  ∧ subscribers (getHealth p (disconnect p (request e sy tf u) s).1)
    = (subscribers (getHealth p s) - if present then 1 else 0)%nat.
Proof.
  intros He Hsy Htf Hu present. unfold getHealth. cbn [subscribers].
  rewrite !totalSubscribers_sum.
  destruct (connect_complete p e sy tf u s) as [-> _]; [done.. |].
  pose proof (disconnect_subscriptions p (request e sy tf u) s
                (request_complete e sy tf u He Hsy Htf Hu)) as ->.
  cbn [request body_exchange body_symbol body_timeframe body_userId default
       from_option id].
  subst present.
  destruct (userSubscriptions s !! subscriptionKey e sy tf) as [users|] eqn:Hkey;
    cbn [default from_option id].
  - pose proof (sum_insert (userSubscriptions s) (subscriptionKey e sy tf)
                  (users ∪ {[u]}) users Hkey) as Hadd.
    pose proof (sum_insert (userSubscriptions s) (subscriptionKey e sy tf)
                  (users ∖ {[u]}) users Hkey) as Hremove.
    pose proof (sum_delete (userSubscriptions s) (subscriptionKey e sy tf) users Hkey)
      as Hdelete.
    case_bool_decide as Hin.
    + assert (users ∪ {[u]} = users) as Hsame by set_solver.
      rewrite Hsame in Hadd |- *.
      assert (size (users ∖ {[u]}) + 1 = size users)%nat as Hless.
      { rewrite size_difference by set_solver. rewrite size_singleton.
        assert (size users ≠ 0)%nat; [| lia].
        intros Hzero. apply size_empty_iff in Hzero. set_solver. }
      split; [lia |].
      case_bool_decide as Hempty.
      * rewrite Hempty, size_empty in Hless. lia.
      * lia.
    + assert (size (users ∪ {[u]}) = size users + 1)%nat as Hmore.
      { rewrite size_union by set_solver. by rewrite size_singleton. }
      assert (users ∖ {[u]} = users) as Hsame by set_solver.
      rewrite Hsame in Hremove |- *.
      split; [lia |].
      case_bool_decide as Hempty.
      * rewrite Hempty, size_empty in Hdelete. lia.
      * lia.
  - rewrite bool_decide_eq_false_2 by set_solver.
    rewrite sum_insert_fresh by done.
    assert ((∅ : gset string) ∪ {[u]} = {[u]}) as -> by set_solver.
    rewrite size_singleton. lia.
Qed.

Lemma health_counts_subscribers_witness :
  let s := run PassThrough init one_subscriber in
  let present :=
    bool_decide ("u2" ∈ default ∅ (userSubscriptions s
                                   !! subscriptionKey "binance" "BTCUSDT" "5m")) in
  subscribers (getHealth PassThrough
                 (connect PassThrough (request "binance" "BTCUSDT" "5m" "u2") s).1)
  = (subscribers (getHealth PassThrough s) + if present then 0 else 1)%nat
  ∧ subscribers (getHealth PassThrough
                   (disconnect PassThrough (request "binance" "BTCUSDT" "5m" "u2") s).1)
    = (subscribers (getHealth PassThrough s) - if present then 1 else 0)%nat.
Proof.
  apply (health_counts_subscribers PassThrough (run PassThrough init one_subscriber)
           "binance" "BTCUSDT" "5m" "u2"); discriminate.
Defined.

(** X14: whatever the server has handled since it started, [/status]
    lists no key with a count of zero. *)
Theorem status_lists_no_empty_key p events key n :
  statusSubscriptions (run p init events) !! key = Some n → (0 < n)%nat.
Proof.
  assert (map_Forall (λ _ users, users ≠ (∅ : gset string))
            (userSubscriptions (run p init events))) as Hinv.
  { unfold run.
    assert (map_Forall (λ _ users, users ≠ (∅ : gset string)) (userSubscriptions init))
      as Hinit by apply map_Forall_empty.
    revert Hinit. generalize init.
    induction events as [|ev events IH]; intros s Hs; [done |].
    cbn [fold_left]. apply IH. by apply step_subscriptions_nonempty. }
  unfold statusSubscriptions. rewrite lookup_fmap.
  destruct (userSubscriptions (run p init events) !! key) as [users|] eqn:Hkey;
    [| discriminate].
  intros [= <-]. specialize (Hinv key users Hkey). cbn in Hinv.
  destruct (decide (size users = 0%nat)) as [Hzero |]; [| lia].
  apply size_empty_iff in Hzero. destruct Hinv. by apply leibniz_equiv.
Qed.

Lemma status_lists_no_empty_key_witness : (0 < 1)%nat.
Proof.
  apply (status_lists_no_empty_key PassThrough one_subscriber "binance-BTCUSDT-5m" 1).
  vm_compute. reflexivity.
Defined.

End MonitorSpec.

(** * The Binance-only server *)

Module BinanceSpec.
Import Bridge BridgeSpec.
Import BinanceBridge.

(** ** [replace] *)

(** Removing the first [-testnet] changes a name only if the name holds
    [testnet]. *)
Lemma replace_testnet s :
  replace s "-testnet" "" = s ∨ ∃ m, String.substring m 7 s = "testnet".
Proof.
  induction s as [|c s IH].
  - by left.
  - destruct (String.prefix "-testnet" (String c s)) eqn:Hprefix.
    + right. exists 1%nat.
      apply String.prefix_correct in Hprefix. cbn [String.length] in Hprefix.
      cbn [String.substring] in Hprefix. cbn [String.substring].
      by injection Hprefix as _ ->.
    + cbn [replace]. rewrite Hprefix.
      destruct IH as [-> | [m Hm]]; [by left |].
      right. by exists (S m).
Qed.

Lemma replace_binance e :
  replace e "-testnet" "" = "binance" →
  e = "binance" ∨ Js.includes e "testnet" = true.
Proof.
  intros Hbase. destruct (replace_testnet e) as [Hsame | [m Hm]].
  - left. congruence.
  - right. unfold Js.includes. apply bool_decide_eq_true_2.
    destruct (String.index 0 "testnet" e) as [n|] eqn:Hindex; [by eexists |].
    exfalso. by apply (String.index_correct3 0 m "testnet" e Hindex); [| lia |].
Qed.

(** ** [/connect] *)

Lemma binance_connect_complete e sy tf u s :
  e ≠ "" → sy ≠ "" → tf ≠ "" → u ≠ "" →
  connect (request e sy tf u) s =
  let key := subscriptionKey e sy tf in
  let created :=
    if bool_decide (is_Some (userSubscriptions s !! key)) then userSubscriptions s
    else <[key := ∅]> (userSubscriptions s) in
  let s1 := {| userSubscriptions := alter (λ users, users ∪ {[u]}) key created;
               activeConnections := activeConnections s;
               sockets := sockets s;
               timers := timers s |} in
  if bool_decide (is_Some (activeConnections s !! key))
  then (s1, Success ("Connected to " +:+ key))
  else if bool_decide (replace e "-testnet" "" = "binance")
       then (connectBinanceWS e sy tf (Js.includes e "testnet") s1,
             Success ("Connected to " +:+ key))
       else (s1, BadRequest ("Exchange " +:+ replace e "-testnet" "" +:+ " not supported yet")).
Proof.
  intros He Hsy Htf Hu. unfold connect. by rewrite request_complete.
Qed.

(** X15: a request that names any other exchange than Binance is answered
    with status 400 and constructs no socket, but only after the user has
    been entered: the subscriber stays in the registry of the key, which
    has no connection. *)
Theorem refused_exchange_stays_subscribed e sy tf u s :
  e ≠ "" → sy ≠ "" → tf ≠ "" → u ≠ "" →
  replace e "-testnet" "" ≠ "binance" →
  activeConnections s !! subscriptionKey e sy tf = None →
  let after := connect (request e sy tf u) s in
  after.2 = BadRequest ("Exchange " +:+ replace e "-testnet" "" +:+ " not supported yet")
  ∧ sockets after.1 = sockets s
  ∧ activeConnections after.1 = activeConnections s
  ∧ ∃ users, userSubscriptions after.1 !! subscriptionKey e sy tf = Some users
             ∧ u ∈ users.
Proof.
  intros He Hsy Htf Hu Hbase Hfree. cbn zeta.
  rewrite binance_connect_complete by done. cbn zeta.
  rewrite Hfree. rewrite (bool_decide_eq_false_2 (is_Some None)) by (by intros [? ?]).
  rewrite (bool_decide_eq_false_2 _ Hbase).
  cbn [fst snd sockets activeConnections userSubscriptions].
  split; [done |]. split; [done |]. split; [done |].
  case_bool_decide as Hhas.
  - destruct Hhas as [users Husers]. exists (users ∪ {[u]}).
    rewrite lookup_alter_eq, Husers. split; [done |].
    apply elem_of_union. right. by apply elem_of_singleton.
  - exists (∅ ∪ {[u]}). rewrite lookup_alter_eq, lookup_insert_eq. split; [done |].
    apply elem_of_union. right. by apply elem_of_singleton.
Qed.

Lemma refused_exchange_stays_subscribed_witness :
  let after := connect (request "bybit" "BTCUSDT" "1m" "u1") init in
  after.2 = BadRequest ("Exchange " +:+ replace "bybit" "-testnet" "" +:+ " not supported yet")
  ∧ sockets after.1 = sockets init
  ∧ activeConnections after.1 = activeConnections init
  ∧ ∃ users, userSubscriptions after.1 !! subscriptionKey "bybit" "BTCUSDT" "1m"
             = Some users ∧ "u1" ∈ users.
Proof.
  apply (refused_exchange_stays_subscribed "bybit" "BTCUSDT" "1m" "u1" init);
    try discriminate.
  reflexivity.
Defined.

(** X16: the production stream is opened for the exchange name [binance]
    and for no other: every other name that [/connect] accepts holds
    [testnet], and its socket goes to the test network. *)
Theorem production_stream_only_for_binance e sy tf u s :
  e ≠ "" → sy ≠ "" → tf ≠ "" → u ≠ "" →
  activeConnections s !! subscriptionKey e sy tf = None →
  let after := connect (request e sy tf u) s in
  after.2 = Success ("Connected to " +:+ subscriptionKey e sy tf) →
  sockets after.1 = sockets s ++
    [ {| url := (if bool_decide (e = "binance") then "wss://fstream.binance.com"
                 else "wss://stream.binancefuture.com")
                +:+ "/ws/" +:+ Js.toLowerCase sy +:+ "@kline_" +:+ tf;
         exchange := e; symbol := sy; timeframe := tf;
         isTestnet := negb (bool_decide (e = "binance"));
         state := CONNECTING |} ].
Proof.
  intros He Hsy Htf Hu Hfree. cbn zeta.
  rewrite binance_connect_complete by done. cbn zeta.
  rewrite Hfree. rewrite (bool_decide_eq_false_2 (is_Some None)) by (by intros [? ?]).
  case_bool_decide as Hbase; [| discriminate].
  intros _. cbn [fst]. unfold connectBinanceWS. cbn [activeConnections sockets].
  rewrite Hfree. rewrite (bool_decide_eq_false_2 (is_Some None)) by (by intros [? ?]).
  cbn [sockets]. do 2 f_equal.
  destruct (replace_binance e Hbase) as [-> | Htest].
  - reflexivity.
  - rewrite Htest. rewrite bool_decide_eq_false_2; [done |].
    intros ->. vm_compute in Htest. discriminate.
Qed.

Lemma production_stream_only_for_binance_witness :
  let after := connect (request "binance-testnet" "BTCUSDT" "1m" "u1") init in
  sockets after.1 = sockets init ++
    [ {| url := (if bool_decide ("binance-testnet" = "binance")
                 then "wss://fstream.binance.com"
                 else "wss://stream.binancefuture.com")
                +:+ "/ws/" +:+ Js.toLowerCase "BTCUSDT" +:+ "@kline_" +:+ "1m";
         exchange := "binance-testnet"; symbol := "BTCUSDT"; timeframe := "1m";
         isTestnet := negb (bool_decide ("binance-testnet" = "binance"));
         state := CONNECTING |} ].
Proof.
  apply (production_stream_only_for_binance "binance-testnet" "BTCUSDT" "1m" "u1" init);
    try discriminate.
  - reflexivity.
  - vm_compute. reflexivity.
Defined.

(** ** [/disconnect] and the message handler *)

Lemma disconnect_removes_user e sy tf u s users :
  e ≠ "" → sy ≠ "" → tf ≠ "" → u ≠ "" →
  userSubscriptions (disconnect (request e sy tf u) s).1 !! subscriptionKey e sy tf
    = Some users →
  u ∉ users.
Proof.
  intros He Hsy Htf Hu. unfold disconnect. rewrite request_complete by done.
  cbn [request body_exchange body_symbol body_timeframe body_userId default
       from_option id].
  set (key := subscriptionKey e sy tf).
  case_bool_decide as Hhas.
  - destruct Hhas as [old Hold].
    rewrite lookup_alter_eq, Hold. cbn [fmap option_fmap option_map default from_option id].
    case_bool_decide as Hsize.
    + destruct (activeConnections s !! key); cbn [fst userSubscriptions];
        by rewrite lookup_delete_eq.
    + cbn [fst userSubscriptions]. rewrite lookup_alter_eq, Hold.
      intros [= <-]. rewrite elem_of_difference, elem_of_singleton. by intros [_ ?].
  - cbn [fst userSubscriptions]. intros Hsome. destruct Hhas. by eexists.
Qed.

(** X17: once [/disconnect] has answered, no message of the socket of that
    key is forwarded to the user who left, whether or not the socket has
    been closed: the handler reads the registry each time.  (The order in
    which the [Set] iterates does not matter here.) *)
Theorem no_candle_after_disconnect parseFloat e sy tf u s data :
  e ≠ "" → sy ≠ "" → tf ≠ "" → u ≠ "" →
  Forall (λ sent, sent.2 ≠ u)
    (on_message parseFloat e sy tf
       (elements <$> userSubscriptions (disconnect (request e sy tf u) s).1
                       !! subscriptionKey e sy tf) data).
Proof.
  intros He Hsy Htf Hu. apply Forall_forall. intros [c u'] Hsent. cbn [snd]. intros ->.
  assert (∃ users, userSubscriptions (disconnect (request e sy tf u) s).1
                     !! subscriptionKey e sy tf = Some users ∧ u ∈ users)
    as (users & Husers & Hin).
  { unfold on_message in Hsent.
    destruct data as [parsed|]; [| by apply elem_of_nil in Hsent].
    case_bool_decide; [| by apply elem_of_nil in Hsent].
    destruct (Feed.message_k parsed) as [k|]; [| by apply elem_of_nil in Hsent].
    destruct (Feed.k_x k); [| by apply elem_of_nil in Hsent].
    destruct (userSubscriptions _ !! _) as [users|];
      [| by apply elem_of_nil in Hsent].
    exists users. split; [done |]. cbn [fmap option_fmap option_map] in Hsent.
    apply list_elem_of_fmap in Hsent as (u0 & [= _ ->] & Hin).
    by apply elem_of_elements in Hin. }
  by apply (disconnect_removes_user e sy tf u s users).
Qed.

Lemma no_candle_after_disconnect_witness :
  Forall (λ sent, sent.2 ≠ "u1")
    (on_message (λ _, 1%float) "binance" "BTCUSDT" "1m"
       (elements <$> userSubscriptions
          (disconnect (request "binance" "BTCUSDT" "1m" "u1")
             (run init [PostConnect (request "binance" "BTCUSDT" "1m" "u1");
                        PostConnect (request "binance" "BTCUSDT" "1m" "u2")])).1
          !! subscriptionKey "binance" "BTCUSDT" "1m")
       (Some {| Feed.message_e := Some "kline";
                Feed.message_k :=
                  Some {| Feed.k_t := 60000; Feed.k_T := 119999; Feed.k_o := "100";
                          Feed.k_h := "101"; Feed.k_l := "99"; Feed.k_c := "100.5";
                          Feed.k_v := "3"; Feed.k_x := true |};
                Feed.message_topic := None; Feed.message_data := None |})).
Proof.
  apply (no_candle_after_disconnect (λ _, 1%float) "binance" "BTCUSDT" "1m" "u1");
    discriminate.
Defined.

End BinanceSpec.

(** * The per-timeframe server *)

Module TimeframesSpec.
Import Bridge BridgeSpec.
Import Timeframes.

Lemma timeframes_close_other ws ws' (l : list WebSocket) :
  ws ≠ ws' → close ws l !! ws' = l !! ws'.
Proof.
  intros Hne. unfold close. destruct (l !! ws); [| done].
  by rewrite list_lookup_insert_ne.
Qed.

(** X18: a [/disconnect] concerns one key only.  The subscribers and the
    connection of every other key, another timeframe of the same pair
    included, are as before, and so is every socket but the one registered
    under the key of the request. *)
Theorem disconnect_leaves_other_keys b s key' :
  key' ≠ subscriptionKey (default "" (body_exchange b)) (default "" (body_symbol b))
                         (default "" (body_timeframe b)) →
  let key := subscriptionKey (default "" (body_exchange b)) (default "" (body_symbol b))
                             (default "" (body_timeframe b)) in
  let after := (disconnect b s).1 in
  userSubscriptions after !! key' = userSubscriptions s !! key'
  ∧ activeConnections after !! key' = activeConnections s !! key'
  ∧ ∀ ws, activeConnections s !! key ≠ Some ws → sockets after !! ws = sockets s !! ws.
Proof.
  intros Hne. cbn zeta. unfold disconnect.
  set (key := subscriptionKey _ _ _) in *.
  destruct (falsy _ || _ || _ || _); [done |].
  case_bool_decide; [| done].
  case_bool_decide.
  - destruct (activeConnections s !! key) as [ws0|] eqn:Hws0;
      cbn [fst userSubscriptions activeConnections sockets].
    + rewrite !lookup_delete_ne, lookup_alter_ne by done.
      split; [done |]. split; [done |]. intros ws Hws.
      apply timeframes_close_other. congruence.
    + by rewrite lookup_delete_ne, lookup_alter_ne by done.
  - cbn [fst userSubscriptions activeConnections sockets].
    by rewrite lookup_alter_ne by done.
Qed.

Lemma disconnect_leaves_other_keys_witness :
  let s := run init [PostConnect (request "binance" "BTCUSDT" "1m" "u1"); WsOpen 0;
                     PostConnect (request "binance" "BTCUSDT" "5m" "u1"); WsOpen 1] in
  let b := request "binance" "BTCUSDT" "1m" "u1" in
  let key := subscriptionKey (default "" (body_exchange b)) (default "" (body_symbol b))
                             (default "" (body_timeframe b)) in
  let after := (disconnect b s).1 in
  userSubscriptions after !! "binance-BTCUSDT-5m" = userSubscriptions s !! "binance-BTCUSDT-5m"
  ∧ activeConnections after !! "binance-BTCUSDT-5m"
    = activeConnections s !! "binance-BTCUSDT-5m"
  ∧ ∀ ws, activeConnections s !! key ≠ Some ws → sockets after !! ws = sockets s !! ws.
Proof.
  apply (disconnect_leaves_other_keys (request "binance" "BTCUSDT" "1m" "u1")
           (run init [PostConnect (request "binance" "BTCUSDT" "1m" "u1"); WsOpen 0;
                      PostConnect (request "binance" "BTCUSDT" "5m" "u1"); WsOpen 1])
           "binance-BTCUSDT-5m").
  discriminate.
Defined.

(** X19: when the reconnect timer of a closed socket fires, a new socket is
    constructed exactly when the key of the closed socket itself still has
    a subscriber, no connection is registered under it, and its exchange is
    in the [switch]; subscribers of other timeframes of the pair do not
    count. *)
Theorem reconnect_needs_own_subscribers s i t :
  timers s !! i = Some t →
  let key := subscriptionKey (timeout_exchange t) (timeout_symbol t)
                             (timeout_timeframe t) in
  length (sockets (on_timeout i s)) = S (length (sockets s))
  ↔ (∃ users, userSubscriptions s !! key = Some users ∧ users ≠ ∅)
    ∧ activeConnections s !! key = None
    ∧ is_Some (wsUrl (timeout_exchange t) (timeout_symbol t) (timeout_timeframe t)).
Proof.
  intros Ht. cbn zeta. unfold on_timeout. rewrite Ht.
  set (key := subscriptionKey _ _ _).
  destruct (userSubscriptions s !! key) as [users|] eqn:Husers.
  - case_bool_decide as Hsize.
    + unfold connectExchange. cbn [activeConnections sockets]. fold key.
      case_bool_decide as Hreg.
      * cbn [sockets]. split; [lia |]. intros (_ & Hfree & _).
        rewrite Hfree in Hreg. by destruct Hreg.
      * destruct (wsUrl _ _ _) as [address|]; cbn [sockets].
        -- rewrite length_app. cbn [length]. split; [intros _ | lia].
           split; [| split; [by apply eq_None_not_Some | by eexists]].
           exists users. split; [done |]. intros ->. rewrite size_empty in Hsize. lia.
        -- split; [lia |]. by intros (_ & _ & [? ?]).
    + cbn [sockets]. split; [lia |]. intros ((users' & [= <-] & Hne) & _).
      exfalso. apply Hne, leibniz_equiv, size_empty_iff. lia.
  - cbn [sockets]. split; [lia |]. by intros ((? & ? & _) & _).
Qed.

Lemma reconnect_needs_own_subscribers_witness :
  let s := run init [PostConnect (request "binance" "BTCUSDT" "1m" "u1"); WsOpen 0;
                     WsClose 0] in
  let t := {| delay := 5000; timeout_exchange := "binance";
              timeout_symbol := "BTCUSDT"; timeout_timeframe := "1m" |} in
  let key := subscriptionKey (timeout_exchange t) (timeout_symbol t)
                             (timeout_timeframe t) in
  length (sockets (on_timeout 0 s)) = S (length (sockets s))
  ↔ (∃ users, userSubscriptions s !! key = Some users ∧ users ≠ ∅)
    ∧ activeConnections s !! key = None
    ∧ is_Some (wsUrl (timeout_exchange t) (timeout_symbol t) (timeout_timeframe t)).
Proof.
  apply (reconnect_needs_own_subscribers
           (run init [PostConnect (request "binance" "BTCUSDT" "1m" "u1"); WsOpen 0;
                      WsClose 0])
           0
           {| delay := 5000; timeout_exchange := "binance";
              timeout_symbol := "BTCUSDT"; timeout_timeframe := "1m" |}).
  vm_compute. reflexivity.
Defined.

(** X20: a complete request for a key without a connection, followed by the
    ['open'] event of the socket it constructs: the user is entered under
    the key, and the key is registered to a new open socket whose address,
    and for Bybit whose one subscription, carry the requested timeframe. *)
Theorem connect_then_open e sy tf u s address :
  e ≠ "" → sy ≠ "" → tf ≠ "" → u ≠ "" →
  activeConnections s !! subscriptionKey e sy tf = None →
  wsUrl e sy tf = Some address →
  run s [PostConnect (request e sy tf u); WsOpen (length (sockets s))] =
  {| userSubscriptions :=
       <[subscriptionKey e sy tf :=
           default ∅ (userSubscriptions s !! subscriptionKey e sy tf) ∪ {[u]}]>
         (userSubscriptions s);
     activeConnections :=
       <[subscriptionKey e sy tf := length (sockets s)]> (activeConnections s);
     sockets := sockets s ++
       [ {| url := address; exchange := e; symbol := sy; timeframe := tf;
            state := OPEN;
            sent := if Js.includes (Js.toLowerCase e) "bybit"
                    then [("subscribe", ["kline." +:+ tf +:+ "." +:+ sy])] else [] |} ];
     timers := timers s |}.
Proof.
  intros He Hsy Htf Hu Hfree Hurl. unfold run. cbn [fold_left step].
  unfold connect. rewrite request_complete by done.
  cbn [request body_exchange body_symbol body_timeframe body_userId default
       from_option id activeConnections fst].
  rewrite subscribe_as_insert.
  rewrite Hfree. rewrite (bool_decide_eq_false_2 (is_Some None)) by (by intros [? ?]).
  unfold connectExchange. cbn [activeConnections sockets userSubscriptions timers].
  rewrite Hfree. rewrite (bool_decide_eq_false_2 (is_Some None)) by (by intros [? ?]).
  rewrite Hurl. unfold on_open. cbn [sockets].
  rewrite list_lookup_middle by done.
  cbn [state exchange symbol timeframe url sent userSubscriptions activeConnections
       timers app].
  f_equal. by rewrite insert_app_r_alt, Nat.sub_diag by done.
Qed.

Lemma connect_then_open_witness :
  run init [PostConnect (request "bybit" "BTCUSDT" "5" "u1"); WsOpen (length (sockets init))] =
  {| userSubscriptions :=
       <[subscriptionKey "bybit" "BTCUSDT" "5" :=
           default ∅ (userSubscriptions init !! subscriptionKey "bybit" "BTCUSDT" "5")
           ∪ {["u1"]}]> (userSubscriptions init);
     activeConnections :=
       <[subscriptionKey "bybit" "BTCUSDT" "5" := length (sockets init)]>
         (activeConnections init);
     sockets := sockets init ++
       [ {| url := "wss://stream.bybit.com/v5/public/linear"; exchange := "bybit";
            symbol := "BTCUSDT"; timeframe := "5"; state := OPEN;
            sent := if Js.includes (Js.toLowerCase "bybit") "bybit"
                    then [("subscribe", ["kline." +:+ "5" +:+ "." +:+ "BTCUSDT"])]
                    else [] |} ];
     timers := timers init |}.
Proof.
  apply (connect_then_open "bybit" "BTCUSDT" "5" "u1" init
           "wss://stream.bybit.com/v5/public/linear"); try discriminate.
  - reflexivity.
  - reflexivity.
Defined.

(** ** The message handler *)

Lemma candlesOf_labels parseFloat e sy tf data :
  Forall (λ c, Aggregator.exchange c = e ∧ Aggregator.symbol c = sy
               ∧ Aggregator.timeframe c = tf)
         (candlesOf parseFloat e sy tf data).
Proof.
  unfold candlesOf. destruct data as [message|]; [| constructor].
  apply Forall_app. split.
  - destruct (Feed.message_e message); [| constructor].
    destruct (Feed.message_k message); [| constructor].
    destruct (_ && _); repeat constructor.
  - destruct (Feed.message_topic message); [| constructor].
    destruct (Feed.message_data message); [| constructor].
    destruct (Js.startsWith _ _); [| constructor].
    apply Forall_fmap, Forall_forall. by intros.
Qed.

(** X21: in one run of the handler, one message is forwarded candle by
    candle to every subscriber of the key of the socket.  Every candle of the message reaches every
    subscriber; the sends are, for each candle in the order the handler
    builds them, one to each subscriber in the order the [Set] iterates,
    and no others; and every candle is labelled with the exchange, symbol
    and timeframe the socket was constructed for. *)
Theorem every_candle_to_every_subscriber parseFloat e sy tf users data :
  let built := candlesOf parseFloat e sy tf data in
  let sent := on_message parseFloat e sy tf (Some users) data in
  (∀ c u, c ∈ built → u ∈ users → (c, u) ∈ sent)
  ∧ sent.*1 = (built ≫= λ c, replicate (length users) c)
  ∧ sent.*2 = (built ≫= λ _, users)
  ∧ Forall (λ c, Aggregator.exchange c = e ∧ Aggregator.symbol c = sy
                 ∧ Aggregator.timeframe c = tf) built.
Proof.
  cbn zeta. unfold on_message.
  split; [| split; [| split; [| apply candlesOf_labels]]].
  - intros c u Hc Hu. apply list_elem_of_bind. exists c. split; [| done].
    apply list_elem_of_fmap. by exists u.
  - induction (candlesOf parseFloat e sy tf data) as [|c cs IH]; [done |].
    cbn [mbind list_bind]. rewrite fmap_app, IH. f_equal.
    clear. induction users as [|u users IH]; [done |].
    cbn [fmap list_fmap length replicate fst]. f_equal. apply IH.
  - induction (candlesOf parseFloat e sy tf data) as [|c cs IH]; [done |].
    cbn [mbind list_bind]. rewrite fmap_app, IH. f_equal.
    clear. induction users as [|u users IH]; [done |].
    cbn [fmap list_fmap snd]. f_equal. apply IH.
Qed.

End TimeframesSpec.

(** * The first bridge *)

Module RelaySpec.
Import Bridge (readyState, CONNECTING, OPEN, CLOSING, CLOSED, subscriptionKey, falsy).
Import Relay.

Lemma connectExchange_twice e sy tf s :
  connectExchange e sy tf (connectExchange e sy tf s) = connectExchange e sy tf s.
Proof.
  destruct (bool_decide (is_Some (connections s !! subscriptionKey e sy tf)))
    eqn:Hreg.
  - assert (connectExchange e sy tf s = s) as Hsame
      by (unfold connectExchange; by rewrite Hreg).
    by rewrite !Hsame.
  - destruct (Timeframes.wsUrl e sy tf) as [address|] eqn:Hurl.
    + assert (is_Some (connections (connectExchange e sy tf s)
                         !! subscriptionKey e sy tf)) as Hnow.
      { unfold connectExchange. rewrite Hreg, Hurl. cbn [connections].
        rewrite lookup_insert_eq. by eexists. }
      unfold connectExchange at 1. by rewrite bool_decide_eq_true_2.
    + assert (connectExchange e sy tf s = s) as Hsame
        by (unfold connectExchange; by rewrite Hreg, Hurl).
      by rewrite !Hsame.
Qed.

(** X22: the socket is registered when it is constructed, so a repeated
    [/connect] finds it: the second of two equal requests changes nothing
    and gets the same answer, whether or not the first socket has opened. *)
Theorem repeated_connect_changes_nothing b s :
  connect b (connect b s).1 = connect b s.
Proof.
  unfold connect. destruct (falsy _ || _ || _) eqn:Hmissing; cbn [fst].
  - done.
  - by rewrite connectExchange_twice.
Qed.

(** X23: a repeated [/disconnect] is answered 404 and changes nothing,
    whatever the first one did. *)
Theorem repeated_disconnect_is_not_found b s :
  disconnect b (disconnect b s).1 =
  ((disconnect b s).1,
   NotFound ("Connection not found: "
             +:+ subscriptionKey (interpolated (body_exchange b))
                                 (interpolated (body_symbol b))
                                 (interpolated (body_timeframe b)))).
Proof.
  unfold disconnect. set (key := subscriptionKey _ _ _).
  destruct (connections s !! key) as [ws|] eqn:Hws; cbn [fst connections].
  - by rewrite lookup_delete_eq.
  - by rewrite Hws.
Qed.

(** X24: a [/disconnect] does not last.  The ['close'] event of the socket
    it closes queues the reconnect timer, and the timer, which asks
    nothing, constructs and registers a new socket for the same key. *)
Theorem disconnect_is_undone_by_timer s ws socket address :
  let key := subscriptionKey (exchange socket) (symbol socket) (timeframe socket) in
  connections s !! key = Some ws →
  sockets s !! ws = Some socket →
  state socket ≠ CLOSED →
  Timeframes.wsUrl (exchange socket) (symbol socket) (timeframe socket) = Some address →
  run s [PostDisconnect (request (exchange socket) (symbol socket) (timeframe socket));
         WsClose ws; TimerFires (length (timers s))] =
  {| connections := <[key := length (sockets s)]> (connections s);
     sockets :=
       <[ws := {| url := url socket; exchange := exchange socket;
                  symbol := symbol socket; timeframe := timeframe socket;
                  state := CLOSED; sent := sent socket |}]> (sockets s)
       ++ [ {| url := address; exchange := exchange socket; symbol := symbol socket;
               timeframe := timeframe socket; state := CONNECTING; sent := [] |} ];
     timers := timers s |}.
Proof.
  intros key Hkey Hws Hlive Hurl. unfold run. cbn [fold_left step].
  pose proof (lookup_lt_Some _ _ _ Hws) as Hlt.
  unfold disconnect.
  cbn [request body_exchange body_symbol body_timeframe interpolated default
       from_option id]. fold key. rewrite Hkey. cbn [fst].
  unfold close. rewrite Hws.
  unfold on_close. cbn [sockets]. rewrite list_lookup_insert_eq by done.
  cbn [state url exchange symbol timeframe sent].
  assert (match state socket with CLOSED => CLOSED | _ => CLOSING end = CLOSING)
    as -> by (by destruct (state socket)).
  cbn [connections sockets timers]. fold key.
  rewrite list_insert_insert_eq.
  unfold on_timeout. cbn [timers]. rewrite list_lookup_middle by done.
  cbn [timeout_exchange timeout_symbol timeout_timeframe connections sockets].
  rewrite delete_middle, app_nil_r.
  unfold connectExchange. cbn [connections sockets timers]. fold key.
  rewrite bool_decide_eq_false_2.
  2:{ rewrite lookup_delete_eq. by intros [? ?]. }
  rewrite Hurl. rewrite !insert_delete_eq. by rewrite length_insert.
Qed.

Lemma disconnect_is_undone_by_timer_witness :
  let s := run init [PostConnect (request "binance" "BTCUSDT" "1m"); WsOpen 0] in
  let socket := {| url := "wss://fstream.binance.com/ws/btcusdt@kline_1m";
                   exchange := "binance"; symbol := "BTCUSDT"; timeframe := "1m";
                   state := OPEN; sent := [] |} in
  let key := subscriptionKey (exchange socket) (symbol socket) (timeframe socket) in
  run s [PostDisconnect (request (exchange socket) (symbol socket) (timeframe socket));
         WsClose 0; TimerFires (length (timers s))] =
  {| connections := <[key := length (sockets s)]> (connections s);
     sockets :=
       <[0%nat := {| url := url socket; exchange := exchange socket;
                     symbol := symbol socket; timeframe := timeframe socket;
                     state := CLOSED; sent := sent socket |}]> (sockets s)
       ++ [ {| url := "wss://fstream.binance.com/ws/btcusdt@kline_1m";
               exchange := exchange socket; symbol := symbol socket;
               timeframe := timeframe socket; state := CONNECTING; sent := [] |} ];
     timers := timers s |}.
Proof.
  apply (disconnect_is_undone_by_timer
           (run init [PostConnect (request "binance" "BTCUSDT" "1m"); WsOpen 0]) 0
           {| url := "wss://fstream.binance.com/ws/btcusdt@kline_1m";
              exchange := "binance"; symbol := "BTCUSDT"; timeframe := "1m";
              state := OPEN; sent := [] |}
           "wss://fstream.binance.com/ws/btcusdt@kline_1m").
  - vm_compute. reflexivity.
  - vm_compute. reflexivity.
  - discriminate.
  - vm_compute. reflexivity.
Defined.

(** ** Registered connections *)

Lemma relay_close_other ws ws' (l : list WebSocket) :
  ws ≠ ws' → close ws l !! ws' = l !! ws'.
Proof.
  intros Hne. unfold close. destruct (l !! ws); [| done].
  by rewrite list_lookup_insert_ne.
Qed.

Lemma relay_close_same ws (l : list WebSocket) socket :
  l !! ws = Some socket →
  ∃ closing, close ws l !! ws = Some closing
             ∧ exchange closing = exchange socket
             ∧ symbol closing = symbol socket
             ∧ timeframe closing = timeframe socket
             ∧ state closing = match state socket with CLOSED => CLOSED | _ => CLOSING end.
Proof.
  intros Hws. unfold close. rewrite Hws. eexists.
  split; [apply list_lookup_insert_eq; by eapply lookup_lt_Some | done].
Qed.

Lemma step_keeps_registered_unclosed s ev :
  (∀ key ws, connections s !! key = Some ws →
     ∃ socket, sockets s !! ws = Some socket
               ∧ state socket ≠ CLOSED
               ∧ key = subscriptionKey (exchange socket) (symbol socket)
                                       (timeframe socket)) →
  ∀ key ws, connections (step s ev) !! key = Some ws →
    ∃ socket, sockets (step s ev) !! ws = Some socket
              ∧ state socket ≠ CLOSED
              ∧ key = subscriptionKey (exchange socket) (symbol socket)
                                      (timeframe socket).
Proof.
  intros Hinv.
  assert (∀ e sy tf s0,
            connections s0 = connections s →
            sockets s0 = sockets s →
            ∀ key ws, connections (connectExchange e sy tf s0) !! key = Some ws →
              ∃ socket, sockets (connectExchange e sy tf s0) !! ws = Some socket
                        ∧ state socket ≠ CLOSED
                        ∧ key = subscriptionKey (exchange socket) (symbol socket)
                                                (timeframe socket))
    as Hconnect.
  { intros e sy tf s0 Hc Hs key ws. unfold connectExchange.
    case_bool_decide; [rewrite Hc, Hs; apply Hinv |].
    destruct (Timeframes.wsUrl e sy tf); [| rewrite Hc, Hs; apply Hinv].
    cbn [connections sockets]. rewrite Hc, Hs. intros Hkey.
    apply lookup_insert_Some in Hkey as [[<- <-] | [Hne Hkey]].
    - eexists. split; [by apply list_lookup_middle |]. split; [discriminate | done].
    - destruct (Hinv key ws Hkey) as (socket & Hws & Hlive & Hk).
      exists socket. split; [| done].
      rewrite lookup_app_l; [done | by eapply lookup_lt_Some]. }
  destruct ev as [b | b | i | i | i | i]; cbn [step].
  - unfold connect. destruct (falsy _ || _ || _); [apply Hinv |].
    cbn [fst]. by apply Hconnect.
  - unfold disconnect. set (key0 := subscriptionKey _ _ _).
    destruct (connections s !! key0) as [ws0|] eqn:Hreg; [| apply Hinv].
    cbn [fst connections sockets]. intros key ws Hkey.
    apply lookup_delete_Some in Hkey as [Hne Hkey].
    destruct (Hinv key ws Hkey) as (socket & Hws & Hlive & Hk).
    destruct (Hinv key0 ws0 Hreg) as (socket0 & Hws0 & _ & Hk0).
    exists socket. split; [| done].
    rewrite relay_close_other; [done |]. intros ->. congruence.
  - unfold on_open. destruct (sockets s !! i) as [opening|] eqn:Hi; [| apply Hinv].
    destruct (state opening) eqn:Hstate; try apply Hinv.
    cbn [connections sockets]. intros key ws Hkey.
    destruct (Hinv key ws Hkey) as (socket & Hws & Hlive & Hk).
    destruct (decide (ws = i)) as [-> | Hne].
    + eexists. split; [apply list_lookup_insert_eq; by eapply lookup_lt_Some |].
      split; [discriminate |]. cbn [exchange symbol timeframe]. congruence.
    + exists socket. split; [| done]. by rewrite list_lookup_insert_ne.
  - unfold on_close. destruct (sockets s !! i) as [closing|] eqn:Hi; [| apply Hinv].
    assert (∀ key ws,
              delete (subscriptionKey (exchange closing) (symbol closing)
                                      (timeframe closing))
                     (connections s) !! key = Some ws →
              ∃ socket, <[i := {| url := url closing; exchange := exchange closing;
                                  symbol := symbol closing;
                                  timeframe := timeframe closing; state := CLOSED;
                                  sent := sent closing |}]> (sockets s) !! ws
                        = Some socket
                        ∧ state socket ≠ CLOSED
                        ∧ key = subscriptionKey (exchange socket) (symbol socket)
                                                (timeframe socket))
      as Hclosed.
    { intros key ws Hkey. apply lookup_delete_Some in Hkey as [Hne Hkey].
      destruct (Hinv key ws Hkey) as (socket & Hws & Hlive & Hk).
      exists socket. split; [| done].
      rewrite list_lookup_insert_ne; [done |]. intros ->. congruence. }
    destruct (state closing); try apply Hclosed. apply Hinv.
  - unfold on_timeout. destruct (timers s !! i) as [t|]; [| apply Hinv].
    by apply Hconnect.
  - unfold on_closing. cbn [connections sockets]. intros key ws Hkey.
    destruct (Hinv key ws Hkey) as (socket & Hws & Hlive & Hk).
    destruct (decide (i = ws)) as [-> | Hne].
    + destruct (relay_close_same ws (sockets s) socket Hws)
        as (closing & Hclosing & He & Hsy & Htf & Hstate).
      exists closing. split; [done |]. split; [| congruence].
      rewrite Hstate. by destruct (state socket).
    + exists socket. split; [| done]. by rewrite relay_close_other.
Qed.

(** X25: whatever the bridge has handled since it started, requests,
    callbacks and sockets that start closing on their own, every entry of
    [connections] refers to a socket that was constructed for that key and
    has not closed: it is connecting, open or closing.  A socket whose
    ['close'] callback has run is no longer registered. *)
Theorem registered_sockets_have_not_closed events key ws :
  connections (run init events) !! key = Some ws →
  ∃ socket, sockets (run init events) !! ws = Some socket
            ∧ state socket ≠ CLOSED
            ∧ key = subscriptionKey (exchange socket) (symbol socket)
                                    (timeframe socket).
Proof.
  revert key ws. unfold run.
  assert (∀ key ws, connections init !! key = Some ws →
            ∃ socket, sockets init !! ws = Some socket
                      ∧ state socket ≠ CLOSED
                      ∧ key = subscriptionKey (exchange socket) (symbol socket)
                                              (timeframe socket))
    as Hinit.
  { intros key ws Hkey. cbn in Hkey. by rewrite lookup_empty in Hkey. }
  revert Hinit. generalize init.
  induction events as [|ev events IH]; intros s Hs; [done |].
  cbn [fold_left]. apply IH. by apply step_keeps_registered_unclosed.
Qed.

Lemma registered_sockets_have_not_closed_witness :
  ∃ socket, sockets (run init [PostConnect (request "bybit" "BTCUSDT" "5"); WsClosing 0])
              !! 0%nat = Some socket
            ∧ state socket ≠ CLOSED
            ∧ "bybit-BTCUSDT-5" = subscriptionKey (exchange socket) (symbol socket)
                                                  (timeframe socket).
Proof.
  apply (registered_sockets_have_not_closed
           [PostConnect (request "bybit" "BTCUSDT" "5"); WsClosing 0]
           "bybit-BTCUSDT-5" 0).
  vm_compute. reflexivity.
Defined.

End RelaySpec.
